(** * AI-storyteller backend: retrieval, generation and assessment pipelines

    A shallow embedding of the service layer of the Python backend
    ([app/services], [app/agents], [app/openai_client]) together with the
    properties the specification states about it.

    Conventions of the embedding.
    - Python [str] is [string]; a character is an [ascii].
    - Python [dict] with string keys is [gmap string _].
    - A raised exception is the left injection of a sum, tagged by the
      exception class the source raises.
    - External capabilities (the completion model, the vector index, the
      standard library's [json.loads]) are section variables: every theorem
      holds whatever they answer.
    - A Python [float] is a binary64 float ([PrimFloat.float]), with the
      arithmetic of the machine; a number of parsed JSON is a rational. *)

From Stdlib Require Import Ascii String QArith Lia Lqa Floats.
From Stdlib Require Uint63.
From stdpp Require Import gmap strings list pretty.

(** ** Exceptions of [app/exceptions/custom_exceptions.py] and the built-in
       ones the modelled code can raise *)

Inductive exn : Type :=
| NotFoundError (message : string)
| ForbiddenError (message : string)
| JSONDecodeError
| ValueError (message : string)
| TypeError
| AttributeError
| ValidationError
| InvalidId
| IndexError
| UpstreamError (message : string)
| Exception (message : string)
| Failed (context : string) (cause : exn).

Definition result (A : Type) : Type := exn + A.

Abbreviation Ok a := (inr a) (only parsing).
Abbreviation Raise e := (inl e) (only parsing).

Definition bind {A B} (m : result A) (k : A -> result B) : result B :=
  match m with
  | inl e => inl e
  | inr a => k a
  end.

Notation "'try!' x ':=' m 'in' k" := (bind m (fun x => k))
  (at level 10, x name, m at level 100, k at level 200).

(** A comprehension or loop whose body can raise: the first exception
    stops it. *)
Fixpoint mapM_result {A B} (f : A -> result B) (l : list A) : result (list B) :=
  match l with
  | [] => Ok []
  | a :: l' =>
      try! b := f a in
      try! bs := mapM_result f l' in
      Ok (b :: bs)
  end.

Definition is_ok {A} (m : result A) : bool :=
  match m with inr _ => true | inl _ => false end.

(** ** Parsed JSON: what [json.loads] returns *)

#[warnings="-register-all"]
Inductive json : Type :=
| JNull
| JBool (b : bool)
| JNumber (q : Q)
| JString (s : string)
| JArray (items : list json)
| JObject (fields : gmap string json).

Module Json.

(** [d.get(key, default)]: only a [dict] has the method. *)
Definition get (d : json) (key : string) (default : json) : result json :=
  match d with
  | JObject fields => Ok (match fields !! key with Some v => v | None => default end)
  | _ => Raise AttributeError
  end.

End Json.

(** ** Calls that leave the process

    The services are modelled together with the list of capability calls
    they make, in order. The similarity search embeds the query through the
    embedding capability and then queries the vector index; the completions
    are the chat-completion requests of story and question generation; an
    image generation is one illustration request; adding documents writes
    the chunks of a story to the index; a feedback completion is the
    chat-completion request of the grading, with the question dictionaries
    and the joined page texts its prompt is built from. *)

Inductive call : Type :=
| SimilaritySearch (query : string) (k : Z)
| StoryCompletion (story_title : string)
| QuestionCompletion (story_title whole_story : string)
| ImageGeneration (index : nat) (page_text : json)
| AddDocuments (story_title : string)
| FeedbackCompletion (questions : list json) (whole_story : string).

(** ** Python string primitives used by the services *)

Module PyStr.

(** A string is a Python [str] whose characters have code points below
    256, one character per code point. [str.isspace] on that range: the
    characters [str.strip()] and [str.split()] treat as white space, which
    are the ASCII ones, the next-line control U+0085 and the no-break space
    U+00A0. *)
Definition isspace (c : ascii) : bool :=
  match c with
  | "009" | "010" | "011" | "012" | "013"
  | "028" | "029" | "030" | "031" | " "
  | "133" | "160" => true
  | _ => false
  end%char.

Fixpoint lstrip (s : string) : string :=
  match s with
  | String c s' => if isspace c then lstrip s' else s
  | EmptyString => EmptyString
  end.

(** [rstrip] keeps a character when it is not white space or when
    something survives after it. *)
Fixpoint rstrip (s : string) : string :=
  match s with
  | EmptyString => EmptyString
  | String c s' =>
      match rstrip s' with
      | EmptyString => if isspace c then EmptyString else String c EmptyString
      | t => String c t
      end
  end.

(** [s.strip()] *)
Definition strip (s : string) : string := rstrip (lstrip s).

(** [s.startswith(sep)] *)
Fixpoint startswith (sep s : string) : bool :=
  match sep, s with
  | EmptyString, _ => true
  | String a sep', String b s' => if Stdlib.Strings.Ascii.eqb a b then startswith sep' s' else false
  | String _ _, EmptyString => false
  end.

(** [sep in s] *)
Fixpoint contains (sep s : string) : bool :=
  startswith sep s ||
  match s with
  | EmptyString => false
  | String _ s' => contains sep s'
  end.

Fixpoint drop (n : nat) (s : string) : string :=
  match n, s with
  | O, _ => s
  | S n', String _ s' => drop n' s'
  | S _, EmptyString => EmptyString
  end.

(** [s.partition(sep)] when [sep] occurs: the text before the leftmost
    occurrence and the text after it. *)
Fixpoint cut (sep s : string) : option (string * string) :=
  if startswith sep s then Some (EmptyString, drop (String.length sep) s)
  else match s with
       | EmptyString => None
       | String c s' =>
           match cut sep s' with
           | Some (before, after) => Some (String c before, after)
           | None => None
           end
       end.

(** [s.split(sep)] for a non-empty [sep]: cut at the leftmost occurrence,
    continue on what follows. The fuel is the length of [s], which the
    recursion cannot exhaust since every cut removes at least one
    character. *)
Fixpoint split_fuel (fuel : nat) (sep s : string) : list string :=
  match fuel with
  | O => [s]
  | S fuel' =>
      match cut sep s with
      | None => [s]
      | Some (before, after) => before :: split_fuel fuel' sep after
      end
  end.

Definition split (sep s : string) : list string :=
  split_fuel (String.length s) sep s.

(** [sep.join(parts)] *)
Fixpoint join (sep : string) (parts : list string) : string :=
  match parts with
  | [] => EmptyString
  | [p] => p
  | p :: rest => p +:+ sep +:+ join sep rest
  end.

(** [s.replace(old, new)] for a non-empty [old]: the pieces between the
    occurrences of [old], glued by [new]. *)
Definition replace (old new s : string) : string := join new (split old s).

(** [s[:n]] *)
Fixpoint take (n : nat) (s : string) : string :=
  match n, s with
  | S n', String c s' => String c (take n' s')
  | _, _ => EmptyString
  end.

(** [parts[i]]: [IndexError] is modelled by [None]. *)
Definition index {A} (parts : list A) (i : nat) : option A := parts !! i.

(** [s.split()] with no separator: maximal runs of non-space characters. *)
Fixpoint words_from (cur : string) (s : string) : list string :=
  match s with
  | EmptyString =>
      match cur with EmptyString => [] | _ => [String.rev cur] end
  | String c s' =>
      if isspace c then
        match cur with
        | EmptyString => words_from EmptyString s'
        | _ => String.rev cur :: words_from EmptyString s'
        end
      else words_from (String c cur) s'
  end.

Definition words (s : string) : list string := words_from EmptyString s.

End PyStr.

(** ** Reading assessment: [app/services/audio_service.py] *)

Module Jiwer.

(** Modelled from the spec: the word error rate of the third-party
    [jiwer.wer], which the repository imports and does not define. The
    specification fixes it as the edit distance between the two
    white-space-tokenised word sequences, every substitution, insertion
    and deletion costing one word, divided by the number of reference
    words. *)
Fixpoint edit_distance (a b : list string) : nat :=
  match a with
  | [] => length b
  | x :: a' =>
      (fix row (b : list string) : nat :=
         match b with
         | [] => length a
         | y :: b' =>
             (S (edit_distance a' b) `min` S (row b'))
               `min` ((if decide (x = y) then 0 else 1) + edit_distance a' b')
         end) b
  end.

(** [float(n)] of a count; the conversion goes through a 63-bit integer
    and is exact for the counts below [2^53]. *)
Definition float_of_nat (n : nat) : float :=
  of_uint63 (Uint63.of_Z (Z.of_nat n)).

(** Modelled from the spec: the quotient, in floating point, of the edit
    distance by the number of reference words. For a reference without any
    word the specification fixes no rate; the quotient is then infinite or
    not a number, and nothing is stated about it. *)
Definition word_error_rate (reference hypothesis : string) : float :=
  let r := PyStr.words reference in
  let h := PyStr.words hypothesis in
  (float_of_nat (edit_distance r h) / float_of_nat (length r))%float.

End Jiwer.

Module AudioService.

(** The fields of [schemas/audio.py] that [process_audio] reads or writes. *)
Record Audio : Type := mkAudio {
  file_path : string;
  whole_story : string;
  transcript : option string;
  score : option float
}.

(** The dictionary [process_audio] returns (the two diagnostic entries,
    which cannot raise and do not feed the score, are left out) and the
    audio document as last saved. *)
Record Processed : Type := mkProcessed {
  p_transcript : string;
  p_enhanced_transcript : string;
  p_score : float;
  p_saved : Audio
}.

(** Python's [max(a, b)]: [b] when [b > a], else [a]; a comparison with
    the value that is no number is false. The integer [0] that
    [max(0, x)] returns when [x] is not greater is the float zero here. *)
Definition py_max (a b : float) : float := if (a <? b)%float then b else a.

Section Capabilities.

(** AssemblyAI's transcriber and the chat completion used to correct the
    transcript. *)
Variable transcriber : string -> result string.
Variable completion : string -> string -> result string.
(** [jiwer.wer(reference, hypothesis)], a function of a third-party
    library: the rate it returns, or the exception it raises. *)
Variable wer : string -> string -> result float.

Definition transcribe_audio (audio_url : string) : result string :=
  match transcriber audio_url with
  | inr text => Ok text
  | inl e => Raise (Failed "Failed to transcribe audio" e)
  end.

Definition enhance_transcript (transcript story : string) : string :=
  match completion transcript story with
  | inr content => content
  | inl _ => transcript
  end.

Definition process_audio_body (audio : option Audio) : result Processed :=
  match audio with
  | None => Raise (NotFoundError "Audio not found")
  | Some audio =>
      if decide (whole_story audio = "")
      then Raise (Exception "Story content not found for audio")
      else
        try! transcript := transcribe_audio (file_path audio) in
        let audio := mkAudio (file_path audio) (whole_story audio)
                             (Some transcript) (score audio) in
        let enhanced_transcript :=
          enhance_transcript transcript (whole_story audio) in
        try! error_rate := wer (whole_story audio) enhanced_transcript in
        let score := py_max 0 (100 - (100 * error_rate))%float in
        let audio := mkAudio (file_path audio) (whole_story audio)
                             (AudioService.transcript audio) (Some score) in
        Ok (mkProcessed transcript enhanced_transcript score audio)
  end.

(** The [try]/[except] around the body: [NotFoundError] passes, anything
    else is re-raised as a generic failure. *)
Definition process_audio (audio : option Audio) : result Processed :=
  match process_audio_body audio with
  | inr r => Ok r
  | inl (NotFoundError m) => Raise (NotFoundError m)
  | inl e => Raise (Failed "Failed to process audio" e)
  end.

End Capabilities.

End AudioService.

(** ** Library retrieval: [app/services/rag_service.py] *)

Module RAGService.

(** The metadata values this repository writes into the vector index:
    strings ([user_id], [type], titles, ids) and integers ([child_age],
    [chunk_index]). *)
Inductive meta : Type :=
| MStr (s : string)
| MInt (n : Z).

#[global] Instance meta_eq_dec : EqDecision meta.
Proof. solve_decision. Defined.

(** [langchain_core.documents.Document] *)
Record Document : Type := mkDocument {
  page_content : string;
  metadata : gmap string meta
}.

(** The owner recorded in a document's metadata is [user_id]. *)
Definition owned_by (user_id : string) (doc : Document) : Prop :=
  metadata doc !! "user_id" = Some (MStr user_id).

(** The document is a book chunk or a story chunk. *)
Definition book_or_story (doc : Document) : Prop :=
  metadata doc !! "type" = Some (MStr "book") ∨
  metadata doc !! "type" = Some (MStr "story").

Section VectorStore.

(** [self.vector_store.similarity_search(query, k=...)]: the ranked
    documents, nearest first, or the exception of the embedding service or
    of the index. *)
Variable similarity_search : string -> Z -> result (list Document).

(** The [for doc in results] loop of [retrieve_from_user_library];
    [filtered_results] is the list built so far. *)
Fixpoint filter_results (user_id : string) (child_age top_k : Z)
    (include_books include_stories : bool)
    (results filtered_results : list Document) : list Document :=
  match results with
  | [] => filtered_results
  | doc :: results' =>
      let continue :=
        filter_results user_id child_age top_k include_books include_stories
                       results' in
      let metadata := metadata doc in
      if negb (bool_decide (metadata !! "user_id" = Some (MStr user_id)))
      then continue filtered_results
      else if negb (bool_decide (metadata !! "child_age" = Some (MInt child_age)))
      then continue filtered_results
      else
        let doc_type := metadata !! "type" in
        if bool_decide (doc_type = Some (MStr "book")) && negb include_books
        then continue filtered_results
        else if bool_decide (doc_type = Some (MStr "story")) && negb include_stories
        then continue filtered_results
        else
          let filtered_results := filtered_results ++ [doc] in
          if (top_k <=? Z.of_nat (length filtered_results))%Z
          then filtered_results
          else continue filtered_results
  end.

(** [retrieve_from_user_library]: the documents returned and the outside
    calls made. Any exception of the search is caught and answered by the
    empty list. *)
Definition retrieve_from_user_library (query user_id : string)
    (child_age top_k : Z) (include_books include_stories : bool)
    : list Document * list call :=
  let calls := [SimilaritySearch query (top_k * 3)] in
  match similarity_search query (top_k * 3) with
  | inr results =>
      (filter_results user_id child_age top_k include_books include_stories
                      results [], calls)
  | inl _ => ([], calls)
  end.

End VectorStore.

End RAGService.


(** ** Fence stripping, shared by the story and the question parsers *)

Module Fences.

Definition fence : string := "```".
Definition json_fence : string := "```json".

(** [parts[i]] of a [split], an [IndexError] when out of range. *)
Definition part (parts : list string) (i : nat) : result string :=
  match PyStr.index parts i with
  | Some p => Ok p
  | None => Raise IndexError
  end.

(** [text.split(opening)[1].split("```")[0].strip()] *)
Definition between (opening text : string) : result string :=
  try! inner := part (PyStr.split opening text) 1 in
  try! body := part (PyStr.split fence inner) 0 in
  Ok (PyStr.strip body).

(** The [if "```json" in s: ... elif "```" in s: ...] cascade. *)
Definition clean (content_str : string) : result string :=
  if PyStr.contains json_fence content_str then between json_fence content_str
  else if PyStr.contains fence content_str then between fence content_str
  else Ok content_str.

End Fences.

(** ** The generation graph: [app/agents/story_graph.py] *)

Module StoryGraph.

Record StoryState : Type := mkStoryState {
  story_title : string;
  story_description : string;
  child_age : Z;
  max_pages : Z;
  user_id : string;
  use_books_context : bool;
  use_history_context : bool;
  library_context : string
}.

Definition newline : string := String "010"%char EmptyString.

(** ["\n\n".join(f"From your reading history {i+1}:\n{doc.page_content[:400]}..."
    for i, doc in enumerate(library_docs))] *)
Definition context_entry (i : nat) (doc : RAGService.Document) : string :=
  "From your reading history " +:+ pretty (S i) +:+ ":" +:+ newline
    +:+ PyStr.take 400 (RAGService.page_content doc) +:+ "...".

Definition format_context (library_docs : list RAGService.Document) : string :=
  PyStr.join (newline +:+ newline) (imap context_entry library_docs).

(** What the two prompts of [generate_story_content] are built from; the
    prompt text is a fixed template around these values. *)
Record Prompt : Type := mkPrompt {
  prompt_child_age : Z;
  prompt_max_pages : Z;
  prompt_title : string;
  prompt_description : string;
  prompt_library_context : string
}.

Definition prompt_of (state : StoryState) : Prompt :=
  mkPrompt (child_age state) (max_pages state) (story_title state)
           (story_description state) (library_context state).

Definition invalid_structure : exn :=
  ValueError "Invalid story structure: missing or invalid storyContent".

(** [x == "storyContent"] for a parsed JSON value [x]. *)
Definition is_storyContent (x : json) : bool :=
  match x with
  | JString s => bool_decide (s = "storyContent")
  | _ => false
  end.

(** The structure check
    [if "storyContent" not in story_json or
        not isinstance(story_json.get("storyContent"), list): raise ValueError],
    with Python's [in] on each kind of parsed value: key membership on a
    dict, element membership on a list, substring on a string, a
    [TypeError] elsewhere; [.get] exists on a dict only. *)
Definition validate_structure (story_json : json) : result unit :=
  match story_json with
  | JObject fields =>
      match fields !! "storyContent" with
      | Some (JArray _) => Ok tt
      | _ => Raise invalid_structure
      end
  | JArray items =>
      if existsb is_storyContent items then Raise AttributeError
      else Raise invalid_structure
  | JString s =>
      if PyStr.contains "storyContent" s then Raise AttributeError
      else Raise invalid_structure
  | JNull | JBool _ | JNumber _ => Raise TypeError
  end.

Section Capabilities.

Variable similarity_search : string -> Z -> result (list RAGService.Document).

(** The chat model: the text of its answer, or the message of the
    transport or API error it raised. *)
Variable llm : Prompt -> string + string.

(** [json.loads]; [None] is a [JSONDecodeError]. *)
Variable json_loads : string -> option json.

(** Node [retrieve_context]: the new [library_context] and the calls made. *)
Definition retrieve_context (state : StoryState) : string * list call :=
  if negb (use_books_context state || use_history_context state)
  then ("", [])
  else
    let query := story_title state +:+ " " +:+ story_description state in
    let '(library_docs, calls) :=
      RAGService.retrieve_from_user_library similarity_search
        query (user_id state) (child_age state) 3
        (use_books_context state) (use_history_context state) in
    match library_docs with
    | [] => ("", calls)
    | _ => (format_context library_docs, calls)
    end.

(** The inner [try] of [generate_story_content]: clean, parse, validate;
    a decode or value error is re-raised as the parse failure. *)
Definition parse_story (content_str : string) : result json :=
  let parsed :=
    try! content_str := Fences.clean content_str in
    match json_loads content_str with
    | None => Raise JSONDecodeError
    | Some story_json =>
        try! _ := validate_structure story_json in
        Ok story_json
    end in
  match parsed with
  | inl JSONDecodeError => Raise (Failed "Failed to parse story JSON from GPT" JSONDecodeError)
  | inl (ValueError m) => Raise (Failed "Failed to parse story JSON from GPT" (ValueError m))
  | other => other
  end.

(** Node [generate_story_content]; its outer handler re-raises unchanged. *)
Definition generate_story_content (state : StoryState) : result json * list call :=
  let calls := [StoryCompletion (story_title state)] in
  match llm (prompt_of state) with
  | inl message => (Raise (UpstreamError message), calls)
  | inr content => (parse_story content, calls)
  end.

(** [run_story_generation]: the two nodes in sequence. *)
Definition run_story_generation (story_title story_description : string)
    (child_age max_pages : Z) (user_id : string)
    (use_books_context use_history_context : bool) : result json * list call :=
  let initial_state :=
    mkStoryState story_title story_description child_age max_pages user_id
                 use_books_context use_history_context "" in
  let '(library_context, calls1) := retrieve_context initial_state in
  let state :=
    mkStoryState story_title story_description child_age max_pages user_id
                 use_books_context use_history_context library_context in
  let '(story_content, calls2) := generate_story_content state in
  (story_content, calls1 ++ calls2).

End Capabilities.

End StoryGraph.

(** ** Question generation: [app/openai_client/question_generator.py] *)

Module QuestionGenerator.

Section Capabilities.

(** The chat completion, given the story title and the joined page texts. *)
Variable completion : string -> string -> string + string.
Variable json_loads : string -> option json.

Definition crlf : string := String "013"%char (String "010"%char EmptyString).

(** [questions_text.strip().replace("\r\n", "").replace("\n", "")] *)
Definition sanitize (questions_text : string) : string :=
  PyStr.replace StoryGraph.newline ""
    (PyStr.replace crlf "" (PyStr.strip questions_text)).

(** [page.get("pageText", "")] inside the join needs a string. *)
Definition page_text_str (page : json) : result string :=
  try! text := Json.get page "pageText" (JString "") in
  match text with
  | JString s => Ok s
  | _ => Raise TypeError
  end.

Definition generate_questions_body (story_content : list json)
    (story_title : string) : result json * list call :=
  match mapM_result page_text_str story_content with
  | inl e => (Raise e, [])
  | inr texts =>
      let whole_story := PyStr.join " " texts in
      let calls := [QuestionCompletion story_title whole_story] in
      match completion story_title whole_story with
      | inl message => (Raise (UpstreamError message), calls)
      | inr questions_text =>
          (try! sanitized_text := Fences.clean (sanitize questions_text) in
           match json_loads sanitized_text with
           | Some questions => Ok questions
           | None => Raise (Failed "Failed to parse questions" JSONDecodeError)
           end, calls)
      end
  end.

(** The outer handler wraps every exception. *)
Definition generate_questions (story_content : list json)
    (story_title : string) : result json * list call :=
  let '(r, calls) := generate_questions_body story_content story_title in
  match r with
  | inr questions => (Ok questions, calls)
  | inl e => (Raise (Failed "Failed to generate questions" e), calls)
  end.

End Capabilities.

End QuestionGenerator.

(** ** Grading of answers: [app/openai_client/feedback_generator.py] *)

Module FeedbackGenerator.

Section Capabilities.

(** The chat completion, given the question dictionaries and the joined
    page texts. *)
Variable completion : list json -> string -> string + string.
Variable json_loads : string -> option json.

(** The three [q.get(...)] of the questions prompt need a dict. *)
Definition question_fields (q : json) : result (json * json * json) :=
  try! question := Json.get q "question" (JString "") in
  try! answer := Json.get q "answer" (JString "") in
  try! userAnswer := Json.get q "userAnswer" (JString "") in
  Ok (question, answer, userAnswer).

Definition generate_feedback_body (questions : list json)
    (story_content : list json) : result json * list call :=
  match mapM_result QuestionGenerator.page_text_str story_content with
  | inl e => (Raise e, [])
  | inr texts =>
      let whole_story := PyStr.join " " texts in
      match mapM_result question_fields questions with
      | inl e => (Raise e, [])
      | inr _ =>
          let calls := [FeedbackCompletion questions whole_story] in
          match completion questions whole_story with
          | inl message => (Raise (UpstreamError message), calls)
          | inr data =>
              (try! sanitized_data :=
                 Fences.clean (QuestionGenerator.sanitize data) in
               match json_loads sanitized_data with
               | Some feedback => Ok feedback
               | None => Raise (Failed "Failed to parse feedback" JSONDecodeError)
               end, calls)
          end
      end
  end.

(** The outer handler wraps every exception. *)
Definition generate_feedback (questions : list json)
    (story_content : list json) : result json * list call :=
  let '(r, calls) := generate_feedback_body questions story_content in
  match r with
  | inr feedback => (Ok feedback, calls)
  | inl e => (Raise (Failed "Failed to generate feedback" e), calls)
  end.

End Capabilities.

End FeedbackGenerator.

(** ** Story management: [app/services/story_service.py] *)

Module StoryService.

(** [bson.ObjectId] values. *)
Abbreviation oid := N.

(** [schemas/story.py] *)
Record PageContent : Type := mkPageContent {
  page_text : string;
  page_image : option string
}.

Record Story : Type := mkStory {
  story_id : oid;
  story_title : string;
  story_description : string;
  story_content : list PageContent;
  story_author : string;
  created_by : oid;
  max_pages : Z
}.

(** [schemas/assignment.py] *)
Record Question : Type := mkQuestion {
  question : string;
  answer : string;
  user_answer : option string
}.

Record Assignment : Type := mkAssignment {
  assignment_id : oid;
  sid : oid;
  uid : oid;
  questions : list Question
}.

(** The document store: stories by id, the assignment collection in
    insertion order, and the next identifier the driver hands out. *)
Record Db : Type := mkDb {
  stories : gmap oid Story;
  assignments : list Assignment;
  next_id : oid
}.

(** [schemas/feedback.py] *)
Record FeedbackItem : Type := mkFeedbackItem {
  fi_question : string;
  fi_answer : string;
  fi_user_answer : string;
  fi_rating : Z;
  fi_feedback : string;
  fi_positive_reinforcement : option string
}.

Record Feedback : Type := mkFeedback {
  feedback_id : oid;
  feedback_sid : oid;
  feedback_uid : oid;
  feedbacks : list FeedbackItem
}.

(** The document store together with the feedback collection, in insertion
    order. *)
Record Collections : Type := mkCollections {
  documents : Db;
  feedback_documents : list Feedback
}.

(** [models/story.py], [CreateStoryRequest] *)
Record CreateStoryRequest : Type := mkCreateStoryRequest {
  req_story_title : string;
  req_story_description : string;
  req_max_pages : Z;
  req_include_image : bool;
  req_child_age : Z;
  req_use_books_context : bool;
  req_use_history_context : bool
}.

(** *** A service step: reads and writes the store, makes outside calls,
        returns or raises *)

Definition M (A : Type) : Type := Db -> result A * Db * list call.

Definition ret {A} (a : A) : M A := fun db => (Ok a, db, []).

Definition lift {A} (r : result A) : M A := fun db => (r, db, []).

Definition get_db : M Db := fun db => (Ok db, db, []).

Definition put_db (db' : Db) : M unit := fun _ => (Ok tt, db', []).

(** An outside call together with its answer. *)
Definition outside {A} (ra : result A * list call) : M A :=
  fun db => (fst ra, db, snd ra).

Definition mbind {A B} (m : M A) (k : A -> M B) : M B :=
  fun db =>
    match m db with
    | (inl e, db1, calls1) => (inl e, db1, calls1)
    | (inr a, db1, calls1) =>
        let '(r, db2, calls2) := k a db1 in (r, db2, calls1 ++ calls2)
    end.

Notation "'do!' x ':=' m 'in' k" := (mbind m (fun x => k))
  (at level 10, x name, m at level 100, k at level 200).

(** [try: m except Exception as e: raise h(e)] *)
Definition handle {A} (m : M A) (h : exn -> exn) : M A :=
  fun db =>
    match m db with
    | (inl e, db1, calls1) => (inl (h e), db1, calls1)
    | other => other
    end.

Definition value_of {A} (o : result A * Db * list call) : result A := o.1.1.
Definition db_of {A} (o : result A * Db * list call) : Db := o.1.2.
Definition calls_of {A} (o : result A * Db * list call) : list call := o.2.

(** *** Validation of generated data by the document schemas *)

(** The fields of [Question] in [schemas/assignment.py] are
    [question: str], [answer: str] and [user_answer: Optional[str] = None],
    without alias: the model accepts a dict with string [question] and
    [answer]; the optional [user_answer] is a string or null, and other keys
    (the [userAnswer] of the prompt among them) are ignored. *)
Definition validate_question (item : json) : result Question :=
  match item with
  | JObject fields =>
      match fields !! "question", fields !! "answer" with
      | Some (JString q), Some (JString a) =>
          match fields !! "user_answer" with
          | None | Some JNull => Ok (mkQuestion q a None)
          | Some (JString u) => Ok (mkQuestion q a (Some u))
          | Some _ => Raise ValidationError
          end
      | _, _ => Raise ValidationError
      end
  | _ => Raise ValidationError
  end.

(** [questions: List[Question]] *)
Definition validate_questions (data : json) : result (list Question) :=
  match data with
  | JArray items => mapM_result validate_question items
  | _ => Raise ValidationError
  end.

(** [PageContent(page_text=..., page_image=...)] with [page_text: str]:
    the text must be a string. *)
Definition validate_page (page_text : json) (page_image : option string)
    : result PageContent :=
  match page_text with
  | JString s => Ok (mkPageContent s page_image)
  | _ => Raise ValidationError
  end.

(** [for ... in enumerate(page_texts)] needs a list. *)
Definition as_list (page_texts : json) : result (list json) :=
  match page_texts with
  | JArray items => Ok items
  | _ => Raise TypeError
  end.

(** The first loop of [create_story]: the illustration tasks, one for every
    page whose position [i] has [i % 3 == 0 or i % 3 == 2]; the page text is
    read on every page, selected or not. *)
Fixpoint image_tasks_from (i : nat) (page_texts : list json)
    : result (list (nat * json)) :=
  match page_texts with
  | [] => Ok []
  | page_data :: rest =>
      try! page_text := Json.get page_data "pageText" (JString "") in
      try! tasks := image_tasks_from (S i) rest in
      Ok (if (i mod 3 =? 0) || (i mod 3 =? 2)
          then (i, page_text) :: tasks else tasks)
  end.

Definition image_tasks (include_image : bool) (page_texts : list json)
    : result (list (nat * json)) :=
  if include_image then image_tasks_from 0 page_texts else Ok [].

(** The positional merge of [generate_feedback_for_assignment]:
    [for i, answer in enumerate(answers):
       if i < len(questions_with_answers):
         questions_with_answers[i].user_answer = answer].
    The list is a shallow copy of [assignment.questions]: the objects written
    to are those of the assignment just loaded, which is never saved, so the
    stored questions stay as they were. *)
Definition set_user_answer (questions_with_answers : list Question)
    (i : nat) (answer : string) : list Question :=
  if decide (i < length questions_with_answers)
  then alter (fun q => mkQuestion (question q) (StoryService.answer q) (Some answer))
             i questions_with_answers
  else questions_with_answers.

Definition merge_answers (questions : list Question) (answers : list string)
    : list Question :=
  foldl (fun qs ia => set_user_answer qs ia.1 ia.2) questions (imap pair answers).

(** The dictionaries handed to the grading capability:
    [{"question": q.question, "answer": q.answer,
      "userAnswer": q.user_answer or ""}]. *)
Record AnsweredQuestion : Type := mkAnsweredQuestion {
  aq_question : string;
  aq_answer : string;
  aq_userAnswer : string
}.

Definition answered (q : Question) : AnsweredQuestion :=
  mkAnsweredQuestion (question q) (answer q)
    (match user_answer q with
     | Some u => u
     | None => ""
     end).

Definition questions_dict (questions : list Question) (answers : list string)
    : list AnsweredQuestion :=
  answered <$> merge_answers questions answers.

Definition page_dict (page : PageContent) : json :=
  JObject {[ "pageText" := JString (page_text page) ]}.

(** One of the dictionaries as the grading capability receives it. *)
Definition answered_dict (q : AnsweredQuestion) : json :=
  JObject {[ "question" := JString (aq_question q);
             "answer" := JString (aq_answer q);
             "userAnswer" := JString (aq_userAnswer q) ]}.

(** Truth value of a parsed JSON value, as [or] tests it. *)
Definition truthy (v : json) : bool :=
  match v with
  | JNull => false
  | JBool b => b
  | JNumber q => negb (Qeq_bool q 0)
  | JString s => negb (bool_decide (s = ""))
  | JArray items => negb (bool_decide (items = []))
  | JObject fields => negb (bool_decide (map_to_list fields = []))
  end.

(** [item.get(k1) or item.get(k2) or ... or default]: the first truthy
    value among the keys, else the default. *)
Fixpoint first_truthy (fields : gmap string json) (keys : list string)
    (default : json) : json :=
  match keys with
  | [] => default
  | key :: rest =>
      match fields !! key with
      | Some v => if truthy v then v else first_truthy fields rest default
      | None => first_truthy fields rest default
      end
  end.

(** The dictionary the transformation loop of
    [generate_feedback_for_assignment] appends for one graded item. *)
Record TransformedFeedback : Type := mkTransformedFeedback {
  t_question : json;
  t_answer : json;
  t_user_answer : json;
  t_rating : json;
  t_feedback : json;
  t_positive_reinforcement : json
}.

Definition transform_feedback (item : json) : result TransformedFeedback :=
  match item with
  | JObject fields =>
      let user_answ :=
        first_truthy fields
          ["userAnswer"; "user_answer"; "UserAnswer"; "userResponse"]
          (JString "") in
      let pos_reinf :=
        first_truthy fields
          ["positiveReinforcement"; "positive_reinforcement";
           "PositiveReinforcement"] JNull in
      Ok (mkTransformedFeedback
            (default (JString "") (fields !! "question"))
            (default (JString "") (fields !! "answer"))
            user_answ
            (default (JNumber 0) (fields !! "rating"))
            (default (JString "") (fields !! "feedback"))
            pos_reinf)
  | _ => Raise AttributeError
  end.

(** [for item in feedback_data.get("results", [])]: a list gives its
    items; a dict gives its keys and a string its characters, all of them
    strings (their order plays no role below: the first one already fails
    in the loop body); anything else cannot be iterated. *)
Definition iterate (v : json) : result (list json) :=
  match v with
  | JArray items => Ok items
  | JObject fields => Ok ((fun kv => JString kv.1) <$> map_to_list fields)
  | JString s =>
      Ok ((fun c => JString (String c EmptyString)) <$> list_ascii_of_string s)
  | _ => Raise TypeError
  end.

(** A [str] field of a schema. *)
Definition validate_str (v : json) : result string :=
  match v with
  | JString s => Ok s
  | _ => Raise ValidationError
  end.

(** An [Optional[str]] field of a schema. *)
Definition validate_optional_str (v : json) : result (option string) :=
  match v with
  | JNull => Ok None
  | JString s => Ok (Some s)
  | _ => Raise ValidationError
  end.

(** The query [Assignment.sid == s, Assignment.uid == u] on one document. *)
Definition assignment_of (s u : oid) (a : Assignment) : bool :=
  bool_decide (sid a = s) && bool_decide (uid a = u).

Section Capabilities.

(** [ObjectId(s)]; [None] is [bson.errors.InvalidId]. *)
Variable ObjectId : string -> option oid.
Variable similarity_search : string -> Z -> result (list RAGService.Document).
Variable llm : StoryGraph.Prompt -> string + string.
Variable completion : string -> string -> string + string.
Variable json_loads : string -> option json.
(** [generate_image]: the URL, or [None] when it returned nothing or raised. *)
Variable generate_image : json -> Z -> string -> option string.
(** Download of the generated image and upload to object storage: the
    durable URL, or [None] when either step failed. *)
Variable mirror_image : string -> option string.
(** [str(user_id)] *)
Variable oid_str : oid -> string.

Definition parse_id (s : string) : result oid :=
  match ObjectId s with
  | Some i => Ok i
  | None => Raise InvalidId
  end.

(** [Story.get(story_id)] *)
Definition Story_get (story_id : string) : M (option Story) :=
  do! i := lift (parse_id story_id) in
  do! db := get_db in
  ret (stories db !! i).

(** [Assignment.find_one(Assignment.sid == s, Assignment.uid == u)]: the
    first assignment of the collection that matches. *)
Definition Assignment_find_one (s u : oid) : M (option Assignment) :=
  do! db := get_db in
  ret (List.find (assignment_of s u) (assignments db)).

(** [assignment.insert()] *)
Definition Assignment_insert (s u : oid) (qs : list Question) : M Assignment :=
  do! db := get_db in
  let assignment := mkAssignment (next_id db) s u qs in
  do! _ := put_db (mkDb (stories db) (assignments db ++ [assignment])
                        (N.succ (next_id db))) in
  ret assignment.

(** [story.insert()] *)
Definition Story_insert (title description : string)
    (content : list PageContent) (author : string) (user_id : oid)
    (max_pages : Z) : M Story :=
  do! db := get_db in
  let story := mkStory (next_id db) title description content author
                       user_id max_pages in
  do! _ := put_db (mkDb (<[next_id db := story]> (stories db)) (assignments db)
                        (N.succ (next_id db))) in
  ret story.

Definition get_story (story_id : string) (user_id : oid) : M Story :=
  handle
    (do! story := Story_get story_id in
     match story with
     | None => lift (Raise (NotFoundError "Story not found"))
     | Some story =>
         if decide (created_by story ≠ user_id)
         then lift (Raise (ForbiddenError "Unauthorized access to this story"))
         else ret story
     end)
    (fun e =>
       match e with
       | NotFoundError _ | ForbiddenError _ => e
       | _ => Failed "Failed to get story" e
       end).

Definition create_assignment (story_id : string) (user_id : oid) : M Assignment :=
  handle
    (do! s := lift (parse_id story_id) in
     do! existing := Assignment_find_one s user_id in
     match existing with
     | Some existing => ret existing
     | None =>
         do! story := Story_get story_id in
         match story with
         | None => lift (Raise (NotFoundError "Story not found"))
         | Some story =>
             let story_content_dict := map page_dict (story_content story) in
             do! questions_data :=
               outside (QuestionGenerator.generate_questions completion json_loads
                          story_content_dict (story_title story)) in
             do! questions := lift (Json.get questions_data "questions" (JArray [])) in
             do! questions := lift (validate_questions questions) in
             Assignment_insert s user_id questions
         end
     end)
    (fun e =>
       match e with
       | NotFoundError _ => e
       | _ => Failed "Failed to create assignment" e
       end).

(** [asyncio.gather] over the image coroutines, exceptions returned, and the
    loop that keeps the truthy results: one request per task, in task order. *)
Definition keep_image (child_age : Z) (story_title : string)
    (image_results : gmap nat string) (task : nat * json) : gmap nat string :=
  match generate_image task.2 child_age story_title with
  | Some url => if decide (url = "") then image_results
                else <[task.1 := url]> image_results
  | None => image_results
  end.

Definition gather_images (child_age : Z) (story_title : string)
    (image_tasks : list (nat * json)) : M (gmap nat string) :=
  outside (Ok (foldl (keep_image child_age story_title) ∅ image_tasks),
           map (fun task => ImageGeneration task.1 task.2) image_tasks).

(** The second loop of [create_story]: one [PageContent] per generated page,
    in order; a generated image is replaced by its durable copy when the
    copy succeeds. *)
Fixpoint build_pages (image_results : gmap nat string) (i : nat)
    (page_texts : list json) : result (list PageContent) :=
  match page_texts with
  | [] => Ok []
  | page_data :: rest =>
      try! page_text := Json.get page_data "pageText" (JString "") in
      let page_image :=
        match image_results !! i with
        | Some openai_image_url =>
            Some (match mirror_image openai_image_url with
                  | Some durable => durable
                  | None => openai_image_url
                  end)
        | None => None
        end in
      try! page := validate_page page_text page_image in
      try! pages := build_pages image_results (S i) rest in
      Ok (page :: pages)
  end.

(** The call of [run_story_generation] that opens [create_story]. *)
Definition generated_story_of (story_data : CreateStoryRequest) (user_id : oid)
    : result json * list call :=
  StoryGraph.run_story_generation similarity_search llm json_loads
    (req_story_title story_data) (req_story_description story_data)
    (req_child_age story_data) (req_max_pages story_data)
    (oid_str user_id)
    (req_use_books_context story_data)
    (req_use_history_context story_data).

Definition create_story (story_data : CreateStoryRequest) (user_id : oid)
    (author_name : string) : M Story :=
  handle
    (do! generated_story := outside (generated_story_of story_data user_id) in
     do! page_texts := lift (Json.get generated_story "storyContent" (JArray [])) in
     do! page_texts := lift (as_list page_texts) in
     do! tasks := lift (image_tasks (req_include_image story_data) page_texts) in
     do! image_results :=
       gather_images (req_child_age story_data) (req_story_title story_data) tasks in
     do! story_contents := lift (build_pages image_results 0 page_texts) in
     do! story :=
       Story_insert (req_story_title story_data) (req_story_description story_data)
                    story_contents author_name user_id (req_max_pages story_data) in
     do! _ := outside (Ok tt, [AddDocuments (story_title story)]) in
     ret story)
    (fun e => Failed "Failed to create story" e).

(** The chat completion of the grading, given the question dictionaries
    and the joined page texts. *)
Variable feedback_completion : list json -> string -> string + string.
(** Validation of an [int] field by the schema library: the integer, or
    [None] when the value is refused. *)
Variable validate_int : json -> option Z.

(** [FeedbackItem] built from a transformed dictionary; the field names are
    accepted next to the aliases. *)
Definition validate_feedback_item (item : TransformedFeedback)
    : result FeedbackItem :=
  try! question := validate_str (t_question item) in
  try! answer := validate_str (t_answer item) in
  try! user_answer := validate_str (t_user_answer item) in
  try! rating := match validate_int (t_rating item) with
                 | Some rating => Ok rating
                 | None => Raise ValidationError
                 end in
  try! feedback := validate_str (t_feedback item) in
  try! positive_reinforcement :=
    validate_optional_str (t_positive_reinforcement item) in
  Ok (mkFeedbackItem question answer user_answer rating feedback
        positive_reinforcement).

(** [generate_feedback_for_assignment] up to the feedback document: the
    lookups, the merge, the grading call, the transformation loop and the
    validation of the items. *)
Definition graded_feedbacks (story_id : string) (user_id : oid)
    (answers : list string) : M (oid * list FeedbackItem) :=
  handle
    (do! s := lift (parse_id story_id) in
     do! assignment := Assignment_find_one s user_id in
     match assignment with
     | None => lift (Raise (NotFoundError "Assignment not found"))
     | Some assignment =>
         do! story := Story_get story_id in
         match story with
         | None => lift (Raise (NotFoundError "Story not found"))
         | Some story =>
             let questions_dict :=
               answered_dict <$> questions_dict (questions assignment) answers in
             let story_content_dict := map page_dict (story_content story) in
             do! feedback_data :=
               outside (FeedbackGenerator.generate_feedback feedback_completion
                          json_loads questions_dict story_content_dict) in
             do! results := lift (Json.get feedback_data "results" (JArray [])) in
             do! results := lift (iterate results) in
             do! transformed_feedbacks :=
               lift (mapM_result transform_feedback results) in
             do! feedbacks :=
               lift (mapM_result validate_feedback_item transformed_feedbacks) in
             ret (s, feedbacks)
         end
     end)
    (fun e =>
       match e with
       | NotFoundError _ => e
       | _ => Failed "Failed to generate feedback" e
       end).

(** [feedback.insert()] closes the call: the document takes the next
    identifier and joins the feedback collection. *)
Definition generate_feedback_for_assignment (story_id : string) (user_id : oid)
    (answers : list string) (c : Collections)
    : result Feedback * Collections * list call :=
  match graded_feedbacks story_id user_id answers (documents c) with
  | (inl e, db, calls) => (Raise e, mkCollections db (feedback_documents c), calls)
  | (inr (s, items), db, calls) =>
      let feedback := mkFeedback (next_id db) s user_id items in
      (Ok feedback,
       mkCollections (mkDb (stories db) (assignments db) (N.succ (next_id db)))
                     (feedback_documents c ++ [feedback]),
       calls)
  end.

End Capabilities.

End StoryService.

(** ** Indexing and the other searches of [app/services/rag_service.py] *)

Module RAGIndexing.

Import RAGService.

(** [l[:n]], also for a negative [n], which leaves out the last [-n]
    elements. *)
Definition py_prefix {A} (n : Z) (l : list A) : list A :=
  if (0 <=? n)%Z then take (Z.to_nat n) l
  else take (length l - Z.to_nat (- n)) l.

(** [doc_metadata.update(metadata)] behind [if metadata:]: the keys of
    [metadata] win. *)
Definition update_metadata (doc_metadata : gmap string meta)
    (metadata : option (gmap string meta)) : gmap string meta :=
  match metadata with
  | Some extra => extra ∪ doc_metadata
  | None => doc_metadata
  end.

(** The text that [add_story_to_index] splits. *)
Definition story_full_text (story_title story_description story_content : string)
    : string :=
  "Title: " +:+ story_title +:+ StoryGraph.newline +:+ StoryGraph.newline
    +:+ "Description: " +:+ story_description
    +:+ StoryGraph.newline +:+ StoryGraph.newline
    +:+ "Content: " +:+ story_content.

(** The text that [add_book_to_index] splits; an author that is absent or
    empty leaves no line. *)
Definition book_full_text (book_title : string) (book_author : option string)
    (book_content : string) : string :=
  let author_text :=
    match book_author with
    | Some author =>
        if decide (author = "") then ""
        else "Author: " +:+ author +:+ StoryGraph.newline +:+ StoryGraph.newline
    | None => ""
    end in
  "Title: " +:+ book_title +:+ StoryGraph.newline +:+ StoryGraph.newline
    +:+ author_text +:+ "Content: " +:+ book_content.

Section Store.

(** [self.text_splitter.split_text], the recursive character splitter with
    chunks of 1000 characters overlapping by 200. *)
Variable split_text : string -> list string.

(** [self.vector_store.add_documents]: embeds and stores the documents, or
    raises. *)
Variable add_documents : list Document -> result unit.

Variable similarity_search : string -> Z -> result (list Document).

(** The documents [add_story_to_index] builds, one per chunk. *)
Definition story_documents (story_id story_title story_description
    story_content : string) (child_age : Z)
    (metadata : option (gmap string meta)) : list Document :=
  imap (fun i chunk =>
          mkDocument chunk
            (update_metadata
               (<["story_id" := MStr story_id]>
                  (<["story_title" := MStr story_title]>
                     (<["child_age" := MInt child_age]>
                        (<["chunk_index" := MInt (Z.of_nat i)]>
                           {[ "type" := MStr "story" ]}))))
               metadata))
       (split_text (story_full_text story_title story_description story_content)).

(** [add_story_to_index]: an exception of the store is raised again. *)
Definition add_story_to_index (story_id story_title story_description
    story_content : string) (child_age : Z)
    (metadata : option (gmap string meta)) : result unit :=
  add_documents (story_documents story_id story_title story_description
                   story_content child_age metadata).

(** The documents [add_book_to_index] builds, one per chunk. *)
Definition book_documents (book_id book_title : string)
    (book_author : option string) (book_content user_id : string)
    (child_age : Z) (metadata : option (gmap string meta)) : list Document :=
  imap (fun i chunk =>
          let doc_metadata :=
            <["book_id" := MStr book_id]>
              (<["book_title" := MStr book_title]>
                 (<["user_id" := MStr user_id]>
                    (<["child_age" := MInt child_age]>
                       (<["chunk_index" := MInt (Z.of_nat i)]>
                          {[ "type" := MStr "book" ]})))) in
          let doc_metadata :=
            match book_author with
            | Some author =>
                if decide (author = "") then doc_metadata
                else <["book_author" := MStr author]> doc_metadata
            | None => doc_metadata
            end in
          mkDocument chunk (update_metadata doc_metadata metadata))
       (split_text (book_full_text book_title book_author book_content)).

Definition add_book_to_index (book_id book_title : string)
    (book_author : option string) (book_content user_id : string)
    (child_age : Z) (metadata : option (gmap string meta)) : result unit :=
  add_documents (book_documents book_id book_title book_author book_content
                   user_id child_age metadata).

(** [retrieve_similar_stories]: the [filters] only enter a dictionary that
    the search does not receive. *)
Definition retrieve_similar_stories (query : string) (child_age top_k : Z)
    (filters : option (gmap string meta)) : list Document :=
  let search_filters :=
    update_metadata
      (<["child_age" := MInt child_age]> {[ "type" := MStr "story" ]}) filters in
  match similarity_search query top_k with
  | inr results =>
      let filtered_results :=
        List.filter
          (fun doc =>
             bool_decide (metadata doc !! "child_age" = Some (MInt child_age))
             && bool_decide (metadata doc !! "type" = Some (MStr "story")))
          results in
      py_prefix top_k filtered_results
  | inl _ => []
  end.

(** [retrieve_educational_context] *)
Definition retrieve_educational_context (topic : string) (age_group top_k : Z)
    : list Document :=
  let query :=
    "Educational content for " +:+ pretty age_group +:+ " year old about "
      +:+ topic in
  match similarity_search query top_k with
  | inr results =>
      let educational_results :=
        List.filter
          (fun doc =>
             bool_decide (metadata doc !! "type"
                          = Some (MStr "educational_content")))
          results in
      py_prefix top_k educational_results
  | inl _ => []
  end.

End Store.

End RAGIndexing.

(** ** Token accounting of the generation graph: [merge_usage] of
       [app/agents/story_graph.py] *)

Module TokenUsage.

(** [d.get(key, 0)] *)
Definition get0 (d : gmap string Z) (key : string) : Z := default 0%Z (d !! key).

(** The reducer of the [token_usage] channel: an empty dictionary is falsy
    and gives way to the other one; otherwise the three counters are added
    and every other key is dropped. *)
Definition merge_usage (a b : gmap string Z) : gmap string Z :=
  if decide (a = ∅) then b
  else if decide (b = ∅) then a
  else <["prompt_tokens" := (get0 a "prompt_tokens" + get0 b "prompt_tokens")%Z]>
         (<["completion_tokens" :=
              (get0 a "completion_tokens" + get0 b "completion_tokens")%Z]>
            {[ "total_tokens" := (get0 a "total_tokens" + get0 b "total_tokens")%Z ]}).

End TokenUsage.

(** ** Notions the statements use *)

(** A payload wrapped in a markdown code block opened by [opening]. *)
Definition fenced (opening payload : string) : string :=
  opening +:+ StoryGraph.newline +:+ payload +:+ StoryGraph.newline +:+ Fences.fence.

(** The parsed value is a dict with a list under [storyContent]. *)
Definition has_story_content (story_json : json) : Prop :=
  ∃ fields items,
    story_json = JObject fields ∧ fields !! "storyContent" = Some (JArray items).

(** The character [c] does not occur in [s]. *)
Fixpoint absent (c : ascii) (s : string) : bool :=
  match s with
  | EmptyString => true
  | String a s' => negb (Stdlib.Strings.Ascii.eqb c a) && absent c s'
  end.

(** The pages a generated story carries: the list under [storyContent]. *)
Definition generated_pages (generated_story : json) : result (list json) :=
  try! page_texts := Json.get generated_story "storyContent" (JArray []) in
  StoryService.as_list page_texts.

Definition is_dict (j : json) : bool :=
  match j with
  | JObject _ => true
  | _ => false
  end.

(** The positions [i] below [n] with [i mod 3 != 1]. *)
Definition selected_positions (n : nat) : list nat :=
  filter (fun i => i mod 3 ≠ 1) (seq 0 n).

(** The positions of the illustration requests among the calls made. *)
Definition image_request (c : call) : option nat :=
  match c with
  | ImageGeneration i _ => Some i
  | _ => None
  end.

Definition image_requests (calls : list call) : list nat := omap image_request calls.

(** Page [page] of the generated story became the stored page [stored]. *)
Definition page_stored (page : json) (stored : StoryService.PageContent) : Prop :=
  Json.get page "pageText" (JString "")
  = Ok (JString (StoryService.page_text stored)).

(** The number of entries under [questions] of a generated quiz. *)
Definition question_count (questions_data : json) : option nat :=
  match questions_data with
  | JObject fields =>
      match fields !! "questions" with
      | Some (JArray items) => Some (length items)
      | _ => None
      end
  | _ => None
  end.

(** The generated entry [item] became the stored question [q]: its
    [question] and [answer] strings are kept, and the user answer is absent
    unless the entry has a string under [user_answer]. *)
Definition question_stored (item : json) (q : StoryService.Question) : Prop :=
  ∃ fields,
    item = JObject fields ∧
    fields !! "question" = Some (JString (StoryService.question q)) ∧
    fields !! "answer" = Some (JString (StoryService.answer q)) ∧
    StoryService.user_answer q =
      match fields !! "user_answer" with
      | Some (JString u) => Some u
      | _ => None
      end.

(** The word-error-rate function computes the rate of the specification:
    on every reference text with at least one word, both texts having fewer
    than [2^53] words (counts up to there are floats). Nothing is asked of
    it on a reference without words. *)
Definition computes_word_error_rate (wer : string -> string -> result float)
    : Prop :=
  ∀ reference hypothesis : string,
    (0 < Z.of_nat (length (PyStr.words reference)) < 9007199254740992)%Z →
    (Z.of_nat (length (PyStr.words hypothesis)) < 9007199254740992)%Z →
    wer reference hypothesis = Ok (Jiwer.word_error_rate reference hypothesis).

(** A float that is zero, finite or infinite with the sign [sx]. *)
Definition signed (sx : bool) (x : spec_float) : Prop :=
  match x with
  | S754_zero s | S754_infinity s | S754_finite s _ _ => s = sx
  | S754_nan => False
  end.

(** The answer the grading capability sees for question [q] at position
    [i]: the submitted one when there is one, else the stored one, empty
    when none is stored. *)
Definition expected_answer (answers : list string) (i : nat)
    (q : StoryService.Question) : string :=
  match answers !! i with
  | Some a => a
  | None =>
      match StoryService.user_answer q with
      | Some u => u
      | None => ""
      end
  end.

(** ** Fixtures of the examples *)

(** A small index shared by the examples: a story chunk and a book chunk of
    the owner ["u1"], behind a nearer chunk of another owner. *)
Definition sample_doc (text owner type : string) (age : Z) : RAGService.Document :=
  RAGService.mkDocument text
    (<["user_id" := RAGService.MStr owner]>
       (<["child_age" := RAGService.MInt age]>
          (<["type" := RAGService.MStr type]> ∅))).

Definition sample_index (query : string) (k : Z) : result (list RAGService.Document) :=
  Ok [sample_doc "a dragon of someone else" "u2" "story" 7;
      sample_doc "an earlier story about dragons" "u1" "story" 7;
      sample_doc "a book about dragons" "u1" "book" 7].

(** An index that also holds a chunk of the owner that is neither a book
    nor a story. *)
Definition mixed_index (query : string) (k : Z) : result (list RAGService.Document) :=
  Ok [sample_doc "notes on dragons" "u1" "note" 7;
      sample_doc "a book about dragons" "u1" "book" 7].

Definition sample_state (use_books use_history : bool) : StoryGraph.StoryState :=
  StoryGraph.mkStoryState "Dragons" "A tale about friendly dragons" 7 3 "u1"
    use_books use_history "".

(** JSON texts are built from their pieces; [dq] is the double quote. *)
Definition dq : string := String "034"%char EmptyString.

Definition jstr (s : string) : string := dq +:+ s +:+ dq.

Definition page_json_text (text : string) : string :=
  "{" +:+ jstr "pageText" +:+ ": " +:+ jstr text +:+ "}".

Definition page_json (text : string) : json :=
  JObject {[ "pageText" := JString text ]}.

(** A story of one page: its text and the value it denotes. *)
Definition sample_payload : string :=
  "{" +:+ jstr "storyContent" +:+ ": [" +:+ page_json_text "Once" +:+ "]}".

Definition sample_story_json : json :=
  JObject {[ "storyContent" := JArray [page_json "Once"] ]}.

(** A story of four pages. *)
Definition four_pages_text : string :=
  "{" +:+ jstr "storyContent" +:+ ": ["
      +:+ page_json_text "One" +:+ ", " +:+ page_json_text "Two" +:+ ", "
      +:+ page_json_text "Three" +:+ ", " +:+ page_json_text "Four" +:+ "]}".

Definition four_pages_json : json :=
  JObject {[ "storyContent" :=
               JArray [page_json "One"; page_json "Two";
                       page_json "Three"; page_json "Four"] ]}.

(** A quiz of a single question, as the prompt of [generate_questions]
    lays it out. *)
Definition one_question_text : string :=
  "{" +:+ jstr "questions" +:+ ": [{" +:+ jstr "question" +:+ ": " +:+ jstr "Who?"
      +:+ ", " +:+ jstr "answer" +:+ ": " +:+ jstr "A dragon"
      +:+ ", " +:+ jstr "userAnswer" +:+ ": " +:+ jstr "" +:+ "}]}".

Definition one_question_json : json :=
  JObject {[ "questions" :=
               JArray [JObject (<["question" := JString "Who?"]>
                                  (<["answer" := JString "A dragon"]>
                                     {[ "userAnswer" := JString "" ]}))] ]}.

(** A stand-in for [json.loads] that knows these three texts and rejects
    every other one. *)
Definition sample_json_loads (s : string) : option json :=
  if decide (s = sample_payload) then Some sample_story_json
  else if decide (s = four_pages_text) then Some four_pages_json
  else if decide (s = one_question_text) then Some one_question_json
  else None.





Definition sample_questions : list StoryService.Question :=
  [StoryService.mkQuestion "Who?" "A dragon" None;
   StoryService.mkQuestion "Where?" "In a cave" None].

(** A store with one story, created by user 10, and no assignment. *)
Definition sample_story : StoryService.Story :=
  StoryService.mkStory 1 "Dragons" "A tale about friendly dragons"
    [StoryService.mkPageContent "Once" None] "Ann" 10 3.

Definition sample_db : StoryService.Db :=
  StoryService.mkDb {[ 1%N := sample_story ]} [] 100.

Definition sample_ObjectId (s : string) : option StoryService.oid :=
  if decide (s = "0000000000000000000000a1") then Some 1%N else None.

Definition sample_story_id : string := "0000000000000000000000a1".

(** Capabilities that answer with the sample texts. *)
Definition quiz_completion (story_title whole_story : string) : string + string :=
  inr one_question_text.

Definition four_pages_llm (prompt : StoryGraph.Prompt) : string + string :=
  inr four_pages_text.

Definition sample_generate_image (page_text : json) (child_age : Z)
    (story_title : string) : option string :=
  Some "https://images.example/generated.png".

Definition sample_mirror_image (url : string) : option string :=
  Some "https://bucket.example/stored.png".

(** An illustration capability that fails on the page [One], and a copy
    to object storage that always fails. *)
Definition moody_generate_image (page_text : json) (child_age : Z)
    (story_title : string) : option string :=
  match page_text with
  | JString "One" => None
  | _ => Some "https://images.example/generated.png"
  end.

Definition failing_mirror_image (url : string) : option string := None.

Definition sample_oid_str (user_id : StoryService.oid) : string := "u1".

Definition sample_request (include_image : bool) : StoryService.CreateStoryRequest :=
  StoryService.mkCreateStoryRequest "Dragons" "A tale about friendly dragons" 3
    include_image 7 false false.

Definition sample_db_with_assignment : StoryService.Db :=
  StoryService.mkDb {[ 1%N := sample_story ]}
    [StoryService.mkAssignment 100 1 10 sample_questions] 101.

(** A store whose assignment keeps an earlier answer with its question. *)
Definition kept_answer_db : StoryService.Db :=
  StoryService.mkDb {[ 1%N := sample_story ]}
    [StoryService.mkAssignment 100 1 10
       [StoryService.mkQuestion "Who?" "A dragon" (Some "kept")]] 101.

(** A grading of one answer, as the prompt of [generate_feedback] lays it
    out, and the value it denotes. *)
Definition grading_text : string :=
  "{" +:+ jstr "results" +:+ ": [{" +:+ jstr "question" +:+ ": " +:+ jstr "Who?"
      +:+ ", " +:+ jstr "rating" +:+ ": 4"
      +:+ ", " +:+ jstr "answer" +:+ ": " +:+ jstr "A dragon"
      +:+ ", " +:+ jstr "userAnswer" +:+ ": " +:+ jstr "She"
      +:+ ", " +:+ jstr "feedback" +:+ ": " +:+ jstr "Close"
      +:+ ", " +:+ jstr "positiveReinforcement" +:+ ": " +:+ jstr "Well read"
      +:+ "}]}".

Definition grading_json : json :=
  JObject {[ "results" :=
               JArray [JObject (<["question" := JString "Who?"]>
                                  (<["rating" := JNumber 4]>
                                  (<["answer" := JString "A dragon"]>
                                  (<["userAnswer" := JString "She"]>
                                  (<["feedback" := JString "Close"]>
                                     {[ "positiveReinforcement" :=
                                          JString "Well read" ]})))))] ]}.

Definition grading_completion (questions : list json) (whole_story : string)
    : string + string :=
  inr grading_text.

Definition grading_json_loads (s : string) : option json :=
  if decide (s = grading_text) then Some grading_json else None.

(** A stand-in for the validation of an [int] field: numbers written
    without a fraction are accepted. *)
Definition integral_rating (v : json) : option Z :=
  match v with
  | JNumber q => if (Qden q =? 1)%positive then Some (Qnum q) else None
  | _ => None
  end.

Definition sample_feedback : StoryService.Feedback :=
  StoryService.mkFeedback 101 1 10
    [StoryService.mkFeedbackItem "Who?" "A dragon" "She" 4 "Close"
       (Some "Well read")].

(** The audio of the specification's scenario, before processing. *)
Definition fox_audio : AudioService.Audio :=
  AudioService.mkAudio "https://bucket.example/audio.mp3" "The quick brown fox."
    None None.

Definition fox_transcriber (audio_url : string) : result string :=
  Ok "The quick red fox.".

(** An enhancement that fails, so that the raw transcript is scored. *)
Definition failing_completion (transcript story : string) : result string :=
  Raise (UpstreamError "completion unavailable").

(** A word-error-rate function that returns the rate of the specification,
    also for a reference without words. *)
Definition quotient_wer (reference hypothesis : string) : result float :=
  Ok (Jiwer.word_error_rate reference hypothesis).

(** A reference of five words, and a reading that gets one of them right. *)
Definition five_words_audio : AudioService.Audio :=
  AudioService.mkAudio "https://bucket.example/five.mp3"
    "one two three four five" None None.

Definition five_words_transcriber (audio_url : string) : result string :=
  Ok "one dos tres cuatro cinco".

(** A model that answers with valid JSON of the wrong shape. *)
Definition quiz_llm (prompt : StoryGraph.Prompt) : string + string :=
  inr one_question_text.

(** A model whose service is unreachable. *)
Definition unreachable_llm (prompt : StoryGraph.Prompt) : string + string :=
  inl "connection refused".

(** The checks of the filter loop of [retrieve_from_user_library] on one
    document: owner, age, and the type flags. *)
Definition library_match (user_id : string) (child_age : Z)
    (include_books include_stories : bool) (doc : RAGService.Document) : bool :=
  bool_decide (RAGService.metadata doc !! "user_id" = Some (RAGService.MStr user_id))
  && bool_decide (RAGService.metadata doc !! "child_age"
                  = Some (RAGService.MInt child_age))
  && negb (bool_decide (RAGService.metadata doc !! "type"
                        = Some (RAGService.MStr "book")) && negb include_books)
  && negb (bool_decide (RAGService.metadata doc !! "type"
                        = Some (RAGService.MStr "story")) && negb include_stories).

(** The metadata [create_story] hands to [add_story_to_index]:
    [{"user_id": str(user_id), "author": author_name}]. *)
Definition story_owner_metadata (user_id author_name : string)
    : option (gmap string RAGService.meta) :=
  Some (<["user_id" := RAGService.MStr user_id]>
          {[ "author" := RAGService.MStr author_name ]}).

(** A splitter for the examples: one chunk per text. *)
Definition one_chunk (text : string) : list string := [text].

(** A document that [add_story_to_index] or [add_book_to_index] built, the
    extra metadata, if any, not touching the [type] key (as with both
    callers of this repository). *)
Inductive indexed_here (split_text : string -> list string)
    (doc : RAGService.Document) : Prop :=
| indexed_story story_id story_title story_description story_content child_age
    metadata :
    (∀ extra, metadata = Some extra → extra !! "type" = None) →
    doc ∈ RAGIndexing.story_documents split_text story_id story_title
            story_description story_content child_age metadata →
    indexed_here split_text doc
| indexed_book book_id book_title book_author book_content user_id child_age
    metadata :
    (∀ extra, metadata = Some extra → extra !! "type" = None) →
    doc ∈ RAGIndexing.book_documents split_text book_id book_title book_author
            book_content user_id child_age metadata →
    indexed_here split_text doc.

(** An index holding the chunks of one story of user ["u2"], indexed as
    [create_story] does. *)
Definition story_index (query : string) (k : Z)
    : result (list RAGService.Document) :=
  Ok (RAGIndexing.story_documents one_chunk "s1" "Dragons" "A tale" "Once" 7
        (story_owner_metadata "u2" "Ann")).

Definition book_index (query : string) (k : Z)
    : result (list RAGService.Document) :=
  Ok (RAGIndexing.book_documents one_chunk "b1" "Dragon book" None "Long ago"
        "u1" 7 None).

(** An index holding the chunks of one story indexed without extra
    metadata. *)
Definition anonymous_story_index (query : string) (k : Z)
    : result (list RAGService.Document) :=
  Ok (RAGIndexing.story_documents one_chunk "s1" "Dragons" "A tale" "Once" 7 None).

(** A vector index that is down. *)
Definition failing_index (query : string) (k : Z)
    : result (list RAGService.Document) :=
  Raise (Exception "vector index unavailable").

(** The id strings of the sample store, the story created next included. *)
Definition created_story_id : string := "000000000000000000000064".

Definition store_ObjectId (s : string) : option StoryService.oid :=
  if decide (s = sample_story_id) then Some 1%N
  else if decide (s = created_story_id) then Some 100%N
  else None.

(** The reading text of a story: the page texts joined by single spaces,
    [" ".join([page.page_text for page in story.story_content])], as
    [get_full_story] returns it, [upload_audio_to_s3] stores it with a
    recording and [create_story] hands it to the index. *)
Definition whole_story_of (story : StoryService.Story) : string :=
  PyStr.join " " (StoryService.page_text <$> StoryService.story_content story).


(** The URL [create_story] keeps of the illustration request for a page:
    the result of [generate_image] when it is not an exception and is
    truthy. *)
Definition kept_image (generate_image : json -> Z -> string -> option string)
    (story_data : StoryService.CreateStoryRequest) (page_text : json)
    : option string :=
  match generate_image page_text (StoryService.req_child_age story_data)
          (StoryService.req_story_title story_data) with
  | Some url => if decide (url = "") then None else Some url
  | None => None
  end.

(** The image [create_story] stores with the page at position [i] whose
    text is [page_text]: none unless images were requested and
    [i % 3 == 0 or i % 3 == 2]; then the durable copy of the generated
    image, or the generated URL itself when the copy failed, or none when
    the generation gave nothing. *)
Definition stored_image (generate_image : json -> Z -> string -> option string)
    (mirror_image : string -> option string)
    (story_data : StoryService.CreateStoryRequest) (i : nat) (page_text : json)
    : option string :=
  if StoryService.req_include_image story_data
     && ((i mod 3 =? 0) || (i mod 3 =? 2))
  then match kept_image generate_image story_data page_text with
       | Some url => Some (match mirror_image url with
                           | Some durable => durable
                           | None => url
                           end)
       | None => None
       end
  else None.

(** ** Recordings: [upload_audio_to_s3] of [app/services/audio_service.py]
       and [upload_audio] of [app/utils/s3_client.py] *)

Module AudioUpload.

(** [schemas/audio.py] *)
Record Audio : Type := mkAudio {
  audio_id : StoryService.oid;
  file_path : string;
  file_name : string;
  s3_key : option string;
  s3_bucket : option string;
  score : option float;
  transcript : option string;
  whole_story : string;
  sid : option StoryService.oid
}.

(** The stories and the recordings of the document store, the objects of
    the bucket by key, and the next identifier the driver hands out. *)
Record Store : Type := mkStore {
  stories : gmap StoryService.oid StoryService.Story;
  audios : gmap StoryService.oid Audio;
  bucket : gmap string (list Byte.byte);
  next_id : StoryService.oid
}.

(** How [put_object] can fail: with the [ClientError] of a refusal by the
    service, or with another exception of the SDK (no connection, invalid
    parameters), each with its message. *)
Inductive PutObjectError : Type :=
| ClientError (message : string)
| OtherError (message : string).

(** What [process_audio] reads of a recording. *)
Definition as_processed (audio : Audio) : AudioService.Audio :=
  AudioService.mkAudio (file_path audio) (whole_story audio) (transcript audio)
    (score audio).

Section Capabilities.

Variable ObjectId : string -> option StoryService.oid.

(** [settings.s3_bucket_name] and [settings.aws_region]. *)
Variable bucket_name : string.
Variable aws_region : string.

(** The exception [put_object] raises for a key, if it raises one. *)
Variable put_object_error : string -> option PutObjectError.

Definition s3_url (s3_key : string) : string :=
  "https://" +:+ bucket_name +:+ ".s3." +:+ aws_region +:+ ".amazonaws.com/"
    +:+ s3_key.

(** [s3_client.upload_audio]: the key is the folder and the file name. The
    handler catches [ClientError] alone: any other exception of
    [put_object] leaves the function as it is. *)
Definition upload_audio (file_content : list Byte.byte) (file_name folder : string)
    (st : Store) : result (string * string) * Store :=
  let s3_key := folder +:+ "/" +:+ file_name in
  match put_object_error s3_key with
  | Some (ClientError message) =>
      (Raise (Failed "Failed to upload file to S3" (UpstreamError message)), st)
  | Some (OtherError message) => (Raise (UpstreamError message), st)
  | None =>
      (Ok (s3_key, s3_url s3_key),
       mkStore (stories st) (audios st) (<[s3_key := file_content]> (bucket st))
               (next_id st))
  end.

Definition upload_audio_to_s3_body (audio_file : list Byte.byte)
    (file_name story_id : string) (st : Store) : result Audio * Store :=
  match ObjectId story_id with
  | None => (Raise InvalidId, st)
  | Some s =>
      match stories st !! s with
      | None => (Raise (NotFoundError "Story not found"), st)
      | Some story =>
          let whole_story := whole_story_of story in
          match upload_audio audio_file file_name "audio" st with
          | (inl e, st1) => (Raise e, st1)
          | (inr (s3_key, s3_url), st1) =>
              let audio :=
                mkAudio (next_id st1) s3_url file_name (Some s3_key)
                        (Some bucket_name) None None whole_story (Some s) in
              (Ok audio,
               mkStore (stories st1) (<[next_id st1 := audio]> (audios st1))
                       (bucket st1) (N.succ (next_id st1)))
          end
      end
  end.

(** The handlers: [NotFoundError] passes, anything else is wrapped. *)
Definition upload_audio_to_s3 (audio_file : list Byte.byte)
    (file_name story_id : string) (st : Store) : result Audio * Store :=
  match upload_audio_to_s3_body audio_file file_name story_id st with
  | (inl (NotFoundError m), st1) => (Raise (NotFoundError m), st1)
  | (inl e, st1) => (Raise (Failed "Failed to upload audio" e), st1)
  | (inr audio, st1) => (Ok audio, st1)
  end.

End Capabilities.

End AudioUpload.

(** A store with the sample story, a story without pages, and no recording. *)
Definition pageless_story : StoryService.Story :=
  StoryService.mkStory 2 "Untitled" "A story that has no page yet" [] "Ann" 10 3.

Definition recording_store : AudioUpload.Store :=
  AudioUpload.mkStore {[ 1%N := sample_story; 2%N := pageless_story ]} ∅ ∅ 200.

Definition recording_ObjectId (s : string) : option StoryService.oid :=
  if decide (s = sample_story_id) then Some 1%N
  else if decide (s = "0000000000000000000000a2") then Some 2%N
  else None.

(** An object store that accepts every key. *)
Definition s3_accepts (s3_key : string) : option string := None.

(** For the recordings: a bucket that accepts every key, one that refuses
    every key, and one that cannot be reached. *)
Definition s3_stores (s3_key : string) : option AudioUpload.PutObjectError :=
  None.

Definition s3_refuses (s3_key : string) : option AudioUpload.PutObjectError :=
  Some (AudioUpload.ClientError "AccessDenied").

Definition s3_unreachable (s3_key : string) : option AudioUpload.PutObjectError :=
  Some (AudioUpload.OtherError "Could not connect to the endpoint URL").

Definition first_take : list Byte.byte := [Byte.x01].
Definition second_take : list Byte.byte := [Byte.x02].

(** ** The library of uploaded books: [app/services/book_service.py] *)

Module BookService.

Import RAGService.

(** [MAX_FILE_SIZE = 10 * 1024 * 1024] and [ALLOWED_EXTENSIONS]. *)
Definition MAX_FILE_SIZE : Z := 10 * 1024 * 1024.
Definition ALLOWED_EXTENSIONS : list string := [".pdf"; ".txt"; ".epub"].

(** [schemas/book.py] *)
Record Book : Type := mkBook {
  book_id : StoryService.oid;
  book_title : string;
  book_author : option string;
  file_url : string;
  file_type : string;
  file_size : Z;
  uploaded_by : StoryService.oid;
  child_age : Z;
  is_indexed : bool
}.

(** What the service reads of a [fastapi.UploadFile]. *)
Record UploadFile : Type := mkUploadFile {
  filename : string;
  content : list Byte.byte;
  content_type : option string
}.

(** [models/book.py], [UploadBookMetadata] *)
Record UploadBookMetadata : Type := mkUploadBookMetadata {
  meta_book_title : option string;
  meta_book_author : option string
}.

(** The book documents, the objects of the bucket (body and content type)
    by key, the chunks of the vector index, and the next identifier the
    driver hands out. *)
Record World : Type := mkWorld {
  books : gmap StoryService.oid Book;
  objects : gmap string (list Byte.byte * string);
  index : list Document;
  next_id : StoryService.oid
}.

(** The marker [delete_book] looks for in a file URL. *)
Definition amazonaws : string := ".amazonaws.com/".

Section Capabilities.

Variable ObjectId : string -> option StoryService.oid.
(** [str(book.id)], [str(book.uploaded_by)] *)
Variable oid_str : StoryService.oid -> string.
(** [os.path.splitext(name)[1]] and [str.lower]. *)
Variable splitext_ext : string -> string.
Variable lower : string -> string.
(** The message of the rejection of a file type: it joins the elements of a
    set, in an order the language does not fix. *)
Variable invalid_type_message : string.
Variable bucket_name : string.
Variable aws_region : string.
(** The [ClientError] with which [put_object] refuses a key, if it does, and
    the exception with which [delete_object] fails, if it does. *)
Variable put_object_error : string -> option string.
Variable delete_object_error : string -> option exn.
(** The three extractors, each wrapping its failures. *)
Variable extract_text_from_pdf : list Byte.byte -> result string.
Variable extract_text_from_epub : list Byte.byte -> result string.
Variable extract_text_from_txt : list Byte.byte -> result string.
Variable split_text : string -> list string.
(** The exception with which the vector store refuses documents, if it
    does. *)
Variable add_documents_error : list Document -> option exn.

Definition _validate_file (file : UploadFile) : result unit :=
  let file_ext := lower (splitext_ext (filename file)) in
  if decide (file_ext ∈ ALLOWED_EXTENSIONS) then Ok tt
  else Raise (ValueError invalid_type_message).

Definition file_url_of (object_key : string) : string :=
  "https://" +:+ bucket_name +:+ ".s3." +:+ aws_region +:+ amazonaws
    +:+ object_key.

(** [_upload_to_s3]: the size is checked before the object is written; only
    a [ClientError] is wrapped. *)
Definition _upload_to_s3 (file : UploadFile) (object_key : string) (w : World)
    : result (string * Z) * World :=
  let file_content := content file in
  if decide (MAX_FILE_SIZE < Z.of_nat (length file_content))%Z
  then (Raise (ValueError "File size exceeds 10.0MB limit"), w)
  else
    match put_object_error object_key with
    | Some message =>
        (Raise (Failed "Failed to upload file to S3" (UpstreamError message)), w)
    | None =>
        let body :=
          (file_content,
           match content_type file with
           | Some t => if decide (t = "") then "application/octet-stream" else t
           | None => "application/octet-stream"
           end) in
        (Ok (file_url_of object_key, Z.of_nat (length file_content)),
         mkWorld (books w) (<[object_key := body]> (objects w)) (index w)
                 (next_id w))
    end.

Definition extract_text (file : UploadFile) (file_type : string) : result string :=
  let file_content := content file in
  try! text :=
    if decide (file_type = ".pdf") then extract_text_from_pdf file_content
    else if decide (file_type = ".epub") then extract_text_from_epub file_content
    else if decide (file_type = ".txt") then extract_text_from_txt file_content
    else Raise (ValueError ("Unsupported file type: " +:+ file_type)) in
  Ok (PyStr.strip text).

(** [rag_service.add_book_to_index] on the index of the world. *)
Definition add_book_to_index (book_id book_title : string)
    (book_author : option string) (book_content user_id : string)
    (child_age : Z) (w : World) : result unit * World :=
  let documents :=
    RAGIndexing.book_documents split_text book_id book_title book_author
      book_content user_id child_age None in
  match add_documents_error documents with
  | Some e => (Raise e, w)
  | None => (Ok tt, mkWorld (books w) (objects w) (index w ++ documents) (next_id w))
  end.

(** [upload_book]; [unique_id] is the value of [str(uuid.uuid4())]. Its
    handler re-raises unchanged. *)
Definition upload_book (file : UploadFile) (user_id : string) (child_age : Z)
    (metadata : option UploadBookMetadata) (unique_id : string) (w : World)
    : result Book * World :=
  match _validate_file file with
  | inl e => (Raise e, w)
  | inr _ =>
      let file_type := lower (splitext_ext (filename file)) in
      let object_key := "books/" +:+ user_id +:+ "/" +:+ unique_id +:+ file_type in
      match _upload_to_s3 file object_key w with
      | (inl e, w1) => (Raise e, w1)
      | (inr (file_url, file_size), w1) =>
          match extract_text file file_type with
          | inl e => (Raise e, w1)
          | inr text_content =>
              if decide (text_content = "")
              then (Raise (ValueError
                             "No text content could be extracted from the file"),
                    w1)
              else
                let book_title :=
                  match metadata with
                  | Some m =>
                      match meta_book_title m with
                      | Some t => if decide (t = "") then filename file else t
                      | None => filename file
                      end
                  | None => filename file
                  end in
                let book_author :=
                  match metadata with
                  | Some m => meta_book_author m
                  | None => None
                  end in
                match ObjectId user_id with
                | None => (Raise InvalidId, w1)
                | Some uploaded_by =>
                    let book :=
                      mkBook (next_id w1) book_title book_author file_url
                             (PyStr.replace "." "" file_type) file_size
                             uploaded_by child_age false in
                    let w2 :=
                      mkWorld (<[next_id w1 := book]> (books w1)) (objects w1)
                              (index w1) (N.succ (next_id w1)) in
                    match add_book_to_index (oid_str (book_id book)) book_title
                            book_author text_content user_id child_age w2 with
                    | (inl _, w3) => (Ok book, w3)
                    | (inr _, w3) =>
                        let book :=
                          mkBook (book_id book) book_title book_author file_url
                                 (PyStr.replace "." "" file_type) file_size
                                 uploaded_by child_age true in
                        (Ok book,
                         mkWorld (<[book_id book := book]> (books w3)) (objects w3)
                                 (index w3) (next_id w3))
                    end
                end
          end
      end
  end.

(** [delete_book]; a failure of the object store is logged and ignored,
    and the vector index is not touched. *)
Definition delete_book (book_id user_id : string) (w : World)
    : result unit * World :=
  match ObjectId book_id with
  | None => (Raise InvalidId, w)
  | Some i =>
      match books w !! i with
      | None => (Raise (ValueError "Book not found"), w)
      | Some book =>
          if decide (oid_str (uploaded_by book) ≠ user_id)
          then (Raise (ValueError "Unauthorized to delete this book"), w)
          else
            let url_parts := PyStr.split amazonaws (file_url book) in
            let objects1 :=
              match url_parts with
              | _ :: object_key :: _ =>
                  match delete_object_error object_key with
                  | Some _ => objects w
                  | None => delete object_key (objects w)
                  end
              | _ => objects w
              end in
            (Ok tt, mkWorld (delete i (books w)) objects1 (index w) (next_id w))
      end
  end.

End Capabilities.

End BookService.

(** The key [upload_book] stores a file under. *)
Definition book_key (user_id unique_id file_type : string) : string :=
  "books/" +:+ user_id +:+ "/" +:+ unique_id +:+ file_type.

(** ** The book routes: [delete_book] of [app/routers/books.py] *)

Module BooksRouter.

(** [fastapi.HTTPException(status_code, detail)] *)
Record HTTPException : Type := mkHTTPException {
  status_code : nat;
  detail : string
}.

(** What the body of a route can raise: an [HTTPException] of its own, or
    an exception of the service. *)
Inductive raised : Type :=
| Http (h : HTTPException)
| Service (e : exn).

Section Capabilities.

Variable ObjectId : string -> option StoryService.oid.
Variable oid_str : StoryService.oid -> string.
Variable delete_object_error : string -> option exn.

(** The body of the [try]: [ObjectId.is_valid] holds of the strings
    [ObjectId] accepts. *)
Definition delete_book_body (book_id : string) (current_user_id : StoryService.oid)
    (w : BookService.World) : (raised + string) * BookService.World :=
  match ObjectId book_id with
  | None => (inl (Http (mkHTTPException 400 "Invalid book ID")), w)
  | Some _ =>
      match BookService.delete_book ObjectId oid_str delete_object_error book_id
              (oid_str current_user_id) w with
      | (inl e, w1) => (inl (Service e), w1)
      | (inr _, w1) => (inr "Book deleted successfully", w1)
      end
  end.

(** The handlers [except ValueError as e] and [except Exception as e]: an
    [HTTPException] is an [Exception] and not a [ValueError]. *)
Definition delete_book (book_id : string) (current_user_id : StoryService.oid)
    (w : BookService.World) : (HTTPException + string) * BookService.World :=
  match delete_book_body book_id current_user_id w with
  | (inl (Service (ValueError message)), w1) =>
      (inl (mkHTTPException 403 message), w1)
  | (inl _, w1) => (inl (mkHTTPException 500 "Failed to delete book"), w1)
  | (inr message, w1) => (inr message, w1)
  end.

End Capabilities.

End BooksRouter.

(** The part of a file URL before the marker. *)
Definition url_host (bucket_name aws_region : string) : string :=
  "https://" +:+ bucket_name +:+ ".s3." +:+ aws_region.

(** Fixtures of the book examples: a user, the book uploaded next, and
    capabilities that accept what they are given. *)
Definition reader_id : string := "0000000000000000000000b1".
Definition uploaded_book_id : string := "00000000000000000000012c".

Definition book_ObjectId (s : string) : option StoryService.oid :=
  if decide (s = reader_id) then Some 177%N
  else if decide (s = uploaded_book_id) then Some 300%N
  else None.

Definition book_oid_str (i : StoryService.oid) : string :=
  if decide (i = 177%N) then reader_id
  else if decide (i = 300%N) then uploaded_book_id
  else "".

Definition sample_splitext (name : string) : string :=
  if decide (name = "dragons.txt") then ".txt"
  else if decide (name = "notes.docx") then ".docx"
  else "".

Definition same_case (s : string) : string := s.

Definition dragons_file : BookService.UploadFile :=
  BookService.mkUploadFile "dragons.txt" [Byte.x4c; Byte.x6f] (Some "text/plain").

(** A text file that holds white space only. *)
Definition blank_file : BookService.UploadFile :=
  BookService.mkUploadFile "dragons.txt" [Byte.x20] (Some "text/plain").

Definition docx_file : BookService.UploadFile :=
  BookService.mkUploadFile "notes.docx" [Byte.x01] None.

(** A decoder for the examples: a file of one byte holds a blank. *)
Definition sample_extract_txt (file_content : list Byte.byte) : result string :=
  match file_content with
  | [_] => Ok " "
  | _ => Ok "Long ago"
  end.

Definition no_extractor (file_content : list Byte.byte) : result string :=
  Raise (Exception "Failed to extract text").

Definition index_accepts (documents : list RAGService.Document) : option exn := None.

Definition delete_accepts (object_key : string) : option exn := None.

Definition book_world : BookService.World := BookService.mkWorld ∅ ∅ [] 300.

Definition sample_upload (file : BookService.UploadFile)
    : result BookService.Book * BookService.World :=
  BookService.upload_book book_ObjectId book_oid_str sample_splitext same_case
    "Invalid file type. Allowed types: .pdf, .txt, .epub" "bucket" "eu-west-1"
    s3_accepts no_extractor no_extractor sample_extract_txt one_chunk
    index_accepts file reader_id 7 None "6f1c" book_world.

(** ** Error responses: [app/middleware/error_handler.py] with the status
       codes of [app/exceptions/custom_exceptions.py], and the story routes of
       [app/routers/stories.py] *)

Module ErrorHandler.

(** The status and the [error] entry of the JSON body. *)
Record JSONResponse : Type := mkJSONResponse {
  status_code : nat;
  error : string
}.

(** [app_exception_handler]: the status code and the message of the
    exception. *)
Definition app_exception_handler (message : string) (status_code : nat)
    : JSONResponse :=
  mkJSONResponse status_code message.

(** [general_exception_handler] *)
Definition general_exception_handler : JSONResponse :=
  mkJSONResponse 500 "Internal server error".

(** The handler registered for the class of the exception: the two
    application exceptions the story services raise carry 404 and 403;
    everything else falls to the general handler. *)
Definition exception_response (e : exn) : JSONResponse :=
  match e with
  | NotFoundError message => app_exception_handler message 404
  | ForbiddenError message => app_exception_handler message 403
  | _ => general_exception_handler
  end.

End ErrorHandler.

Module StoriesRouter.

Import StoryService.

(** A route whose handlers re-raise: the value of the service, or the
    response to the exception. *)
Definition route {A} (o : result A * Db * list call)
    : (ErrorHandler.JSONResponse + A) * Db :=
  match o with
  | (inl e, db, _) => (inl (ErrorHandler.exception_response e), db)
  | (inr a, db, _) => (inr a, db)
  end.

Section Capabilities.

Variable ObjectId : string -> option oid.
Variable similarity_search : string -> Z -> result (list RAGService.Document).
Variable llm : StoryGraph.Prompt -> string + string.
Variable completion : string -> string -> string + string.
Variable json_loads : string -> option json.
Variable generate_image : json -> Z -> string -> option string.
Variable mirror_image : string -> option string.
Variable oid_str : oid -> string.

(** [POST /api/story/create] *)
Definition create_story (story_data : CreateStoryRequest) (current_user_id : oid)
    (parent_name : string) (db : Db) : (ErrorHandler.JSONResponse + Story) * Db :=
  route (StoryService.create_story similarity_search llm json_loads generate_image
           mirror_image oid_str story_data current_user_id parent_name db).

(** [GET /api/story/getStory/{sid}] *)
Definition get_story (sid : string) (current_user_id : oid) (db : Db)
    : (ErrorHandler.JSONResponse + Story) * Db :=
  route (StoryService.get_story ObjectId sid current_user_id db).

(** [GET /api/story/getQuestions/{sid}] *)
Definition get_questions (sid : string) (current_user_id : oid) (db : Db)
    : (ErrorHandler.JSONResponse + Assignment) * Db :=
  route (StoryService.create_assignment ObjectId completion json_loads sid
           current_user_id db).

End Capabilities.

End StoriesRouter.

(** ** Punctuation analysis: [analyze_punctuation] of
       [app/services/audio_service.py] *)

Module Punctuation.

(** [string.punctuation] *)
Definition punctuation : string :=
  "!" +:+ String "034"%char EmptyString +:+ "#$%&'()*+,-./:;<=>?@[\]^_`{|}~".

(** One entry of the returned list. *)
Record Difference : Type := mkDifference {
  sentence_index : nat;
  transcript_punctuation : list string;
  story_punctuation : list string
}.

(** [w in string.punctuation]: the token occurs in the constant as a
    substring. *)
Definition is_punctuation (w : string) : bool := PyStr.contains w punctuation.

Section Tokenizers.

(** [nltk.tokenize.sent_tokenize] and [word_tokenize]; either can raise. *)
Variable sent_tokenize : string -> result (list string).
Variable word_tokenize : string -> result (list string).

(** The loop over [range(min_len)]: the sentences are compared pairwise as
    far as both texts have one. *)
Fixpoint compare_from (i : nat) (transcript_sentences story_sentences : list string)
    : result (list Difference) :=
  match transcript_sentences, story_sentences with
  | transcript_sentence :: transcript_rest, story_sentence :: story_rest =>
      try! transcript_words := word_tokenize transcript_sentence in
      try! story_words := word_tokenize story_sentence in
      let transcript_punctuation := List.filter is_punctuation transcript_words in
      let story_punctuation := List.filter is_punctuation story_words in
      try! differences := compare_from (S i) transcript_rest story_rest in
      Ok (if decide (transcript_punctuation ≠ story_punctuation)
          then mkDifference i transcript_punctuation story_punctuation
                 :: differences
          else differences)
  | _, _ => Ok []
  end.

(** [analyze_punctuation]: any exception gives the empty list. *)
Definition analyze_punctuation (transcript story : string) : list Difference :=
  match (try! transcript_sentences := sent_tokenize transcript in
         try! story_sentences := sent_tokenize story in
         compare_from 0 transcript_sentences story_sentences) with
  | inr differences => differences
  | inl _ => []
  end.

End Tokenizers.

End Punctuation.

(** ** Authentication of a request: [get_current_user] of
       [app/middleware/auth.py] *)

Module Auth.

(** [schemas/user.py] *)
Record User : Type := mkUser {
  user_id : StoryService.oid;
  parent_name : string;
  parent_email : string;
  child_name : string;
  child_age : Z;
  password : string;
  child_standard : string
}.

Section Capabilities.

Variable ObjectId : string -> option StoryService.oid.

(** [utils/jwt.py], [verify_token]: the [userId] of a token that decodes,
    [None] for a token that does not. *)
Variable verify_token : string -> option string.

(** The [try] around the lookup: [User.get] raises on a malformed id, and
    the route raises its own 401 for a missing user. *)
Definition lookup_user (user_id : string) (users : gmap StoryService.oid User)
    : BooksRouter.raised + User :=
  match ObjectId user_id with
  | None => inl (BooksRouter.Service InvalidId)
  | Some i =>
      match users !! i with
      | None =>
          inl (BooksRouter.Http (BooksRouter.mkHTTPException 401 "User not found"))
      | Some user => inr user
      end
  end.

(** [get_current_user]: an empty cookie or user id is falsy; the handler
    [except Exception] answers whatever the lookup raised with 500. *)
Definition get_current_user (cookies : gmap string string)
    (users : gmap StoryService.oid User) : BooksRouter.HTTPException + User :=
  match cookies !! "jwt" with
  | None => inl (BooksRouter.mkHTTPException 401 "Not authenticated")
  | Some token =>
      if decide (token = "")
      then inl (BooksRouter.mkHTTPException 401 "Not authenticated")
      else
        match verify_token token with
        | None => inl (BooksRouter.mkHTTPException 401 "Invalid or expired token")
        | Some user_id =>
            if decide (user_id = "")
            then inl (BooksRouter.mkHTTPException 401 "Invalid or expired token")
            else
              match lookup_user user_id users with
              | inl _ =>
                  inl (BooksRouter.mkHTTPException 500 "Error authenticating user")
              | inr user => inr user
              end
        end
  end.

End Capabilities.

End Auth.

(** * Properties *)

(** Unfolds the plumbing of a service step: the store accessors and the
    sequencing of steps. *)
Ltac service_steps :=
  unfold StoryService.Story_get, StoryService.Assignment_find_one,
    StoryService.Assignment_insert, StoryService.Story_insert,
    StoryService.gather_images, StoryService.handle, StoryService.mbind,
    StoryService.lift, StoryService.outside, StoryService.get_db,
    StoryService.put_db, StoryService.ret, StoryService.parse_id.

(** ** String primitives on concrete inputs *)

Example strip_example :
  PyStr.strip (" " +:+ StoryGraph.newline +:+ "ab c " +:+ StoryGraph.newline) = "ab c".
Proof. reflexivity. Qed.

Example split_example : PyStr.split "--" "a--b----c-" = ["a"; "b"; ""; "c-"].
Proof. reflexivity. Qed.

Example words_example :
  PyStr.words " The quick  brown fox. " = ["The"; "quick"; "brown"; "fox."].
Proof. reflexivity. Qed.

Example replace_example : PyStr.replace "ab" "" "xabyabab" = "xy".
Proof. reflexivity. Qed.

(** ** Reading assessment *)

Section EditDistance.

Import Jiwer.

Lemma edit_distance_nil_r (a : list string) : edit_distance a [] = length a.
Proof. destruct a; reflexivity. Qed.

(** Two equal word sequences are at distance zero. *)
Lemma edit_distance_refl (a : list string) : edit_distance a a = 0.
Proof.
  induction a as [|x a IH]; [reflexivity|].
  cbn [edit_distance]. rewrite decide_True by reflexivity.
  rewrite IH. lia.
Qed.

Example edit_distance_shift :
  edit_distance ["a"; "b"; "c"] ["b"; "c"; "d"] = 2.
Proof. reflexivity. Qed.

Example edit_distance_insertions :
  edit_distance ["fox"] ["the"; "quick"; "fox"; "ran"] = 3.
Proof. reflexivity. Qed.

(** The scenario of the specification: one substituted word out of four. *)
Example word_error_rate_fox :
  word_error_rate "The quick brown fox." "The quick red fox." = 0.25%float.
Proof. vm_compute. reflexivity. Qed.

End EditDistance.

(** ** Binary floating point: rounding, signs and the score *)

Section FloatFacts.

Local Open Scope Z_scope.

(** The number of binary digits of a positive number. *)
Lemma digits2_pos_bounds (p : positive) :
  2 ^ (Z.pos (digits2_pos p) - 1) <= Z.pos p < 2 ^ Z.pos (digits2_pos p).
Proof.
  induction p as [p IH|p IH|]; cbn [digits2_pos].
  - rewrite Pos2Z.inj_succ. replace (Z.succ (Z.pos (digits2_pos p)) - 1)
      with (Z.succ (Z.pos (digits2_pos p) - 1)) by lia.
    rewrite !Z.pow_succ_r by lia. lia.
  - rewrite Pos2Z.inj_succ. replace (Z.succ (Z.pos (digits2_pos p)) - 1)
      with (Z.succ (Z.pos (digits2_pos p) - 1)) by lia.
    rewrite !Z.pow_succ_r by lia. lia.
  - simpl. lia.
Qed.

Lemma Zdigits2_le (m k : Z) : 0 < m < 2 ^ k -> 0 <= k -> Zdigits2 m <= k.
Proof.
  intros [Hpos Hlt] Hk. destruct m as [|p|p]; try lia. cbn [Zdigits2].
  destruct (digits2_pos_bounds p) as [Hlow _].
  destruct (Z_le_gt_dec (Z.pos (digits2_pos p)) k) as [|Hgt]; [assumption|].
  exfalso. assert (2 ^ k <= 2 ^ (Z.pos (digits2_pos p) - 1)).
  { apply Z.pow_le_mono_r; lia. }
  lia.
Qed.

Lemma iter_xO (d k : positive) :
  Z.pos (Pos.iter xO d k) = Z.pos d * 2 ^ Z.pos k
  /\ digits2_pos (Pos.iter xO d k) = (digits2_pos d + k)%positive.
Proof.
  induction k as [|k IH] using Pos.peano_ind.
  - cbn. split; lia.
  - rewrite Pos.iter_succ. destruct IH as [IH1 IH2].
    cbn [digits2_pos]. rewrite IH2, Pos2Z.inj_xO, IH1, Pos2Z.inj_succ.
    rewrite Z.pow_succ_r by lia. split; lia.
Qed.

(** Shifting right halves the mantissa. *)
Lemma shr_1_m (mrs : shr_record) :
  0 <= shr_m mrs -> shr_m (shr_1 mrs) = shr_m mrs / 2.
Proof.
  destruct mrs as [m r s]. cbn [shr_m]. intros Hm.
  destruct m as [|[p|p|]|p]; cbn [shr_1 shr_m]; try lia; try reflexivity.
  - apply Z.div_unique with 1; lia.
  - apply Z.div_unique with 0; lia.
Qed.

Lemma iter_shr_1_m (n : positive) :
  forall mrs : shr_record,
    0 <= shr_m mrs ->
    shr_m (SpecFloat.iter_pos shr_1 n mrs) = shr_m mrs / 2 ^ Z.pos n.
Proof.
  assert (forall k : positive, 0 < 2 ^ Z.pos k) as Hpos
    by (intros; apply Z.pow_pos_nonneg; lia).
  assert (forall m (k : positive), 0 <= m -> 0 <= m / 2 ^ Z.pos k) as Hpow
    by (intros; apply Z.div_pos; auto).
  induction n as [n IH|n IH|]; intros mrs Hm; cbn [SpecFloat.iter_pos].
  - assert (0 <= shr_m (shr_1 mrs)) as H1
      by (rewrite shr_1_m by assumption; apply Z.div_pos; lia).
    rewrite IH by (rewrite IH by assumption; auto).
    rewrite IH by assumption. rewrite shr_1_m by assumption.
    rewrite !Z.div_div by (auto; lia).
    f_equal. replace (Z.pos n~1) with (1 + Z.pos n + Z.pos n) by lia.
    rewrite !Z.pow_add_r by lia. lia.
  - rewrite IH by (rewrite IH by assumption; auto).
    rewrite IH by assumption.
    rewrite !Z.div_div by (auto; lia).
    f_equal. replace (Z.pos n~0) with (Z.pos n + Z.pos n) by lia.
    rewrite !Z.pow_add_r by lia. lia.
  - rewrite shr_1_m by assumption. reflexivity.
Qed.

Lemma shr_nonpos (mrs : shr_record) (e n : Z) :
  n <= 0 -> shr mrs e n = (mrs, e).
Proof. destruct n; [reflexivity|lia|reflexivity]. Qed.

Lemma round_nearest_even_bounds (m : Z) (l : location) :
  m <= round_nearest_even m l <= m + 1.
Proof.
  destruct l as [|[]]; cbn [round_nearest_even]; try lia.
  destruct (Z.even m); lia.
Qed.

Lemma fexp_eq (e : Z) : fexp prec emax e = Z.max (e - 53) (-1074).
Proof. reflexivity. Qed.

(** The last step of a rounding whose value lies below one hundred: the
    result is at most one hundred. *)
Lemma round_le_100 (m1 E : Z) (lx : location) :
  0 <= m1 < 9007199254740992 ->
  -1074 <= E <= -46 ->
  m1 < 7036874417766400 * 2 ^ (-46 - E) ->
  SFleb (let '(mrs, e) :=
           shr_fexp prec emax (round_nearest_even m1 lx) E loc_Exact in
         match shr_m mrs with
         | Z0 => S754_zero false
         | Z.pos m =>
             if e <=? emax - prec then S754_finite false m e
             else S754_infinity false
         | Z.neg _ => S754_nan
         end)
        (S754_finite false 7036874417766400 (-46)) = true.
Proof.
  intros Hm1 HE Hval.
  pose proof (round_nearest_even_bounds m1 lx) as Hm2.
  set (m2 := round_nearest_even m1 lx) in *.
  assert (E = -46 -> m2 <= 7036874417766400) as Hsame.
  { intros ->. change (2 ^ (-46 - -46)) with 1 in Hval. lia. }
  unfold shr_fexp. cbn [shr_record_of_loc]. rewrite fexp_eq.
  destruct (Z.eq_dec m2 9007199254740992) as [Hcarry|Hno].
  - rewrite Hcarry. change (Zdigits2 9007199254740992) with 54.
    replace (Z.max (54 + E - 53) (-1074) - E) with 1 by lia.
    cbn [shr SpecFloat.iter_pos shr_1 shr_m].
    replace (E + 1 <=? emax - prec) with true
      by (symmetry; apply Z.leb_le; unfold emax, prec; lia).
    unfold SFleb, SFcompare.
    destruct (Z.compare_spec (E + 1) (-46)) as [Heq|Hlt|Hgt];
      [reflexivity|reflexivity|].
    exfalso. assert (E = -46) as HE' by lia. specialize (Hsame HE'). lia.
  - destruct m2 as [|p|p] eqn:Hp; [| |lia].
    + cbn [Zdigits2]. rewrite shr_nonpos by lia. reflexivity.
    + assert (Zdigits2 (Z.pos p) <= 53) as Hdig
        by (apply Zdigits2_le; [change (2 ^ 53) with 9007199254740992|]; lia).
      rewrite shr_nonpos by lia. cbn [shr_m].
      replace (E <=? emax - prec) with true
        by (symmetry; apply Z.leb_le; unfold emax, prec; lia).
      unfold SFleb, SFcompare.
      destruct (Z.compare_spec E (-46)) as [Heq|Hlt|Hgt];
        [|reflexivity|lia].
      specialize (Hsame Heq).
      rewrite Pos.compare_cont_spec.
      destruct (Pos.compare_spec p 7036874417766400); [reflexivity..|lia].
Qed.

Lemma binary_round_aux_le_100 (m e E : Z) (lx : location) (mrs : shr_record) :
  shr_fexp prec emax m e lx = (mrs, E) ->
  0 <= shr_m mrs < 9007199254740992 ->
  -1074 <= E <= -46 ->
  shr_m mrs < 7036874417766400 * 2 ^ (-46 - E) ->
  SFleb (binary_round_aux prec emax false m e lx)
        (S754_finite false 7036874417766400 (-46)) = true.
Proof.
  intros Hshr Hm HE Hval. unfold binary_round_aux. rewrite Hshr.
  apply round_le_100; assumption.
Qed.

(** Rounding a positive value below one hundred gives at most one
    hundred. *)
Lemma binary_round_le_100 (d : positive) (ez : Z) :
  -1074 <= ez <= -46 ->
  Z.pos d < 7036874417766400 * 2 ^ (-46 - ez) ->
  SFleb (binary_round prec emax false d ez)
        (S754_finite false 7036874417766400 (-46)) = true.
Proof.
  intros Hez Hval.
  destruct (digits2_pos_bounds d) as [Hlow Hhigh].
  set (g := Z.pos (digits2_pos d)) in *.
  assert (0 < g) as Hg by (subst g; lia).
  assert (g + ez <= 7) as HD.
  { assert (2 ^ (g - 1) < 2 ^ (7 - ez)) as Hpow.
    { replace (7 - ez) with (53 + (-46 - ez)) by lia.
      rewrite Z.pow_add_r by lia. change (2 ^ 53) with 9007199254740992.
      assert (0 < 2 ^ (-46 - ez)) by (apply Z.pow_pos_nonneg; lia). nia. }
    apply Z.pow_lt_mono_r_iff in Hpow; lia. }
  set (E := Z.max (g + ez - 53) (-1074)).
  assert (-1074 <= E <= -46) as HE by (subst E; lia).
  assert (g + ez - E <= 53) as Hwidth by (subst E; lia).
  unfold binary_round. rewrite fexp_eq. fold g. fold E. unfold shl_align.
  destruct (E - ez) as [|n|k] eqn:Hshift.
  - (* the exponent is already the right one *)
    assert (E = ez) as HEez by lia.
    apply (binary_round_aux_le_100 _ _ E _
             {| shr_m := Z.pos d; shr_r := false; shr_s := false |}).
    + unfold shr_fexp. cbn [Zdigits2 shr_record_of_loc]. rewrite fexp_eq.
      fold g. fold E. rewrite Hshift. rewrite HEez. reflexivity.
    + cbn [shr_m]. split; [lia|].
      assert (2 ^ g <= 2 ^ 53) by (apply Z.pow_le_mono_r; lia).
      change (2 ^ 53) with 9007199254740992 in *. lia.
    + exact HE.
    + cbn [shr_m]. rewrite HEez. exact Hval.
  - (* digits are dropped *)
    assert (0 < 2 ^ Z.pos n) as Hn by (apply Z.pow_pos_nonneg; lia).
    assert (0 < 2 ^ (-46 - E)) as HpE by (apply Z.pow_pos_nonneg; lia).
    apply (binary_round_aux_le_100 _ _ E _
             (SpecFloat.iter_pos shr_1 n
                {| shr_m := Z.pos d; shr_r := false; shr_s := false |})).
    + unfold shr_fexp. cbn [Zdigits2 shr_record_of_loc]. rewrite fexp_eq.
      fold g. fold E. rewrite Hshift. cbn [shr]. f_equal. lia.
    + rewrite iter_shr_1_m by (cbn [shr_m]; lia). cbn [shr_m]. split.
      * apply Z.div_pos; lia.
      * apply Z.div_lt_upper_bound; [exact Hn|].
        assert (2 ^ g <= 2 ^ (Z.pos n + 53)) as Hle
          by (apply Z.pow_le_mono_r; lia).
        rewrite Z.pow_add_r in Hle by lia.
        change (2 ^ 53) with 9007199254740992 in Hle. lia.
    + exact HE.
    + rewrite iter_shr_1_m by (cbn [shr_m]; lia). cbn [shr_m].
      apply Z.div_lt_upper_bound; [exact Hn|].
      replace (-46 - ez) with (Z.pos n + (-46 - E)) in Hval by lia.
      rewrite Z.pow_add_r in Hval by lia. lia.
  - (* the mantissa is shifted to the left *)
    destruct (iter_xO d k) as [Hmz Hdig].
    assert (0 < 2 ^ Z.pos k) as Hk by (apply Z.pow_pos_nonneg; lia).
    assert (0 < 2 ^ (-46 - ez)) as Hpez by (apply Z.pow_pos_nonneg; lia).
    apply (binary_round_aux_le_100 _ _ E _
             {| shr_m := Z.pos (Pos.iter xO d k); shr_r := false;
                shr_s := false |}).
    + unfold shr_fexp. cbn [Zdigits2 shr_record_of_loc]. rewrite fexp_eq.
      rewrite Hdig, Pos2Z.inj_add. fold g.
      rewrite shr_nonpos by lia. reflexivity.
    + cbn [shr_m]. rewrite Hmz. split; [lia|].
      assert (2 ^ (g + Z.pos k) <= 2 ^ 53) as Hle
        by (apply Z.pow_le_mono_r; lia).
      rewrite Z.pow_add_r in Hle by lia.
      change (2 ^ 53) with 9007199254740992 in Hle. nia.
    + exact HE.
    + cbn [shr_m]. rewrite Hmz.
      replace (-46 - E) with ((-46 - ez) + Z.pos k) by lia.
      rewrite Z.pow_add_r by lia. nia.
Qed.

(** *** Signs *)

Lemma shr_m_nonneg (mrs : shr_record) (e n : Z) :
  0 <= shr_m mrs -> 0 <= shr_m (shr mrs e n).1.
Proof.
  intros Hm. destruct n as [|p|p]; cbn [shr fst]; try assumption.
  rewrite iter_shr_1_m by assumption.
  apply Z.div_pos; [assumption|apply Z.pow_pos_nonneg; lia].
Qed.

Lemma shr_fexp_nonneg (m e : Z) (l : location) :
  0 <= m -> 0 <= shr_m (shr_fexp prec emax m e l).1.
Proof.
  intros Hm. unfold shr_fexp. apply shr_m_nonneg.
  destruct l as [|[]]; exact Hm.
Qed.

(** Rounding a non-negative mantissa keeps the sign and gives a number. *)
Lemma binary_round_aux_signed (sx : bool) (m e : Z) (l : location) :
  0 <= m -> signed sx (binary_round_aux prec emax sx m e l).
Proof.
  intros Hm. unfold binary_round_aux.
  pose proof (shr_fexp_nonneg m e l Hm) as H1.
  destruct (shr_fexp prec emax m e l) as [mrs1 e1]. cbn [fst] in H1.
  pose proof (round_nearest_even_bounds (shr_m mrs1) (loc_of_shr_record mrs1))
    as H2.
  pose proof (shr_fexp_nonneg
                (round_nearest_even (shr_m mrs1) (loc_of_shr_record mrs1))
                e1 loc_Exact ltac:(lia)) as H3.
  destruct (shr_fexp prec emax _ e1 loc_Exact) as [mrs2 e2]. cbn [fst] in H3.
  destruct (shr_m mrs2) as [|p|p]; [reflexivity| |lia].
  destruct (e2 <=? emax - prec); reflexivity.
Qed.

Lemma binary_round_signed (sx : bool) (m : positive) (e : Z) :
  signed sx (binary_round prec emax sx m e).
Proof.
  unfold binary_round. destruct (shl_align _ _ _) as [mz ez].
  apply binary_round_aux_signed. lia.
Qed.

(** A float with a negative sign is below one hundred. *)
Lemma signed_true_le_100 (x : spec_float) :
  signed true x -> SFleb x (S754_finite false 7036874417766400 (-46)) = true.
Proof. destruct x as [s|s| |s m e]; cbn [signed]; intros H; subst; try easy. Qed.

(** *** One hundred minus a float that is not negative *)

Lemma valid_binary_emin (s : bool) (m : positive) (e : Z) :
  valid_binary (S754_finite s m e) = true -> -1074 <= e.
Proof.
  cbn [SpecFloat.valid_binary]. unfold bounded, canonical_mantissa.
  rewrite fexp_eq. intros H. apply andb_prop in H as [H _].
  apply Z.eqb_eq in H. lia.
Qed.

Lemma SFsub_100_le (my : positive) (ey : Z) :
  valid_binary (S754_finite false my ey) = true ->
  SFleb (SF64sub (S754_finite false 7036874417766400 (-46))
                 (S754_finite false my ey))
        (S754_finite false 7036874417766400 (-46)) = true.
Proof.
  intros Hvalid. apply valid_binary_emin in Hvalid.
  unfold SF64sub, SFsub. cbn [cond_Zopp].
  set (ez := Z.min (-46) ey).
  assert (-1074 <= ez <= -46) as Hez by (subst ez; lia).
  assert (Z.pos (shl_align 7036874417766400 (-46) ez).1
          = 7036874417766400 * 2 ^ (-46 - ez)) as Ha.
  { unfold shl_align. destruct (ez - -46) as [|n|k] eqn:Hshift; cbn [fst].
    - replace (-46 - ez) with 0 by lia. reflexivity.
    - lia.
    - destruct (iter_xO 7036874417766400 k) as [-> _].
      replace (-46 - ez) with (Z.pos k) by lia. reflexivity. }
  rewrite Ha.
  set (b := Z.pos (shl_align my ey ez).1).
  assert (0 < b) as Hb by (subst b; lia).
  unfold binary_normalize.
  destruct (7036874417766400 * 2 ^ (-46 - ez) - b) as [|p|p] eqn:Hd.
  - reflexivity.
  - apply binary_round_le_100; [exact Hez|lia].
  - apply signed_true_le_100, binary_round_signed.
Qed.

(** *** The score of an error rate *)

(** The floats that are not below zero: zeros, positive numbers, positive
    infinity, and the value that is no number. *)
Lemma not_negative_cases (x : float) :
  (x <? 0)%float = false ->
  Prim2SF x = S754_nan \/ (exists s, Prim2SF x = S754_zero s) \/
  signed false (Prim2SF x).
Proof.
  rewrite FloatAxioms.ltb_spec. change (Prim2SF 0) with (S754_zero false).
  destruct (Prim2SF x) as [s|[]| |[] m e]; cbn; intros H;
    try discriminate; eauto.
Qed.

Lemma SF64mul_100_cases (y : spec_float) :
  y = S754_nan \/ (exists s, y = S754_zero s) \/ signed false y ->
  let p := SF64mul (S754_finite false 7036874417766400 (-46)) y in
  p = S754_nan \/ (exists s, p = S754_zero s) \/ signed false p.
Proof.
  intros [->|[[s ->]|Hy]]; cbn zeta.
  - left. reflexivity.
  - right. left. eexists. reflexivity.
  - destruct y as [s|s| |s m e]; cbn [signed] in Hy; try contradiction; subst.
    + right. left. eexists. reflexivity.
    + right. right. reflexivity.
    + right. right. unfold SF64mul, SFmul. cbn [xorb].
      apply binary_round_aux_signed. lia.
Qed.

Lemma SF64sub_100_cases (y : spec_float) :
  valid_binary y = true ->
  y = S754_nan \/ (exists s, y = S754_zero s) \/ signed false y ->
  let d := SF64sub (S754_finite false 7036874417766400 (-46)) y in
  d = S754_nan \/
  SFleb d (S754_finite false 7036874417766400 (-46)) = true.
Proof.
  intros Hvalid [->|[[s ->]|Hy]]; cbn zeta.
  - left. reflexivity.
  - right. reflexivity.
  - destruct y as [s|s| |s m e]; cbn [signed] in Hy; try contradiction; subst.
    + right. reflexivity.
    + right. reflexivity.
    + right. apply SFsub_100_le, Hvalid.
Qed.

Lemma py_max_0_cases (x : float) :
  (AudioService.py_max 0 x = x /\ (0 <? x)%float = true) \/
  (AudioService.py_max 0 x = 0%float /\ (0 <? x)%float = false).
Proof. unfold AudioService.py_max. destruct (0 <? x)%float; auto. Qed.

(** The score is never negative. *)
Lemma score_lower (error_rate : float) :
  (0 <=? AudioService.py_max 0 (100 - (100 * error_rate)))%float = true.
Proof.
  destruct (py_max_0_cases (100 - 100 * error_rate)%float)
    as [[-> H]|[-> _]]; [|reflexivity].
  rewrite FloatAxioms.ltb_spec in H. rewrite FloatAxioms.leb_spec. unfold SFltb in H. unfold SFleb.
  destruct (SFcompare _ _) as [[]|]; try discriminate; reflexivity.
Qed.

(** The score of an error rate that is not negative is at most one
    hundred. *)
Lemma score_upper (error_rate : float) :
  (error_rate <? 0)%float = false ->
  (AudioService.py_max 0 (100 - (100 * error_rate)) <=? 100)%float = true.
Proof.
  intros He.
  destruct (py_max_0_cases (100 - 100 * error_rate)%float)
    as [[-> H]|[-> _]]; [|reflexivity].
  pose proof (SF64mul_100_cases _ (not_negative_cases _ He)) as Hmul.
  cbn zeta in Hmul.
  change (S754_finite false 7036874417766400 (-46)) with (Prim2SF 100) in Hmul.
  rewrite <- FloatAxioms.mul_spec in Hmul.
  pose proof (SF64sub_100_cases _ (Prim2SF_valid _) Hmul) as Hsub.
  cbn zeta in Hsub.
  change (S754_finite false 7036874417766400 (-46)) with (Prim2SF 100) in Hsub.
  rewrite <- FloatAxioms.sub_spec in Hsub.
  rewrite FloatAxioms.leb_spec. destruct Hsub as [Hnan|Hle]; [|exact Hle].
  rewrite FloatAxioms.ltb_spec, Hnan in H. discriminate H.
Qed.

(** The score of the error rate zero is one hundred. *)
Lemma score_perfect (error_rate : float) :
  (error_rate =? 0)%float = true ->
  AudioService.py_max 0 (100 - (100 * error_rate))%float = 100%float.
Proof.
  intros He. rewrite FloatAxioms.eqb_spec in He.
  assert (exists s, Prim2SF error_rate = S754_zero s) as [s Hs].
  { change (Prim2SF 0) with (S754_zero false) in He.
    destruct (Prim2SF error_rate) as [s|[]| |[] m e]; try discriminate He.
    eauto. }
  assert ((100 - 100 * error_rate)%float = 100%float) as Hsub.
  { apply Prim2SF_inj. rewrite FloatAxioms.sub_spec, FloatAxioms.mul_spec, Hs.
    change (Prim2SF 100) with (S754_finite false 7036874417766400 (-46)).
    reflexivity. }
  rewrite Hsub. reflexivity.
Qed.

(** *** Counts as floats, and their quotient *)

Lemma float_of_nat_signed (n : nat) :
  signed false (Prim2SF (Jiwer.float_of_nat n)).
Proof.
  unfold Jiwer.float_of_nat. rewrite of_uint63_spec.
  pose proof (Uint63.to_Z_bounded (Uint63.of_Z (Z.of_nat n))) as Hb.
  destruct (Uint63.to_Z _) as [|p|p]; [reflexivity| |lia].
  apply binary_round_signed.
Qed.

(** A positive integer below [2^53] is a float, exactly. *)
Lemma binary_round_small (p : positive) :
  Z.pos p < 9007199254740992 ->
  exists m e, binary_round prec emax false p 0 = S754_finite false m e.
Proof.
  intros Hp. destruct (digits2_pos_bounds p) as [Hlow Hhigh].
  set (g := Z.pos (digits2_pos p)) in *.
  assert (0 < g <= 53) as Hg.
  { split; [subst g; lia|].
    assert (2 ^ (g - 1) < 2 ^ 53) as Hpow
      by (change (2 ^ 53) with 9007199254740992; lia).
    apply Z.pow_lt_mono_r_iff in Hpow; lia. }
  assert (forall (mz : positive) (E : Z),
            Z.pos (digits2_pos mz) + E = g -> E = g - 53 ->
            binary_round_aux prec emax false (Z.pos mz) E loc_Exact
            = S754_finite false mz E) as Haux.
  { intros mz E Hdig HE. unfold binary_round_aux, shr_fexp.
    cbn [Zdigits2 shr_record_of_loc]. rewrite fexp_eq.
    rewrite shr_nonpos by lia.
    cbn [shr_m loc_of_shr_record round_nearest_even Zdigits2 shr_record_of_loc].
    rewrite fexp_eq. rewrite shr_nonpos by lia. cbn [shr_m].
    replace (E <=? emax - prec) with true
      by (symmetry; apply Z.leb_le; unfold emax, prec; lia).
    reflexivity. }
  unfold binary_round. rewrite fexp_eq. fold g. unfold shl_align.
  replace (Z.max (g + 0 - 53) (-1074)) with (g - 53) by lia.
  destruct (g - 53 - 0) as [|n|k] eqn:Hshift; [|lia|].
  - eexists _, _. apply Haux; fold g; lia.
  - destruct (iter_xO p k) as [_ Hdig].
    eexists _, _. apply Haux; [|reflexivity].
    rewrite Hdig, Pos2Z.inj_add. fold g. lia.
Qed.

Lemma float_of_nat_finite (n : nat) :
  0 < Z.of_nat n < 9007199254740992 ->
  exists m e, Prim2SF (Jiwer.float_of_nat n) = S754_finite false m e.
Proof.
  intros Hn. unfold Jiwer.float_of_nat.
  rewrite of_uint63_spec, Uint63.of_Z_spec.
  rewrite Z.mod_small
    by (change Uint63.wB with 9223372036854775808; lia).
  destruct (Z.of_nat n) as [|p|p]; [lia| |lia].
  apply binary_round_small. lia.
Qed.

(** Dividing a float that is not negative by a positive number gives a
    float that is not negative. *)
Lemma SF64div_signed (x : spec_float) (my : positive) (ey : Z) :
  signed false x -> signed false (SF64div x (S754_finite false my ey)).
Proof.
  destruct x as [s|s| |s mx ex]; cbn [signed]; intros H;
    try contradiction; subst; try reflexivity.
  unfold SF64div, SFdiv, SFdiv_core_binary. cbn [xorb].
  set (m' := match _ - _ - _ with
             | 0 => Z.pos mx
             | Z.pos _ => Z.shiftl (Z.pos mx) _
             | Z.neg _ => 0
             end).
  assert (0 <= m') as Hm'.
  { subst m'. destruct (_ - _ - _); [lia| |lia].
    apply Z.shiftl_nonneg. lia. }
  pose proof (Z.div_pos m' (Z.pos my) Hm' ltac:(lia)) as Hq.
  unfold Z.div in Hq.
  destruct (Z.div_eucl m' (Z.pos my)) as [q r]. cbn [fst] in Hq.
  apply binary_round_aux_signed, Hq.
Qed.

Lemma signed_false_not_negative (x : float) :
  signed false (Prim2SF x) ->
  (x <? 0)%float = false /\ (0 <=? x)%float = true.
Proof.
  rewrite FloatAxioms.ltb_spec, FloatAxioms.leb_spec.
  change (Prim2SF 0) with (S754_zero false).
  destruct (Prim2SF x) as [s|s| |s m e]; cbn [signed]; intros H;
    try contradiction; subst; auto.
Qed.

(** The quotient of two counts, the second positive. *)
Lemma quotient_not_negative (k n : nat) :
  0 < Z.of_nat n < 9007199254740992 ->
  (Jiwer.float_of_nat k / Jiwer.float_of_nat n <? 0)%float = false /\
  (0 <=? Jiwer.float_of_nat k / Jiwer.float_of_nat n)%float = true.
Proof.
  intros Hn. apply signed_false_not_negative.
  destruct (float_of_nat_finite n Hn) as (m & e & Hden).
  rewrite FloatAxioms.div_spec, Hden.
  apply SF64div_signed, float_of_nat_signed.
Qed.

Lemma quotient_zero (n : nat) :
  0 < Z.of_nat n < 9007199254740992 ->
  (Jiwer.float_of_nat 0 / Jiwer.float_of_nat n)%float = 0%float.
Proof.
  intros Hn. apply Prim2SF_inj.
  destruct (float_of_nat_finite n Hn) as (m & e & Hden).
  rewrite FloatAxioms.div_spec, Hden. reflexivity.
Qed.

End FloatFacts.

Section ProcessAudio.

Import AudioService.

Variable transcriber : string -> result string.
Variable completion : string -> string -> result string.
Variable wer : string -> string -> result float.

(** What a returned result is made of. *)
Lemma process_audio_returns (audio : Audio) (r : Processed) :
  process_audio transcriber completion wer (Some audio) = Ok r →
  whole_story audio ≠ "" ∧
  transcriber (file_path audio) = Ok (p_transcript r) ∧
  p_enhanced_transcript r
  = enhance_transcript completion (p_transcript r) (whole_story audio) ∧
  ∃ error_rate : float,
    wer (whole_story audio) (p_enhanced_transcript r) = Ok error_rate ∧
    p_score r = py_max 0 (100 - (100 * error_rate))%float ∧
    p_saved r = mkAudio (file_path audio) (whole_story audio)
                  (Some (p_transcript r)) (Some (p_score r)).
Proof.
  unfold process_audio, process_audio_body.
  destruct (decide (whole_story audio = "")) as [E|E]; [discriminate|].
  unfold transcribe_audio.
  destruct (transcriber (file_path audio)) as [e|text]; [discriminate|].
  cbn [bind whole_story file_path transcript].
  destruct (wer (whole_story audio)
              (enhance_transcript completion text (whole_story audio)))
    as [e|error_rate] eqn:Hwer; cbn [bind].
  { destruct e; discriminate. }
  intros [= <-]. cbn [p_transcript p_enhanced_transcript p_score p_saved].
  split; [exact E|]. split; [reflexivity|]. split; [reflexivity|].
  exists error_rate. split; [exact Hwer|]. split; reflexivity.
Qed.

(** C1, as the code has it. [process_audio] transcribes the recording,
    corrects the transcript (keeping it when the correction fails), asks
    the word-error-rate function for the rate of the stored reference text
    against the corrected transcript, and returns and saves the score
    [max(0, 100 - (100 * error_rate))], computed in binary floating point.
    The score is never negative; it is at most 100 whenever the rate is not
    negative; it is 100 whenever the rate is zero. It fails exactly when
    the reference text is empty, when the transcription fails, or when the
    word-error-rate function raises, each time with the wrapped cause.
    When the word-error-rate function computes the rate of the
    specification (the edit distance over the words between white space,
    divided by the number of reference words) on texts of fewer than
    [2^53] words, the score of a reference text with at least one word lies
    between 0 and 100, and is 100 when the corrected transcript equals the
    reference text. *)
Theorem process_audio_score (audio : Audio) :
  match process_audio transcriber completion wer (Some audio) with
  | inr r =>
      whole_story audio ≠ "" ∧
      transcriber (file_path audio) = Ok (p_transcript r) ∧
      p_enhanced_transcript r
      = enhance_transcript completion (p_transcript r) (whole_story audio) ∧
      ∃ error_rate : float,
        wer (whole_story audio) (p_enhanced_transcript r) = Ok error_rate ∧
        p_score r = py_max 0 (100 - (100 * error_rate))%float ∧
        p_saved r = mkAudio (file_path audio) (whole_story audio)
                      (Some (p_transcript r)) (Some (p_score r)) ∧
        (0 <=? p_score r)%float = true ∧
        ((error_rate <? 0)%float = false → (p_score r <=? 100)%float = true) ∧
        ((error_rate =? 0)%float = true → p_score r = 100%float)
  | inl e =>
      (whole_story audio = "" ∧
       e = Failed "Failed to process audio"
             (Exception "Story content not found for audio")) ∨
      (whole_story audio ≠ "" ∧
       ∃ cause,
         transcriber (file_path audio) = Raise cause ∧
         e = Failed "Failed to process audio"
               (Failed "Failed to transcribe audio" cause)) ∨
      (whole_story audio ≠ "" ∧
       ∃ transcript cause,
         transcriber (file_path audio) = Ok transcript ∧
         wer (whole_story audio)
           (enhance_transcript completion transcript (whole_story audio))
         = Raise cause ∧
         e = match cause with
             | NotFoundError _ => cause
             | _ => Failed "Failed to process audio" cause
             end)
  end ∧
  (computes_word_error_rate wer →
   (0 < Z.of_nat (length (PyStr.words (whole_story audio)))
    < 9007199254740992)%Z →
   ∀ r : Processed,
     process_audio transcriber completion wer (Some audio) = Ok r →
     (Z.of_nat (length (PyStr.words (p_enhanced_transcript r)))
      < 9007199254740992)%Z →
     (0 <=? p_score r)%float = true ∧
     (p_score r <=? 100)%float = true ∧
     (p_enhanced_transcript r = whole_story audio → p_score r = 100%float)).
Proof.
  split.
  - destruct (process_audio transcriber completion wer (Some audio))
      as [e|r] eqn:Hr.
    + revert Hr. unfold process_audio, process_audio_body.
      destruct (decide (whole_story audio = "")) as [E|E].
      { intros [= <-]. left. split; [exact E|reflexivity]. }
      unfold transcribe_audio.
      destruct (transcriber (file_path audio)) as [cause|text].
      { intros [= <-]. right. left. split; [exact E|]. eauto. }
      cbn [bind whole_story file_path transcript].
      destruct (wer (whole_story audio)
                  (enhance_transcript completion text (whole_story audio)))
        as [cause|error_rate] eqn:Hwer; cbn [bind]; [|discriminate].
      intros He. right. right. split; [exact E|].
      exists text, cause. split; [reflexivity|]. split; [exact Hwer|].
      destruct cause; injection He as <-; reflexivity.
    + destruct (process_audio_returns audio r Hr)
        as (E & Ht & Henh & error_rate & Hwer & Hscore & Hsaved).
      split; [exact E|]. split; [exact Ht|]. split; [exact Henh|].
      exists error_rate. split; [exact Hwer|]. split; [exact Hscore|].
      split; [exact Hsaved|]. rewrite Hscore.
      split; [apply score_lower|]. split; [apply score_upper|apply score_perfect].
  - intros Hspec Hwords r Hr Hlen.
    destruct (process_audio_returns audio r Hr)
      as (_ & _ & _ & error_rate & Hwer & Hscore & _).
    rewrite (Hspec _ _ Hwords Hlen) in Hwer. injection Hwer as <-.
    rewrite Hscore. unfold Jiwer.word_error_rate. cbn zeta.
    split; [apply score_lower|]. split.
    + apply score_upper, quotient_not_negative, Hwords.
    + intros ->. apply score_perfect.
      rewrite edit_distance_refl, (quotient_zero _ Hwords). reflexivity.
Qed.

End ProcessAudio.

(** The scenario of the specification: a word error rate of 1/4 gives the
    score 75. *)
Lemma process_audio_score_witness :
  ∃ r,
    AudioService.process_audio fox_transcriber failing_completion quotient_wer
      (Some fox_audio) = Ok r ∧
    AudioService.p_enhanced_transcript r = "The quick red fox." ∧
    AudioService.p_score r = 75%float ∧
    (0 <=? AudioService.p_score r)%float = true ∧
    (AudioService.p_score r <=? 100)%float = true.
Proof.
  destruct (AudioService.process_audio fox_transcriber failing_completion
              quotient_wer (Some fox_audio)) as [e|r] eqn:Hr;
    [vm_compute in Hr; discriminate|].
  exists r. split; [reflexivity|].
  assert (AudioService.p_enhanced_transcript r = "The quick red fox.") as Henh
    by (vm_compute in Hr; injection Hr as <-; reflexivity).
  split; [exact Henh|].
  split; [vm_compute in Hr; injection Hr as <-; reflexivity|].
  destruct (proj2 (process_audio_score fox_transcriber failing_completion
                     quotient_wer fox_audio)
              (fun reference hypothesis _ _ => eq_refl)
              (conj eq_refl eq_refl) r Hr
              ltac:(rewrite Henh; reflexivity))
    as (Hlow & Hhigh & _).
  split; assumption.
Defined.

(** A reference of five words read with four wrong words: the error rate
    is the float nearest to 4/5. The code scores [100 - (100 * 0.8)],
    which is 20; the formula [100 * (1 - 0.8)] of the specification gives
    a float below 20. *)
Theorem process_audio_score_rounding :
  AudioService.process_audio five_words_transcriber failing_completion
    quotient_wer (Some five_words_audio)
  = Ok (AudioService.mkProcessed "one dos tres cuatro cinco"
          "one dos tres cuatro cinco" 20%float
          (AudioService.mkAudio "https://bucket.example/five.mp3"
             "one two three four five" (Some "one dos tres cuatro cinco")
             (Some 20%float))) ∧
  Jiwer.word_error_rate "one two three four five" "one dos tres cuatro cinco"
  = (Jiwer.float_of_nat 4 / Jiwer.float_of_nat 5)%float ∧
  (AudioService.py_max 0
     (100 * (1 - Jiwer.float_of_nat 4 / Jiwer.float_of_nat 5)) <? 20)%float
  = true ∧
  AudioService.py_max 0
    (100 * (1 - Jiwer.float_of_nat 4 / Jiwer.float_of_nat 5))%float
  ≠ 20%float.
Proof.
  split; [vm_compute; reflexivity|].
  split; [vm_compute; reflexivity|].
  split; [vm_compute; reflexivity|].
  intros H. apply (f_equal (fun x => (x <? 20)%float)) in H.
  vm_compute in H. discriminate H.
Qed.

(** A transcript much longer than the reference is clamped at zero. *)
Example process_audio_insertions :
  match AudioService.process_audio
          (fun _ => Ok "oh the very quick and red fox ran far away")
          failing_completion quotient_wer (Some fox_audio) with
  | inr r => AudioService.p_score r = 0%float
  | inl _ => False
  end.
Proof. vm_compute. reflexivity. Qed.

(** An audio whose story has no page is refused. *)
Example process_audio_empty_story :
  AudioService.process_audio fox_transcriber failing_completion quotient_wer
    (Some (AudioService.mkAudio "https://bucket.example/audio.mp3" "" None None))
  = Raise (Failed "Failed to process audio"
             (Exception "Story content not found for audio")).
Proof. reflexivity. Qed.

(** A word-error-rate function that raises on a reference without words:
    the failure comes wrapped. *)
Example process_audio_wer_raises :
  AudioService.process_audio fox_transcriber failing_completion
    (fun _ _ => Raise (ValueError "one or more references are empty strings"))
    (Some (AudioService.mkAudio "https://bucket.example/audio.mp3" "  " None None))
  = Raise (Failed "Failed to process audio"
             (ValueError "one or more references are empty strings")).
Proof. reflexivity. Qed.

(** ** Library retrieval *)

Section Retrieval.

Import RAGService.

Variable similarity_search : string -> Z -> result (list Document).

(** The filter loop only ever appends documents of the requesting owner. *)
Lemma filter_results_owned user_id child_age top_k include_books include_stories
    (results filtered_results : list Document) :
  Forall (owned_by user_id) filtered_results →
  Forall (owned_by user_id)
    (filter_results user_id child_age top_k include_books include_stories
                    results filtered_results).
Proof.
  revert filtered_results.
  induction results as [|doc results IH]; intros acc Hacc; simpl; [exact Hacc|].
  destruct (bool_decide (metadata doc !! "user_id" = Some (MStr user_id))) eqn:Eu;
    simpl; [|apply IH, Hacc].
  apply bool_decide_eq_true in Eu.
  destruct (bool_decide (metadata doc !! "child_age" = Some (MInt child_age)));
    simpl; [|apply IH, Hacc].
  assert (Forall (owned_by user_id) (acc ++ [doc])) as Hacc'.
  { apply Forall_app. split; [exact Hacc|]. apply Forall_singleton. exact Eu. }
  repeat match goal with
         | |- context [if ?b then _ else _] => destruct b; simpl
         end; auto.
Qed.

(** The loop stops as soon as [top_k] documents are kept. *)
Lemma filter_results_length user_id child_age top_k include_books include_stories
    (results filtered_results : list Document) :
  (0 < top_k)%Z →
  (Z.of_nat (length filtered_results) < top_k)%Z →
  (Z.of_nat (length (filter_results user_id child_age top_k include_books
                       include_stories results filtered_results)) <= top_k)%Z.
Proof.
  intros Hk. revert filtered_results.
  induction results as [|doc results IH]; intros acc Hacc; simpl; [lia|].
  repeat match goal with
         | |- context [if negb ?b then _ else _] => destruct b; simpl
         | |- context [if bool_decide ?P && negb ?b then _ else _] =>
             destruct (bool_decide P && negb b); simpl
         end; auto.
  destruct (top_k <=? Z.of_nat (length (acc ++ [doc])))%Z eqn:Ek.
  - rewrite length_app in *. simpl in *. lia.
  - apply IH. apply Z.leb_gt in Ek. exact Ek.
Qed.

(** C2. Whatever the vector index answers, every document that
    [retrieve_from_user_library] returns carries the requesting owner's id
    in its metadata, for every query, age, [top_k] and both type flags. *)
Theorem retrieve_from_user_library_owner
    (query user_id : string) (child_age top_k : Z)
    (include_books include_stories : bool) :
  Forall (owned_by user_id)
    (retrieve_from_user_library similarity_search query user_id child_age top_k
       include_books include_stories).1.
Proof.
  unfold retrieve_from_user_library.
  destruct (similarity_search query (top_k * 3)) as [e|results]; simpl.
  - constructor.
  - apply filter_results_owned. constructor.
Qed.

End Retrieval.

Example retrieve_sample :
  (RAGService.retrieve_from_user_library sample_index "dragons" "u1" 7 3 true true).1
  = [sample_doc "an earlier story about dragons" "u1" "story" 7;
     sample_doc "a book about dragons" "u1" "book" 7].
Proof. reflexivity. Qed.

Example retrieve_sample_books_only :
  (RAGService.retrieve_from_user_library sample_index "dragons" "u1" 7 3 true false).1
  = [sample_doc "a book about dragons" "u1" "book" 7].
Proof. reflexivity. Qed.

Section RetrievalGuard.

Import RAGService.

Variable similarity_search : string -> Z -> result (list Document).

(** With both type flags off the filter loop keeps neither books nor
    stories. *)
Lemma filter_results_flags_off user_id child_age top_k
    (results filtered_results : list Document) :
  Forall (fun doc => ¬ book_or_story doc) filtered_results →
  Forall (fun doc => ¬ book_or_story doc)
    (filter_results user_id child_age top_k false false results filtered_results).
Proof.
  revert filtered_results.
  induction results as [|doc results IH]; intros acc Hacc; simpl; [exact Hacc|].
  destruct (bool_decide (metadata doc !! "user_id" = Some (MStr user_id)));
    simpl; [|apply IH, Hacc].
  destruct (bool_decide (metadata doc !! "child_age" = Some (MInt child_age)));
    simpl; [|apply IH, Hacc].
  destruct (bool_decide (metadata doc !! "type" = Some (MStr "book"))) eqn:Eb;
    simpl; [apply IH, Hacc|].
  destruct (bool_decide (metadata doc !! "type" = Some (MStr "story"))) eqn:Es;
    simpl; [apply IH, Hacc|].
  apply bool_decide_eq_false in Eb, Es.
  assert (Forall (fun doc => ¬ book_or_story doc) (acc ++ [doc])) as Hacc'.
  { apply Forall_app. split; [exact Hacc|]. apply Forall_singleton.
    unfold book_or_story. tauto. }
  destruct (top_k <=? Z.of_nat (length (acc ++ [doc])))%Z; auto.
Qed.

(** C8, as the code has it. The guard sits in the pipeline node: with both
    context flags off [retrieve_context] makes no outside call and yields
    the empty context. [retrieve_from_user_library] has no such guard: with
    both flags off it still runs one similarity search for [3 * top_k]
    neighbours, and it returns no book and no story. *)
Theorem retrieve_context_skips_retrieval (state : StoryGraph.StoryState)
    (query user_id : string) (child_age top_k : Z) :
  StoryGraph.use_books_context state = false →
  StoryGraph.use_history_context state = false →
  StoryGraph.retrieve_context similarity_search state = ("", []) ∧
  (retrieve_from_user_library similarity_search query user_id child_age top_k
     false false).2 = [SimilaritySearch query (top_k * 3)] ∧
  Forall (fun doc => ¬ book_or_story doc)
    (retrieve_from_user_library similarity_search query user_id child_age top_k
       false false).1.
Proof.
  intros Hb Hh. split; [|split].
  - unfold StoryGraph.retrieve_context. rewrite Hb, Hh. reflexivity.
  - unfold retrieve_from_user_library.
    destruct (similarity_search query (top_k * 3)); reflexivity.
  - unfold retrieve_from_user_library.
    destruct (similarity_search query (top_k * 3)) as [e|results]; simpl.
    + constructor.
    + apply filter_results_flags_off. constructor.
Qed.

End RetrievalGuard.

Lemma retrieve_context_skips_retrieval_witness :
  StoryGraph.retrieve_context sample_index (sample_state false false) = ("", []) ∧
  (RAGService.retrieve_from_user_library sample_index "dragons" "u1" 7 3
     false false).2 = [SimilaritySearch "dragons" 9] ∧
  Forall (fun doc => ¬ RAGService.book_or_story doc)
    (RAGService.retrieve_from_user_library sample_index "dragons" "u1" 7 3
       false false).1.
Proof.
  apply (retrieve_context_skips_retrieval sample_index (sample_state false false)
           "dragons" "u1" 7 3); reflexivity.
Defined.

(** The retriever called directly with both flags off: the index is
    searched all the same. *)
Lemma retrieve_flags_off_counterexample :
  let r := RAGService.retrieve_from_user_library sample_index "dragons" "u1" 7 3
             false false in
  r.2 = [SimilaritySearch "dragons" 9] ∧ ¬ (r.2 = [] ∧ r.1 = []).
Proof. cbv zeta. split; [reflexivity|]. intros [H _]. discriminate H. Qed.

(** And a chunk of the owner that is neither book nor story comes back. *)
Example retrieve_flags_off_other_type :
  (RAGService.retrieve_from_user_library mixed_index "dragons" "u1" 7 3
     false false).1
  = [sample_doc "notes on dragons" "u1" "note" 7].
Proof. reflexivity. Qed.

(** With a context flag on, the node does search. *)
Example retrieve_context_sample :
  (StoryGraph.retrieve_context sample_index (sample_state true false)).2
  = [SimilaritySearch "Dragons A tale about friendly dragons" 9].
Proof. reflexivity. Qed.

(** ** Facts about the string primitives *)

Section StringFacts.

Import PyStr.

Lemma str_app_nil_l (s : string) : "" +:+ s = s.
Proof. reflexivity. Qed.

Lemma str_app_cons (c : ascii) (s t : string) :
  String c s +:+ t = String c (s +:+ t).
Proof. reflexivity. Qed.

Lemma str_app_assoc (s t u : string) : (s +:+ t) +:+ u = s +:+ (t +:+ u).
Proof.
  induction s as [|c s IH]; [reflexivity|].
  rewrite !str_app_cons, IH. reflexivity.
Qed.

Lemma str_app_nil_r (s : string) : s +:+ "" = s.
Proof.
  induction s as [|c s IH]; [reflexivity|]. rewrite str_app_cons, IH. reflexivity.
Qed.

Lemma length_drop_le (n : nat) (s : string) :
  String.length (drop n s) ≤ String.length s.
Proof.
  revert s. induction n as [|n IH]; intros [|c s]; simpl; try lia.
  specialize (IH s). lia.
Qed.

Lemma startswith_app (sep s : string) : startswith sep (sep +:+ s) = true.
Proof.
  induction sep as [|c sep IH]; [reflexivity|].
  rewrite str_app_cons. simpl. rewrite Ascii.eqb_refl. exact IH.
Qed.

Lemma drop_app (sep s : string) : drop (String.length sep) (sep +:+ s) = s.
Proof.
  induction sep as [|c sep IH]; [destruct s; reflexivity|].
  rewrite str_app_cons. simpl. exact IH.
Qed.

Lemma cut_unfold (sep s : string) :
  cut sep s =
  if startswith sep s then Some (EmptyString, drop (String.length sep) s)
  else match s with
       | EmptyString => None
       | String c s' =>
           match cut sep s' with
           | Some (before, after) => Some (String c before, after)
           | None => None
           end
       end.
Proof. destruct s; reflexivity. Qed.

Lemma cut_prefix (sep s : string) : cut sep (sep +:+ s) = Some ("", s).
Proof. rewrite cut_unfold, startswith_app, drop_app. reflexivity. Qed.

(** A cut leaves strictly less text to look at. *)
Lemma cut_shorter (sep s before after : string) :
  sep ≠ "" → cut sep s = Some (before, after) →
  String.length after < String.length s.
Proof.
  intros Hsep. revert before.
  induction s as [|c s IH]; intros before; rewrite cut_unfold.
  - destruct sep; [congruence|]. simpl. discriminate.
  - destruct (startswith sep (String c s)) eqn:E.
    + intros [= <- <-]. destruct sep as [|a sep]; [congruence|].
      simpl. pose proof (length_drop_le (String.length sep) s). lia.
    + destruct (cut sep s) as [[b a]|] eqn:Ec; [|discriminate].
      intros [= <- <-]. specialize (IH b eq_refl). simpl. lia.
Qed.

(** The fuel of [split] is never exhausted. *)
Lemma split_fuel_enough (sep : string) (n m : nat) (s : string) :
  sep ≠ "" → String.length s ≤ n → String.length s ≤ m →
  split_fuel n sep s = split_fuel m sep s.
Proof.
  intros Hsep. revert m s.
  induction n as [|n IH]; intros m s Hn Hm.
  - destruct s; [|simpl in Hn; lia].
    destruct m; [reflexivity|]. simpl. destruct sep; [congruence|reflexivity].
  - destruct m as [|m].
    + destruct s; [|simpl in Hm; lia].
      simpl. destruct sep; [congruence|reflexivity].
    + simpl. destruct (cut sep s) as [[b a]|] eqn:Ec; [|reflexivity].
      pose proof (cut_shorter sep s b a Hsep Ec).
      f_equal. apply IH; lia.
Qed.

Lemma split_unfold (sep s : string) :
  sep ≠ "" →
  split sep s =
  match cut sep s with
  | None => [s]
  | Some (before, after) => before :: split sep after
  end.
Proof.
  intros Hsep. unfold split.
  destruct (String.length s) as [|n] eqn:El.
  - destruct s; [|discriminate]. simpl.
    destruct sep; [congruence|reflexivity].
  - simpl. destruct (cut sep s) as [[b a]|] eqn:Ec; [|reflexivity].
    pose proof (cut_shorter sep s b a Hsep Ec).
    f_equal. apply split_fuel_enough; [exact Hsep|lia|lia].
Qed.

(** [sep in s] is false exactly when there is nothing to cut. *)
Lemma cut_None (sep s : string) : contains sep s = false ↔ cut sep s = None.
Proof.
  induction s as [|c s IH]; rewrite cut_unfold; simpl.
  - destruct (startswith sep ""); simpl; split; congruence.
  - destruct (startswith sep (String c s)); simpl; [split; congruence|].
    rewrite IH. destruct (cut sep s) as [[b a]|]; split; congruence.
Qed.

(** A character foreign to [sep] stops every match that reaches it. *)
Lemma startswith_stop (sep s : string) (c : ascii) (t : string) :
  absent c sep = true →
  startswith sep (s +:+ String c t) = startswith sep s.
Proof.
  revert s. induction sep as [|a sep IH]; intros s Habs; [reflexivity|].
  simpl in Habs. apply andb_true_iff in Habs as [Hca Habs].
  destruct s as [|b s].
  - rewrite str_app_nil_l. simpl.
    destruct (Ascii.eqb a c) eqn:E; [|reflexivity].
    apply Ascii.eqb_eq in E. subst a. rewrite Ascii.eqb_refl in Hca. discriminate.
  - rewrite str_app_cons. simpl. destruct (Ascii.eqb a b); [|reflexivity].
    apply IH, Habs.
Qed.

Lemma cut_stop (sep s : string) (c : ascii) (t : string) :
  sep ≠ "" → absent c sep = true → contains sep s = false →
  cut sep (s +:+ String c t) =
  match cut sep t with
  | Some (before, after) => Some (s +:+ String c before, after)
  | None => None
  end.
Proof.
  intros Hsep Habs. induction s as [|b s IH]; intros Hno.
  - rewrite str_app_nil_l, cut_unfold.
    replace (startswith sep (String c t)) with (startswith sep "")
      by (symmetry; apply (startswith_stop sep "" c t Habs)).
    destruct sep; [congruence|]. simpl. reflexivity.
  - simpl in Hno. apply orb_false_iff in Hno as [Hs Hno].
    rewrite str_app_cons, cut_unfold.
    replace (startswith sep (String b (s +:+ String c t)))
      with (startswith sep (String b s))
      by (rewrite <- (startswith_stop sep (String b s) c t Habs); reflexivity).
    rewrite Hs, (IH Hno).
    destruct (cut sep t) as [[b' a']|]; reflexivity.
Qed.

Lemma contains_stop (sep s : string) (c : ascii) (t : string) :
  sep ≠ "" → absent c sep = true → contains sep s = false →
  contains sep (s +:+ String c t) = contains sep t.
Proof.
  intros Hsep Habs Hno.
  destruct (contains sep t) eqn:Et.
  - destruct (contains sep (s +:+ String c t)) eqn:E; [reflexivity|].
    apply cut_None in E. rewrite (cut_stop sep s c t Hsep Habs Hno) in E.
    destruct (cut sep t) as [[b a]|] eqn:Ec; [discriminate|].
    apply cut_None in Ec. congruence.
  - apply cut_None. rewrite (cut_stop sep s c t Hsep Habs Hno).
    apply cut_None in Et. rewrite Et. reflexivity.
Qed.

End StringFacts.

Section StripFacts.

Import PyStr.












End StripFacts.

(** ** Fence stripping *)

Section FenceFacts.

Import PyStr Fences.








End FenceFacts.

(** ** Story parsing *)

Section StoryParsing.

Import StoryGraph.

Variable llm : Prompt -> string + string.
Variable json_loads : string -> option json.










End StoryParsing.

Example parse_story_fenced_sample :
  StoryGraph.parse_story sample_json_loads (fenced Fences.json_fence sample_payload)
  = Ok sample_story_json.
Proof. vm_compute. reflexivity. Qed.

Example parse_story_plain_sample :
  StoryGraph.parse_story sample_json_loads sample_payload = Ok sample_story_json.
Proof. vm_compute. reflexivity. Qed.

(** Valid JSON without a [storyContent] list, and an unreachable model:
    two different exceptions. *)
Example generate_story_content_wrong_shape :
  (StoryGraph.generate_story_content quiz_llm sample_json_loads
     (sample_state false false)).1
  = Raise (Failed "Failed to parse story JSON from GPT"
             StoryGraph.invalid_structure).
Proof. vm_compute. reflexivity. Qed.

Example generate_story_content_unreachable :
  (StoryGraph.generate_story_content unreachable_llm sample_json_loads
     (sample_state false false)).1
  = Raise (UpstreamError "connection refused").
Proof. reflexivity. Qed.


(** ** Merging answers into questions *)

Section MergeAnswers.

Import StoryService.

Lemma set_user_answer_length qs i a :
  length (set_user_answer qs i a) = length qs.
Proof.
  unfold set_user_answer. destruct (decide (i < length qs)); [|reflexivity].
  apply length_alter.
Qed.

Lemma set_user_answer_lookup qs i a j :
  set_user_answer qs i a !! j =
  if decide (i = j)
  then (fun q => mkQuestion (question q) (answer q) (Some a)) <$> qs !! j
  else qs !! j.
Proof.
  unfold set_user_answer. destruct (decide (i < length qs)) as [Hlt|Hge].
  - rewrite list_lookup_alter. destruct (decide (i = j)); subst; reflexivity.
  - destruct (decide (i = j)) as [->|]; [|reflexivity].
    rewrite (lookup_ge_None_2 qs j) by lia. reflexivity.
Qed.

(** The loop, started at position [k] of the enumeration. *)
Lemma merge_from_lookup (answers : list string) :
  ∀ (k : nat) (qs : list Question) (i : nat),
    foldl (fun qs ia => set_user_answer qs ia.1 ia.2) qs
          (imap (fun j a => (k + j, a)) answers) !! i
    = if decide (k ≤ i)
      then match answers !! (i - k) with
           | Some a => (fun q => mkQuestion (question q) (answer q) (Some a)) <$> qs !! i
           | None => qs !! i
           end
      else qs !! i.
Proof.
  induction answers as [|a answers IH]; intros k qs i.
  - simpl. destruct (decide (k ≤ i)); reflexivity.
  - rewrite imap_cons. simpl foldl.
    rewrite (imap_ext _ (fun j a => (S k + j, a))) by (intros; simpl; f_equal; lia).
    rewrite IH, set_user_answer_lookup. replace (k + 0) with k by lia.
    destruct (decide (k = i)) as [->|Hne].
    + rewrite decide_False by lia. rewrite decide_True by lia.
      replace (i - i) with 0 by lia. reflexivity.
    + destruct (decide (S k ≤ i)) as [Hle|Hle].
      * rewrite decide_True by lia.
        replace (i - k) with (S (i - S k)) by lia. reflexivity.
      * rewrite decide_False by lia. reflexivity.
Qed.

Lemma merge_answers_lookup (questions : list Question) (answers : list string)
    (i : nat) :
  merge_answers questions answers !! i =
  match answers !! i with
  | Some a => (fun q => mkQuestion (question q) (answer q) (Some a)) <$> questions !! i
  | None => questions !! i
  end.
Proof.
  unfold merge_answers.
  rewrite (imap_ext _ (fun j a => (0 + j, a))) by reflexivity.
  rewrite merge_from_lookup. rewrite decide_True by lia.
  replace (i - 0) with i by lia. reflexivity.
Qed.

Lemma merge_answers_length (questions : list Question) (answers : list string) :
  length (merge_answers questions answers) = length questions.
Proof.
  unfold merge_answers. generalize (imap pair answers). intros l.
  revert questions. induction l as [|ia l IH]; intros qs; [reflexivity|].
  simpl. rewrite IH. apply set_user_answer_length.
Qed.

Lemma questions_dict_lookup (questions : list Question) (answers : list string)
    (i : nat) (q : Question) :
  questions !! i = Some q →
  questions_dict questions answers !! i
  = Some (mkAnsweredQuestion (question q) (answer q) (expected_answer answers i q)).
Proof.
  intros Hq. unfold questions_dict, expected_answer.
  rewrite list_lookup_fmap, merge_answers_lookup, Hq.
  destruct (answers !! i); reflexivity.
Qed.

Lemma page_texts_of_dicts (pages : list PageContent) :
  mapM_result QuestionGenerator.page_text_str (map page_dict pages)
  = Ok (page_text <$> pages).
Proof.
  induction pages as [|page pages IH]; [reflexivity|].
  cbn [map mapM_result]. rewrite IH. reflexivity.
Qed.

End MergeAnswers.

(** ** Story service on the sample store *)

Example get_story_owner :
  StoryService.get_story sample_ObjectId sample_story_id 10 sample_db
  = (Ok sample_story, sample_db, []).
Proof. vm_compute. reflexivity. Qed.

Example get_story_other_user :
  StoryService.get_story sample_ObjectId sample_story_id 20 sample_db
  = (Raise (ForbiddenError "Unauthorized access to this story"), sample_db, []).
Proof. vm_compute. reflexivity. Qed.

Example create_assignment_sample :
  StoryService.create_assignment sample_ObjectId quiz_completion sample_json_loads
    sample_story_id 10 sample_db
  = (Ok (StoryService.mkAssignment 100 1 10
           [StoryService.mkQuestion "Who?" "A dragon" None]),
     StoryService.mkDb {[ 1%N := sample_story ]}
       [StoryService.mkAssignment 100 1 10
          [StoryService.mkQuestion "Who?" "A dragon" None]] 101,
     [QuestionCompletion "Dragons" "Once"]).
Proof. vm_compute. reflexivity. Qed.

(** ** Ownership and assignments *)

Section Assignments.

Import StoryService.

Variable ObjectId : string -> option oid.
Variable completion : string -> string -> string + string.
Variable json_loads : string -> option json.

(** [get_story] refuses a story of another user before anything else
    happens: nothing is written and no capability is called. *)
Lemma get_story_forbidden (db : Db) (story_id : string) (s user_id : oid)
    (story : Story) :
  ObjectId story_id = Some s →
  stories db !! s = Some story →
  created_by story ≠ user_id →
  get_story ObjectId story_id user_id db
  = (Raise (ForbiddenError "Unauthorized access to this story"), db, []).
Proof.
  intros Hid Hs Hne.
  unfold get_story. service_steps.
  rewrite Hid. simpl. rewrite Hs. simpl.
  rewrite decide_True by exact Hne. reflexivity.
Qed.

Lemma find_app_None {A} (f : A → bool) (l : list A) (x : A) :
  List.find f l = None → f x = true → List.find f (l ++ [x]) = Some x.
Proof.
  induction l as [|y l IH]; simpl; intros Hn Hx.
  - rewrite Hx. reflexivity.
  - destruct (f y); [discriminate|]. apply IH; assumption.
Qed.

(** An assignment that exists is returned as it is. *)
Lemma create_assignment_existing (db : Db) (story_id : string) (s user_id : oid)
    (existing : Assignment) :
  ObjectId story_id = Some s →
  List.find (assignment_of s user_id) (assignments db) = Some existing →
  create_assignment ObjectId completion json_loads story_id user_id db
  = (Ok existing, db, []).
Proof.
  intros Hid Hf.
  unfold create_assignment. service_steps.
  rewrite Hid. simpl. rewrite Hf. reflexivity.
Qed.

(** A call that returns has parsed the story id. *)
Lemma create_assignment_parsed (db : Db) (story_id : string) (user_id : oid)
    (a : Assignment) :
  value_of (create_assignment ObjectId completion json_loads story_id user_id db)
  = Ok a →
  ∃ s, ObjectId story_id = Some s.
Proof.
  unfold create_assignment. service_steps.
  destruct (ObjectId story_id) as [s|]; [eauto|]. simpl. discriminate.
Qed.

(** A call that returns without finding an assignment has inserted the one
    it returns, for this story and this user. *)
Lemma create_assignment_created (db : Db) (story_id : string) (s user_id : oid)
    (a : Assignment) :
  ObjectId story_id = Some s →
  List.find (assignment_of s user_id) (assignments db) = None →
  value_of (create_assignment ObjectId completion json_loads story_id user_id db)
  = Ok a →
  db_of (create_assignment ObjectId completion json_loads story_id user_id db)
  = mkDb (stories db) (assignments db ++ [a]) (N.succ (next_id db)) ∧
  sid a = s ∧ uid a = user_id.
Proof.
  intros Hid Hf.
  unfold create_assignment, value_of, db_of. service_steps.
  rewrite Hid. simpl. rewrite Hf. simpl.
  destruct (stories db !! s) as [story|]; simpl; [|discriminate].
  destruct (QuestionGenerator.generate_questions completion json_loads
              (map page_dict (story_content story)) (story_title story))
    as [[e|questions_data] calls]; simpl; [destruct e; discriminate|].
  destruct (Json.get questions_data "questions" (JArray [])) as [e|qs]; simpl;
    [destruct e; discriminate|].
  destruct (validate_questions qs) as [e|questions]; simpl;
    [destruct e; discriminate|].
  intros [= <-]. simpl. auto.
Qed.

(** C4. Once [create_assignment] has returned an assignment for a story
    and a user, calling it again for the same pair on the resulting store
    returns that very assignment (same id, same questions), makes no
    outside call at all (so no question generation), and leaves the store,
    hence the stored questions, unchanged. *)
Theorem create_assignment_idempotent (db : Db) (story_id : string)
    (user_id : oid) (a : Assignment) :
  value_of (create_assignment ObjectId completion json_loads story_id user_id db)
  = Ok a →
  let db1 :=
    db_of (create_assignment ObjectId completion json_loads story_id user_id db) in
  create_assignment ObjectId completion json_loads story_id user_id db1
  = (Ok a, db1, []).
Proof.
  intros Hfirst db1.
  destruct (create_assignment_parsed _ _ _ _ Hfirst) as [s Hid].
  destruct (List.find (assignment_of s user_id) (assignments db)) as [existing|]
    eqn:Hfind.
  - pose proof (create_assignment_existing db story_id s user_id existing Hid Hfind)
      as Hex.
    subst db1. rewrite Hex in Hfirst |- *. simpl in Hfirst.
    injection Hfirst as <-. unfold db_of. simpl. exact Hex.
  - destruct (create_assignment_created db story_id s user_id a Hid Hfind Hfirst)
      as (Hdb & Hsid & Huid).
    apply create_assignment_existing with (s := s); [exact Hid|].
    subst db1. rewrite Hdb. simpl.
    apply find_app_None; [exact Hfind|].
    unfold assignment_of. rewrite Hsid, Huid.
    rewrite !bool_decide_eq_true_2 by reflexivity. reflexivity.
Qed.

End Assignments.

Lemma create_assignment_idempotent_witness :
  let first :=
    StoryService.create_assignment sample_ObjectId quiz_completion
      sample_json_loads sample_story_id 10 sample_db in
  StoryService.create_assignment sample_ObjectId quiz_completion sample_json_loads
    sample_story_id 10 (StoryService.db_of first)
  = (Ok (StoryService.mkAssignment 100 1 10
           [StoryService.mkQuestion "Who?" "A dragon" None]),
     StoryService.db_of first, []).
Proof.
  apply (create_assignment_idempotent sample_ObjectId quiz_completion
           sample_json_loads sample_db sample_story_id 10).
  vm_compute. reflexivity.
Defined.

(** C3 on the code. [get_story] turns user 20 away from the story of user
    10 (see [get_story_forbidden]); [create_assignment] does not look at the
    creator: for the same story and the same user it generates questions
    and stores a new assignment. *)
Theorem create_assignment_ignores_owner :
  StoryService.created_by sample_story = 10%N ∧
  StoryService.get_story sample_ObjectId sample_story_id 20 sample_db
  = (Raise (ForbiddenError "Unauthorized access to this story"), sample_db, []) ∧
  StoryService.create_assignment sample_ObjectId quiz_completion sample_json_loads
    sample_story_id 20 sample_db
  = (Ok (StoryService.mkAssignment 100 1 20
           [StoryService.mkQuestion "Who?" "A dragon" None]),
     StoryService.mkDb {[ 1%N := sample_story ]}
       [StoryService.mkAssignment 100 1 20
          [StoryService.mkQuestion "Who?" "A dragon" None]] 101,
     [QuestionCompletion "Dragons" "Once"]).
Proof. repeat split; vm_compute; reflexivity. Qed.

(** ** Grading of the answers *)

Section GradingRequest.

Import StoryService.

Variable ObjectId : string -> option oid.
Variable json_loads : string -> option json.
Variable feedback_completion : list json -> string -> string + string.
Variable validate_int : json -> option Z.

Lemma question_fields_of_dicts (graded : list AnsweredQuestion) :
  mapM_result FeedbackGenerator.question_fields (answered_dict <$> graded)
  = Ok ((fun q => (JString (aq_question q), JString (aq_answer q),
                   JString (aq_userAnswer q))) <$> graded).
Proof.
  induction graded as [|q graded IH]; [reflexivity|].
  cbn [fmap list_fmap mapM_result]. cbn [fmap] in IH. rewrite IH.
  reflexivity.
Qed.

(** A loop that raises does so in its body. *)
Lemma mapM_result_raises {A B} (f : A → result B) (l : list A) (e : exn) :
  mapM_result f l = Raise e → ∃ a, f a = Raise e.
Proof.
  induction l as [|a l IH]; [discriminate|].
  cbn [mapM_result]. destruct (f a) as [e'|b] eqn:Hfa.
  - intros [= <-]. eauto.
  - cbn [bind]. destruct (mapM_result f l) as [e'|bs]; [|discriminate].
    intros [= <-]. apply IH. reflexivity.
Qed.

Lemma validate_feedback_item_raises (item : TransformedFeedback) (e : exn) :
  validate_feedback_item validate_int item = Raise e → e = ValidationError.
Proof.
  unfold validate_feedback_item, validate_str, validate_optional_str.
  destruct item as [q a u r f p].
  cbn [t_question t_answer t_user_answer t_rating t_feedback
       t_positive_reinforcement].
  destruct q; try (intros [= <-]; reflexivity).
  destruct a; try (intros [= <-]; reflexivity).
  destruct u; try (intros [= <-]; reflexivity).
  cbn [bind]. destruct (validate_int r); try (intros [= <-]; reflexivity).
  destruct f; try (intros [= <-]; reflexivity).
  destruct p; try (intros [= <-]; reflexivity); discriminate.
Qed.

(** The grading makes one completion request, and every failure of it
    comes wrapped. *)
Lemma generate_feedback_calls (graded : list AnsweredQuestion)
    (pages : list PageContent) :
  ∃ r,
    FeedbackGenerator.generate_feedback feedback_completion json_loads
      (answered_dict <$> graded) (map page_dict pages)
    = (r, [FeedbackCompletion (answered_dict <$> graded)
             (PyStr.join " " (page_text <$> pages))]) ∧
    ∀ e, r = Raise e → ∃ cause, e = Failed "Failed to generate feedback" cause.
Proof.
  unfold FeedbackGenerator.generate_feedback,
    FeedbackGenerator.generate_feedback_body.
  rewrite page_texts_of_dicts, question_fields_of_dicts.
  destruct (feedback_completion _ _) as [message|data].
  - eexists. split; [reflexivity|]. intros e [= <-]. eauto.
  - destruct (bind _ _) as [e'|feedback].
    + eexists. split; [reflexivity|]. intros e [= <-]. eauto.
    + eexists. split; [reflexivity|]. intros e [=].
Qed.

(** With an assignment and its story in the store, the service reaches the
    grading call whatever the number of answers, and hands it the merged
    entries; a failure after that point is the wrapped failure of a later
    step. *)
Lemma graded_feedbacks_cases (db : Db) (story_id : string) (s user_id : oid)
    (assignment : Assignment) (story : Story) (answers : list string) :
  ObjectId story_id = Some s →
  List.find (assignment_of s user_id) (assignments db) = Some assignment →
  stories db !! s = Some story →
  ∃ r,
    graded_feedbacks ObjectId json_loads feedback_completion validate_int
      story_id user_id answers db
    = (r, db,
       [FeedbackCompletion
          (answered_dict <$> questions_dict (questions assignment) answers)
          (PyStr.join " " (page_text <$> story_content story))]) ∧
    match r with
    | inr (s', _) => s' = s
    | inl e => ∃ cause, e = Failed "Failed to generate feedback" cause
    end.
Proof.
  intros Hid Hf Hs.
  destruct (generate_feedback_calls
              (questions_dict (questions assignment) answers)
              (story_content story)) as (r & Hr & Hwrapped).
  unfold graded_feedbacks. service_steps.
  rewrite Hid. cbn [bind fst snd app]. rewrite Hf. cbn [bind fst snd app].
  rewrite Hs. rewrite Hr. cbn [fst snd app].
  destruct r as [e|feedback_data].
  { destruct (Hwrapped e eq_refl) as [cause ->].
    eexists. split; [reflexivity|]. cbv beta iota. eauto. }
  destruct (Json.get feedback_data "results" (JArray [])) as [e|results] eqn:Hget.
  { destruct feedback_data; try discriminate Hget; injection Hget as <-;
      eexists; (split; [reflexivity|]); cbv beta iota; eauto. }
  destruct (iterate results) as [e|items] eqn:Hit.
  { destruct results; try discriminate Hit; injection Hit as <-;
      eexists; (split; [reflexivity|]); cbv beta iota; eauto. }
  destruct (mapM_result transform_feedback items) as [e|transformed] eqn:Htr.
  { apply mapM_result_raises in Htr as (item & Hitem).
    destruct item; try discriminate Hitem; injection Hitem as <-;
      eexists; (split; [reflexivity|]); cbv beta iota; eauto. }
  destruct (mapM_result _ transformed) as [e|feedbacks] eqn:Hval.
  { apply mapM_result_raises in Hval as (item & Hitem).
    apply validate_feedback_item_raises in Hitem as ->.
    eexists. split; [reflexivity|]. cbv beta iota. eauto. }
  eexists. split; [reflexivity|]. reflexivity.
Qed.

(** The answers matter through the merged entries only. *)
Lemma graded_feedbacks_merged (db : Db) (story_id : string) (s user_id : oid)
    (assignment : Assignment) (story : Story) (answers answers' : list string) :
  ObjectId story_id = Some s →
  List.find (assignment_of s user_id) (assignments db) = Some assignment →
  stories db !! s = Some story →
  questions_dict (questions assignment) answers
  = questions_dict (questions assignment) answers' →
  graded_feedbacks ObjectId json_loads feedback_completion validate_int
    story_id user_id answers db
  = graded_feedbacks ObjectId json_loads feedback_completion validate_int
      story_id user_id answers' db.
Proof.
  intros Hid Hf Hs Heq.
  unfold graded_feedbacks. service_steps.
  rewrite Hid. cbn [bind fst snd app]. rewrite Hf. cbn [bind fst snd app].
  rewrite Hs, Heq. reflexivity.
Qed.

(** Submitting the merged answers, one per question, merges to the same
    entries. *)
Lemma questions_dict_merged (questions : list Question) (answers : list string) :
  questions_dict questions (aq_userAnswer <$> questions_dict questions answers)
  = questions_dict questions answers.
Proof.
  apply list_eq. intros i.
  destruct (questions !! i) as [q|] eqn:Hq.
  - rewrite !(questions_dict_lookup _ _ i q Hq). do 2 f_equal.
    unfold expected_answer at 1.
    rewrite list_lookup_fmap, (questions_dict_lookup _ _ i q Hq).
    reflexivity.
  - apply lookup_ge_None_1 in Hq.
    rewrite !lookup_ge_None_2; [reflexivity| |];
      unfold questions_dict; rewrite length_fmap, merge_answers_length; lia.
Qed.

(** C10, as the code has it. For an assignment and its story in the store
    and any list of answers, of any length, [generate_feedback_for_assignment] merges the
    answers into the questions by position: there is one entry per stored
    question, in order, and entry [i] carries question [i] with answer [i]
    when there is an answer [i], and with the stored user answer (empty
    only when none is stored) otherwise; answers beyond the last question
    appear nowhere. The grading capability is called once, with exactly
    these entries and the reading text of the story. A mismatch between
    the numbers of answers and questions raises nothing of its own: the
    whole call, its result, its effect on the store and its requests, is
    the call for the submission that spells out one answer per question;
    when it fails, the failure is the wrapped failure of the grading or of
    the validation of its results and the store is as before; when it
    returns, the feedback document of this story and user has joined the
    feedback collection, and the stored assignments are as before. *)
Theorem generate_feedback_merges_positionally (c : Collections)
    (story_id : string) (s user_id : oid) (assignment : Assignment)
    (story : Story) (answers : list string) :
  ObjectId story_id = Some s →
  List.find (assignment_of s user_id) (assignments (documents c))
  = Some assignment →
  stories (documents c) !! s = Some story →
  length (questions_dict (questions assignment) answers)
  = length (questions assignment) ∧
  (∀ i q, questions assignment !! i = Some q →
          questions_dict (questions assignment) answers !! i
          = Some (mkAnsweredQuestion (question q) (answer q)
                    (expected_answer answers i q))) ∧
  ∃ outcome c',
    generate_feedback_for_assignment ObjectId json_loads feedback_completion
      validate_int story_id user_id answers c
    = (outcome, c',
       [FeedbackCompletion
          (answered_dict <$> questions_dict (questions assignment) answers)
          (PyStr.join " " (page_text <$> story_content story))]) ∧
    generate_feedback_for_assignment ObjectId json_loads feedback_completion
      validate_int story_id user_id
      (aq_userAnswer <$> questions_dict (questions assignment) answers) c
    = (outcome, c',
       [FeedbackCompletion
          (answered_dict <$> questions_dict (questions assignment) answers)
          (PyStr.join " " (page_text <$> story_content story))]) ∧
    match outcome with
    | inr feedback =>
        feedback_sid feedback = s ∧ feedback_uid feedback = user_id ∧
        feedback_id feedback = next_id (documents c) ∧
        c' = mkCollections
               (mkDb (stories (documents c)) (assignments (documents c))
                     (N.succ (next_id (documents c))))
               (feedback_documents c ++ [feedback])
    | inl e =>
        (∃ cause, e = Failed "Failed to generate feedback" cause) ∧ c' = c
    end.
Proof.
  intros Hid Hf Hs.
  split.
  { unfold questions_dict. rewrite length_fmap. apply merge_answers_length. }
  split.
  { intros i q Hq. apply questions_dict_lookup, Hq. }
  destruct (graded_feedbacks_cases (documents c) story_id s user_id assignment
              story answers Hid Hf Hs) as (r & Hr & Hshape).
  assert (generate_feedback_for_assignment ObjectId json_loads
            feedback_completion validate_int story_id user_id
            (aq_userAnswer <$> questions_dict (questions assignment) answers) c
          = generate_feedback_for_assignment ObjectId json_loads
              feedback_completion validate_int story_id user_id answers c)
    as Hsame.
  { unfold generate_feedback_for_assignment.
    rewrite (graded_feedbacks_merged (documents c) story_id s user_id assignment
               story _ answers Hid Hf Hs (questions_dict_merged _ _)).
    reflexivity. }
  rewrite Hsame.
  unfold generate_feedback_for_assignment. rewrite Hr.
  destruct r as [e|[s' items]].
  - eexists _, _. split; [reflexivity|]. split; [reflexivity|].
    split; [exact Hshape|]. destruct c; reflexivity.
  - subst s'. eexists _, _. split; [reflexivity|]. split; [reflexivity|].
    cbn [feedback_sid feedback_uid feedback_id]. auto.
Qed.

End GradingRequest.

(** The submission of the example: one answer more than there are
    questions. *)
Lemma generate_feedback_merges_positionally_witness :
  length (StoryService.questions_dict sample_questions
            ["She"; "There"; "surplus"])
  = length sample_questions ∧
  (∀ i q, sample_questions !! i = Some q →
          StoryService.questions_dict sample_questions
            ["She"; "There"; "surplus"] !! i
          = Some (StoryService.mkAnsweredQuestion (StoryService.question q)
                    (StoryService.answer q)
                    (expected_answer ["She"; "There"; "surplus"] i q))) ∧
  ∃ outcome c',
    StoryService.generate_feedback_for_assignment sample_ObjectId
      grading_json_loads grading_completion integral_rating
      sample_story_id 10 ["She"; "There"; "surplus"]
      (StoryService.mkCollections sample_db_with_assignment [])
    = (outcome, c',
       [FeedbackCompletion
          (StoryService.answered_dict
             <$> StoryService.questions_dict sample_questions
                   ["She"; "There"; "surplus"])
          (PyStr.join " " (StoryService.page_text
                             <$> StoryService.story_content sample_story))]) ∧
    StoryService.generate_feedback_for_assignment sample_ObjectId
      grading_json_loads grading_completion integral_rating
      sample_story_id 10
      (StoryService.aq_userAnswer
         <$> StoryService.questions_dict sample_questions
               ["She"; "There"; "surplus"])
      (StoryService.mkCollections sample_db_with_assignment [])
    = (outcome, c',
       [FeedbackCompletion
          (StoryService.answered_dict
             <$> StoryService.questions_dict sample_questions
                   ["She"; "There"; "surplus"])
          (PyStr.join " " (StoryService.page_text
                             <$> StoryService.story_content sample_story))]) ∧
    match outcome with
    | inr feedback =>
        StoryService.feedback_sid feedback = 1%N ∧
        StoryService.feedback_uid feedback = 10%N ∧
        StoryService.feedback_id feedback
        = StoryService.next_id sample_db_with_assignment ∧
        c' = StoryService.mkCollections
               (StoryService.mkDb
                  (StoryService.stories sample_db_with_assignment)
                  (StoryService.assignments sample_db_with_assignment)
                  (N.succ (StoryService.next_id sample_db_with_assignment)))
               ([] ++ [feedback])
    | inl e =>
        (∃ cause, e = Failed "Failed to generate feedback" cause) ∧
        c' = StoryService.mkCollections sample_db_with_assignment []
    end.
Proof.
  apply (generate_feedback_merges_positionally sample_ObjectId
           grading_json_loads grading_completion integral_rating
           (StoryService.mkCollections sample_db_with_assignment [])
           sample_story_id 1 10
           (StoryService.mkAssignment 100 1 10 sample_questions) sample_story);
    reflexivity.
Defined.

(** On the sample store the submission is graded and the feedback stored. *)
Example generate_feedback_sample :
  StoryService.generate_feedback_for_assignment sample_ObjectId
    grading_json_loads grading_completion integral_rating
    sample_story_id 10 ["She"; "There"; "surplus"]
    (StoryService.mkCollections sample_db_with_assignment [])
  = (Ok sample_feedback,
     StoryService.mkCollections
       (StoryService.mkDb {[ 1%N := sample_story ]}
          [StoryService.mkAssignment 100 1 10 sample_questions] 102)
       [sample_feedback],
     [FeedbackCompletion
        [StoryService.answered_dict
           (StoryService.mkAnsweredQuestion "Who?" "A dragon" "She");
         StoryService.answered_dict
           (StoryService.mkAnsweredQuestion "Where?" "In a cave" "There")]
        "Once"]).
Proof. vm_compute. reflexivity. Qed.

(** A question stored with the user answer [kept] and a submission
    without answers: the entry handed to the grading capability carries the
    stored answer, not an empty one. *)
Theorem generate_feedback_keeps_stored_answer :
  StoryService.questions_dict
    [StoryService.mkQuestion "Who?" "A dragon" (Some "kept")] []
  = [StoryService.mkAnsweredQuestion "Who?" "A dragon" "kept"] ∧
  (StoryService.generate_feedback_for_assignment sample_ObjectId
     grading_json_loads grading_completion integral_rating
     sample_story_id 10 []
     (StoryService.mkCollections kept_answer_db [])).2
  = [FeedbackCompletion
       [StoryService.answered_dict
          (StoryService.mkAnsweredQuestion "Who?" "A dragon" "kept")]
       "Once"] ∧
  StoryService.aq_userAnswer
    (StoryService.mkAnsweredQuestion "Who?" "A dragon" "kept") ≠ "".
Proof.
  split; [reflexivity|]. split; [vm_compute; reflexivity|]. discriminate.
Qed.

Example questions_dict_surplus :
  StoryService.questions_dict sample_questions ["She"; "There"; "surplus"]
  = [StoryService.mkAnsweredQuestion "Who?" "A dragon" "She";
     StoryService.mkAnsweredQuestion "Where?" "In a cave" "There"].
Proof. reflexivity. Qed.

Example questions_dict_missing :
  StoryService.questions_dict sample_questions ["She"]
  = [StoryService.mkAnsweredQuestion "Who?" "A dragon" "She";
     StoryService.mkAnsweredQuestion "Where?" "In a cave" ""].
Proof. reflexivity. Qed.

(** ** Story creation *)

Section ImageTasks.

Import StoryService.

Lemma selected_mod (i : nat) :
  (i mod 3 =? 0) || (i mod 3 =? 2) = bool_decide (i mod 3 ≠ 1).
Proof.
  pose proof (Nat.mod_upper_bound i 3 ltac:(lia)) as Hlt.
  destruct (i mod 3) as [|[|[|n]]]; try reflexivity. lia.
Qed.

Lemma image_tasks_from_dict (i : nat) (fields : gmap string json)
    (rest : list json) :
  image_tasks_from i (JObject fields :: rest) =
  try! tasks := image_tasks_from (S i) rest in
  Ok (if (i mod 3 =? 0) || (i mod 3 =? 2)
      then (i, match fields !! "pageText" with
               | Some v => v
               | None => JString ""
               end) :: tasks
      else tasks).
Proof. reflexivity. Qed.

(** On pages that are all dicts the first loop selects the positions with
    [i mod 3 != 1], in order. *)
Lemma image_tasks_from_selected (pages : list json) :
  forallb is_dict pages = true →
  ∀ i, ∃ tasks,
    image_tasks_from i pages = Ok tasks ∧
    tasks.*1 = filter (fun i => i mod 3 ≠ 1) (seq i (length pages)).
Proof.
  induction pages as [|page pages IH]; intros Hd i; [exists []; split; reflexivity|].
  simpl in Hd. apply andb_true_iff in Hd as [Hp Hd].
  destruct (IH Hd (S i)) as (tasks & Ht & Hsel).
  destruct page as [| | | | |fields]; try discriminate.
  rewrite image_tasks_from_dict, Ht. cbn [bind]. rewrite selected_mod.
  cbn [length seq]. rewrite filter_cons. destruct (decide (i mod 3 ≠ 1)) as [Hi|Hi].
  - rewrite bool_decide_eq_true_2 by exact Hi.
    eexists. split; [reflexivity|]. rewrite fmap_cons, Hsel. reflexivity.
  - rewrite bool_decide_eq_false_2 by exact Hi.
    eexists. split; [reflexivity|]. exact Hsel.
Qed.

(** A page that is not a dict stops the loop with an exception. *)
Lemma image_tasks_from_not_dict (pages : list json) :
  forallb is_dict pages = false →
  ∀ i, image_tasks_from i pages = Raise AttributeError.
Proof.
  induction pages as [|page pages IH]; intros Hd i; [discriminate|].
  simpl in Hd. apply andb_false_iff in Hd.
  destruct page as [| | | | |fields]; try reflexivity.
  destruct Hd as [Hd|Hd]; [discriminate|].
  rewrite image_tasks_from_dict, (IH Hd). reflexivity.
Qed.

Lemma image_requests_app (a b : list call) :
  image_requests (a ++ b) = image_requests a ++ image_requests b.
Proof. apply omap_app. Qed.

Lemma image_requests_tasks (tasks : list (nat * json)) :
  image_requests (map (fun task => ImageGeneration task.1 task.2) tasks) = tasks.*1.
Proof.
  induction tasks as [|task tasks IH]; [reflexivity|].
  simpl. f_equal. exact IH.
Qed.

End ImageTasks.

Section CreateStory.

Import StoryService.

Variable similarity_search : string -> Z -> result (list RAGService.Document).
Variable llm : StoryGraph.Prompt -> string + string.
Variable json_loads : string -> option json.
Variable generate_image : json -> Z -> string -> option string.
Variable mirror_image : string -> option string.
Variable oid_str : oid -> string.

(** The generation graph issues no illustration request. *)
Lemma generated_story_of_no_image (story_data : CreateStoryRequest) (user_id : oid) :
  image_requests
    (generated_story_of similarity_search llm json_loads oid_str story_data user_id).2
  = [].
Proof.
  unfold generated_story_of, StoryGraph.run_story_generation,
    StoryGraph.retrieve_context, StoryGraph.generate_story_content,
    RAGService.retrieve_from_user_library.
  cbn [StoryGraph.use_books_context StoryGraph.use_history_context].
  destruct (negb (req_use_books_context story_data
                  || req_use_history_context story_data));
    [destruct (llm _); reflexivity|].
  destruct (similarity_search _ _) as [e|results].
  - destruct (llm _); reflexivity.
  - destruct (RAGService.filter_results _ _ _ _ _ results []);
      destruct (llm _); reflexivity.
Qed.

(** [create_story], step by step. *)
Lemma create_story_unfold (story_data : CreateStoryRequest) (user_id : oid)
    (author_name : string) (db : Db) :
  create_story similarity_search llm json_loads generate_image mirror_image
    oid_str story_data user_id author_name db
  = let calls0 :=
      (generated_story_of similarity_search llm json_loads oid_str
         story_data user_id).2 in
    let failed e := Raise (Failed "Failed to create story" e) in
    match (generated_story_of similarity_search llm json_loads oid_str
             story_data user_id).1 with
    | inl e => (failed e, db, calls0)
    | inr generated_story =>
        match generated_pages generated_story with
        | inl e => (failed e, db, calls0)
        | inr pages =>
            match image_tasks (req_include_image story_data) pages with
            | inl e => (failed e, db, calls0)
            | inr tasks =>
                let calls1 :=
                  calls0 ++ map (fun task => ImageGeneration task.1 task.2) tasks in
                let image_results :=
                  foldl (keep_image generate_image (req_child_age story_data)
                           (req_story_title story_data)) ∅ tasks in
                match build_pages mirror_image image_results 0 pages with
                | inl e => (failed e, db, calls1)
                | inr story_contents =>
                    let story :=
                      mkStory (next_id db) (req_story_title story_data)
                        (req_story_description story_data) story_contents
                        author_name user_id (req_max_pages story_data) in
                    (Ok story,
                     mkDb (<[next_id db := story]> (stories db)) (assignments db)
                          (N.succ (next_id db)),
                     calls1 ++ [AddDocuments (req_story_title story_data)])
                end
            end
        end
    end.
Proof.
  unfold create_story, generated_pages. service_steps.
  destruct (generated_story_of _ _ _ _ _ _) as [[e|generated_story] calls0];
    cbn [fst snd]; [reflexivity|].
  destruct (Json.get generated_story "storyContent" (JArray [])) as [e|page_texts];
    cbn [bind]; [rewrite List.app_nil_r; reflexivity|].
  destruct (as_list page_texts) as [e|pages];
    [rewrite !List.app_nil_r; reflexivity|].
  destruct (image_tasks (req_include_image story_data) pages) as [e|tasks];
    [rewrite !List.app_nil_r; reflexivity|].
  simpl.
  destruct (build_pages mirror_image _ 0 pages) as [e|story_contents];
    simpl; rewrite ?List.app_nil_l, ?List.app_nil_r, <- ?List.app_assoc; reflexivity.
Qed.

(** The second loop stores one page per generated page, in order. *)
Lemma build_pages_stored (image_results : gmap nat string) (pages : list json) :
  ∀ (i : nat) (story_contents : list PageContent),
    build_pages mirror_image image_results i pages = Ok story_contents →
    Forall2 page_stored pages story_contents.
Proof.
  induction pages as [|page pages IH]; intros i story_contents.
  - intros [= <-]. constructor.
  - simpl. destruct (Json.get page "pageText" (JString "")) as [e|text] eqn:Eg;
      simpl; [discriminate|].
    destruct text as [| | |s| |]; simpl; try discriminate.
    destruct (build_pages mirror_image image_results (S i) pages) as [e|rest] eqn:Eb;
      simpl; [discriminate|].
    intros [= <-]. constructor; [exact Eg|]. apply (IH (S i)), Eb.
Qed.

(** What [parse_story] returns has passed the structure check. *)
Lemma parse_story_returns (content_str : string) (story_json : json) :
  StoryGraph.parse_story json_loads content_str = Ok story_json →
  has_story_content story_json.
Proof.
  unfold StoryGraph.parse_story.
  destruct (Fences.clean content_str) as [e|cleaned]; simpl;
    [destruct e; discriminate|].
  destruct (json_loads cleaned) as [j|]; [|discriminate].
  destruct j as [| | | s|items|fields]; simpl; try discriminate.
  - destruct (PyStr.contains "storyContent" s); discriminate.
  - destruct (existsb StoryGraph.is_storyContent items); discriminate.
  - destruct (fields !! "storyContent") as [[]|] eqn:E; try discriminate.
    intros [= <-]. eexists _, _. split; [reflexivity|exact E].
Qed.

Lemma generated_story_of_valid (story_data : CreateStoryRequest) (user_id : oid)
    (generated_story : json) :
  (generated_story_of similarity_search llm json_loads oid_str story_data user_id).1
  = Ok generated_story →
  has_story_content generated_story.
Proof.
  unfold generated_story_of, StoryGraph.run_story_generation,
    StoryGraph.generate_story_content.
  destruct (StoryGraph.retrieve_context _ _) as [library_context calls1].
  destruct (llm _) as [message|content]; simpl; [discriminate|].
  apply parse_story_returns.
Qed.

(** C9. When the request asks for images, [create_story] issues one
    illustration request for each position [i] of the generated pages with
    [i mod 3 != 1], in order, and for no other page (should a generated page
    not be a dict, creation fails and no request is issued at all). When the
    request does not ask for images it issues none. *)
Theorem create_story_image_requests (story_data : CreateStoryRequest)
    (user_id : oid) (author_name : string) (db : Db) :
  let outcome :=
    create_story similarity_search llm json_loads generate_image
      mirror_image oid_str story_data user_id author_name db in
  (req_include_image story_data = false →
   image_requests (calls_of outcome) = []) ∧
  (req_include_image story_data = true →
   ∀ generated_story pages,
     (generated_story_of similarity_search llm json_loads oid_str
        story_data user_id).1 = Ok generated_story →
     generated_pages generated_story = Ok pages →
     if forallb is_dict pages
     then image_requests (calls_of outcome) = selected_positions (length pages)
     else image_requests (calls_of outcome) = [] ∧
          value_of outcome = Raise (Failed "Failed to create story" AttributeError)).
Proof.
  intros outcome. subst outcome. rewrite create_story_unfold.
  pose proof (generated_story_of_no_image story_data user_id) as Hgen.
  split.
  - intros Hoff. rewrite Hoff. unfold calls_of. cbn zeta.
    destruct (generated_story_of _ _ _ _ _ _).1 as [e|generated_story];
      [exact Hgen|].
    destruct (generated_pages generated_story) as [e|pages]; [exact Hgen|].
    cbn [image_tasks map].
    destruct (build_pages _ _ 0 pages); cbn [snd];
      rewrite ?image_requests_app, Hgen; reflexivity.
  - intros Hon generated_story pages Hg Hp.
    rewrite Hon, Hg, Hp. unfold calls_of, value_of. cbn zeta. cbn [image_tasks].
    destruct (forallb is_dict pages) eqn:Hd.
    + destruct (image_tasks_from_selected pages Hd 0) as (tasks & Ht & Hsel).
      rewrite Ht.
      destruct (build_pages _ _ 0 pages); cbn [snd];
        rewrite ?image_requests_app, Hgen, image_requests_tasks, Hsel;
        cbn [image_requests omap image_request]; rewrite ?List.app_nil_r;
        reflexivity.
    + rewrite (image_tasks_from_not_dict pages Hd 0). cbn [fst snd].
      split; [exact Hgen|reflexivity].
Qed.

(** C5, as the code has it. A story that [create_story] returns has one
    stored page per entry of the generated [storyContent] list, in the same
    order and with that entry's text; it is stored under its id with the
    requested [max_pages]. Nothing compares the two numbers: the story has
    at most [max_pages] pages exactly when the capability returned at most
    that many. *)
Theorem create_story_pages (story_data : CreateStoryRequest) (user_id : oid)
    (author_name : string) (db : Db) (story : Story) :
  value_of (create_story similarity_search llm json_loads generate_image
              mirror_image oid_str story_data user_id author_name db)
  = Ok story →
  ∃ generated_story pages,
    (generated_story_of similarity_search llm json_loads oid_str
       story_data user_id).1 = Ok generated_story ∧
    has_story_content generated_story ∧
    generated_pages generated_story = Ok pages ∧
    Forall2 page_stored pages (story_content story) ∧
    length (story_content story) = length pages ∧
    max_pages story = req_max_pages story_data ∧
    ((Z.of_nat (length (story_content story)) <= max_pages story)%Z ↔
     (Z.of_nat (length pages) <= req_max_pages story_data)%Z) ∧
    stories (db_of (create_story similarity_search llm json_loads generate_image
                      mirror_image oid_str story_data user_id author_name db))
      !! story_id story = Some story.
Proof.
  rewrite create_story_unfold. unfold value_of, db_of. cbn zeta.
  destruct (generated_story_of _ _ _ _ _ _).1 as [e|generated_story] eqn:Hg;
    [discriminate|].
  destruct (generated_pages generated_story) as [e|pages] eqn:Hp; [discriminate|].
  destruct (image_tasks (req_include_image story_data) pages) as [e|tasks];
    [discriminate|].
  destruct (build_pages _ _ 0 pages) as [e|story_contents] eqn:Hb; [discriminate|].
  cbn [fst snd]. intros [= <-]. cbn [story_content max_pages story_id stories].
  pose proof (build_pages_stored _ _ _ _ Hb) as Hstored.
  pose proof (Forall2_length _ _ _ Hstored) as Hlen.
  exists generated_story, pages.
  split; [reflexivity|].
  split; [apply (generated_story_of_valid story_data user_id), Hg|].
  split; [exact Hp|].
  split; [exact Hstored|].
  split; [symmetry; exact Hlen|].
  split; [reflexivity|].
  split; [rewrite Hlen; reflexivity|].
  apply lookup_insert_eq.
Qed.

End CreateStory.

Example create_story_four_pages_images :
  image_requests
    (StoryService.calls_of
       (StoryService.create_story sample_index four_pages_llm sample_json_loads
          sample_generate_image sample_mirror_image sample_oid_str
          (sample_request true) 10 "Ann" sample_db))
  = [0; 2; 3].
Proof. vm_compute. reflexivity. Qed.

Lemma create_story_image_requests_witness :
  image_requests
    (StoryService.calls_of
       (StoryService.create_story sample_index four_pages_llm sample_json_loads
          sample_generate_image sample_mirror_image sample_oid_str
          (sample_request true) 10 "Ann" sample_db))
  = selected_positions 4 ∧
  image_requests
    (StoryService.calls_of
       (StoryService.create_story sample_index four_pages_llm sample_json_loads
          sample_generate_image sample_mirror_image sample_oid_str
          (sample_request false) 10 "Ann" sample_db))
  = [].
Proof.
  split.
  - apply (proj2 (create_story_image_requests sample_index four_pages_llm
                    sample_json_loads sample_generate_image sample_mirror_image
                    sample_oid_str (sample_request true) 10 "Ann" sample_db)
             eq_refl four_pages_json
             [page_json "One"; page_json "Two"; page_json "Three"; page_json "Four"]
             eq_refl eq_refl).
  - apply (proj1 (create_story_image_requests sample_index four_pages_llm
                    sample_json_loads sample_generate_image sample_mirror_image
                    sample_oid_str (sample_request false) 10 "Ann" sample_db)).
    reflexivity.
Defined.

(** The capability returns four pages for a request of at most three: the
    story is stored with four. *)
Lemma create_story_exceeds_max_pages :
  ∃ story,
    StoryService.create_story sample_index four_pages_llm sample_json_loads
      sample_generate_image sample_mirror_image sample_oid_str
      (sample_request false) 10 "Ann" sample_db
    = (Ok story,
       StoryService.mkDb (<[100%N := story]> {[ 1%N := sample_story ]}) [] 101,
       [StoryCompletion "Dragons"; AddDocuments "Dragons"]) ∧
    StoryService.max_pages story = 3%Z ∧
    length (StoryService.story_content story) = 4 ∧
    ¬ (Z.of_nat (length (StoryService.story_content story))
       <= StoryService.max_pages story)%Z.
Proof.
  eexists. split; [vm_compute; reflexivity|].
  split; [reflexivity|]. split; [reflexivity|]. simpl. lia.
Qed.

Lemma create_story_pages_witness :
  ∃ story generated_story pages,
    StoryService.value_of
      (StoryService.create_story sample_index four_pages_llm sample_json_loads
         sample_generate_image sample_mirror_image sample_oid_str
         (sample_request false) 10 "Ann" sample_db) = Ok story ∧
    has_story_content generated_story ∧
    generated_pages generated_story = Ok pages ∧
    Forall2 page_stored pages (StoryService.story_content story) ∧
    length (StoryService.story_content story) = length pages.
Proof.
  eexists.
  destruct (create_story_pages sample_index four_pages_llm sample_json_loads
              sample_generate_image sample_mirror_image sample_oid_str
              (sample_request false) 10 "Ann" sample_db _ eq_refl)
    as (generated_story & pages & _ & Hvalid & Hpages & Hstored & Hlen & _).
  exists generated_story, pages. split; [reflexivity|].
  split; [exact Hvalid|]. split; [exact Hpages|]. split; [exact Hstored|exact Hlen].
Defined.

(** ** Question generation *)

Section CleanTotal.

Import PyStr Fences.

Lemma split_nonempty (sep s : string) :
  sep ≠ "" → ∃ first rest, split sep s = first :: rest.
Proof.
  intros Hsep. rewrite (split_unfold sep s Hsep).
  destruct (cut sep s) as [[b a]|]; eauto.
Qed.

Lemma between_returns (opening text : string) :
  opening ≠ "" → contains opening text = true →
  ∃ body, between opening text = Ok body.
Proof.
  intros Hop Hin. unfold between.
  rewrite (split_unfold opening text Hop).
  destruct (cut opening text) as [[b a]|] eqn:Ec.
  - destruct (split_nonempty opening a Hop) as (inner & rest & ->).
    destruct (split_nonempty fence inner ltac:(discriminate)) as (body & rest' & E).
    unfold part, index. simpl. rewrite E. simpl. eauto.
  - apply cut_None in Ec. congruence.
Qed.

(** Fence stripping never raises. *)
Lemma clean_returns (content_str : string) :
  ∃ cleaned, clean content_str = Ok cleaned.
Proof.
  unfold clean.
  destruct (contains json_fence content_str) eqn:Ej;
    [apply between_returns; [discriminate|exact Ej]|].
  destruct (contains fence content_str) eqn:Ef;
    [apply between_returns; [discriminate|exact Ef]|].
  eauto.
Qed.

End CleanTotal.

Section Questions.

Import StoryService.

Variable ObjectId : string -> option oid.
Variable completion : string -> string -> string + string.
Variable json_loads : string -> option json.

Lemma validate_question_stored (item : json) (q : Question) :
  validate_question item = Ok q → question_stored item q.
Proof.
  destruct item as [| | | | |fields]; try discriminate. simpl.
  destruct (fields !! "question") as [[| | |qs| |]|] eqn:Eq; try discriminate.
  destruct (fields !! "answer") as [[| | |an| |]|] eqn:Ea; try discriminate.
  destruct (fields !! "user_answer") as [[| | |u| |]|] eqn:Eu; try discriminate;
    intros [= <-]; exists fields; simpl; rewrite Eu; auto.
Qed.

Lemma validate_question_raises (item : json) (e : exn) :
  validate_question item = Raise e → e = ValidationError.
Proof.
  destruct item as [| | | | |fields]; simpl; try (intros [= <-]; reflexivity).
  destruct (fields !! "question") as [[| | |qs| |]|];
    try (intros [= <-]; reflexivity).
  destruct (fields !! "answer") as [[| | |an| |]|];
    try (intros [= <-]; reflexivity).
  destruct (fields !! "user_answer") as [[| | |u| |]|];
    try discriminate; intros [= <-]; reflexivity.
Qed.

(** The schema keeps every entry or rejects the whole list. *)
Lemma validate_items (items : list json) :
  match mapM_result validate_question items with
  | inr questions => Forall2 question_stored items questions
  | inl e =>
      e = ValidationError ∧
      ∃ item, item ∈ items ∧ validate_question item = Raise ValidationError
  end.
Proof.
  induction items as [|item items IH]; simpl; [constructor|].
  destruct (validate_question item) as [e|q] eqn:Eq; simpl.
  - pose proof (validate_question_raises _ _ Eq) as ->.
    split; [reflexivity|]. exists item. split; [left|exact Eq].
  - destruct (mapM_result validate_question items) as [e|qs]; simpl.
    + destruct IH as (-> & item' & Hin & Hbad).
      split; [reflexivity|]. exists item'. split; [right; exact Hin|exact Hbad].
    + constructor; [apply validate_question_stored, Eq|exact IH].
Qed.

Lemma validate_questions_raises (data : json) (e : exn) :
  validate_questions data = Raise e → e = ValidationError.
Proof.
  destruct data as [| | | |items|]; simpl; try (intros [= <-]; reflexivity).
  pose proof (validate_items items) as H.
  destruct (mapM_result validate_question items); [|discriminate].
  intros [= <-]. apply H.
Qed.

(** A first request for a story: what the model generated is validated and
    stored as it is, or the request fails. *)
Lemma create_assignment_stores (db : Db) (story_id : string) (s user_id : oid)
    (story : Story) (questions_data : json) :
  ObjectId story_id = Some s →
  List.find (assignment_of s user_id) (assignments db) = None →
  stories db !! s = Some story →
  (QuestionGenerator.generate_questions completion json_loads
     (map page_dict (story_content story)) (story_title story)).1
  = Ok questions_data →
  value_of (create_assignment ObjectId completion json_loads story_id user_id db)
  = match (try! questions := Json.get questions_data "questions" (JArray []) in
           validate_questions questions) with
    | inr questions => Ok (mkAssignment (next_id db) s user_id questions)
    | inl e => Raise (Failed "Failed to create assignment" e)
    end.
Proof.
  intros Hid Hf Hs Hq.
  unfold create_assignment, value_of. service_steps.
  rewrite Hid. simpl. rewrite Hf. simpl. rewrite Hs. simpl.
  destruct (QuestionGenerator.generate_questions completion json_loads
              (map page_dict (story_content story)) (story_title story))
    as [r calls]. simpl in Hq. subst r. simpl.
  destruct (Json.get questions_data "questions" (JArray [])) as [e|qs] eqn:Eg;
    simpl.
  - destruct questions_data; simpl in Eg; try discriminate;
      injection Eg as <-; reflexivity.
  - destruct (validate_questions qs) as [e|questions] eqn:Ev; simpl;
      [|reflexivity].
    rewrite (validate_questions_raises _ _ Ev). reflexivity.
Qed.

(** C6, as the code has it. [generate_questions] returns the value the
    fence-stripped answer of the model parses to, whatever it is and however
    many questions it holds, and raises only when the answer is not JSON (or
    the completion failed). The schema of the assignment then keeps the
    entries of the list one for one, each with its question and answer and
    without a user answer unless the entry has one under [user_answer], or
    rejects the list when an entry is not a dict with a string question and
    a string answer; [create_assignment], on a first request, stores exactly
    the questions the schema kept, or fails. Nothing counts the questions,
    pads or truncates. *)
Theorem generate_questions_returns_parsed (story_content : list json)
    (story_title : string) (texts : list string) (questions_text : string) :
  mapM_result QuestionGenerator.page_text_str story_content = Ok texts →
  completion story_title (PyStr.join " " texts) = inr questions_text →
  (∃ cleaned,
     Fences.clean (QuestionGenerator.sanitize questions_text) = Ok cleaned ∧
     (QuestionGenerator.generate_questions completion json_loads
        story_content story_title).1
     = match json_loads cleaned with
       | Some questions => Ok questions
       | None =>
           Raise (Failed "Failed to generate questions"
                    (Failed "Failed to parse questions" JSONDecodeError))
       end) ∧
  (∀ items : list json,
     match validate_questions (JArray items) with
     | inr questions =>
         Forall2 question_stored items questions ∧
         length questions = length items
     | inl e =>
         e = ValidationError ∧
         ∃ item, item ∈ items ∧ validate_question item = Raise ValidationError
     end) ∧
  (∀ (db : Db) (story_id : string) (s user_id : oid) (story : Story)
     (fields : gmap string json) (items : list json),
     ObjectId story_id = Some s →
     List.find (assignment_of s user_id) (assignments db) = None →
     stories db !! s = Some story →
     (QuestionGenerator.generate_questions completion json_loads
        (map page_dict (StoryService.story_content story))
        (StoryService.story_title story)).1 = Ok (JObject fields) →
     fields !! "questions" = Some (JArray items) →
     value_of (create_assignment ObjectId completion json_loads
                 story_id user_id db)
     = match validate_questions (JArray items) with
       | inr questions => Ok (mkAssignment (next_id db) s user_id questions)
       | inl e => Raise (Failed "Failed to create assignment" e)
       end).
Proof.
  intros Htexts Hcompletion. split; [|split].
  - destruct (clean_returns (QuestionGenerator.sanitize questions_text))
      as [cleaned Hc].
    exists cleaned. split; [exact Hc|].
    unfold QuestionGenerator.generate_questions,
      QuestionGenerator.generate_questions_body.
    rewrite Htexts, Hcompletion, Hc. simpl.
    destruct (json_loads cleaned); reflexivity.
  - intros items. simpl. pose proof (validate_items items) as H.
    destruct (mapM_result validate_question items) as [e|qs]; [exact H|].
    split; [exact H|]. symmetry. apply (Forall2_length _ _ _ H).
  - intros db story_id s user_id story fields items Hid Hf Hs Hq Hitems.
    rewrite (create_assignment_stores db story_id s user_id story _ Hid Hf Hs Hq).
    cbn [Json.get bind]. rewrite Hitems. reflexivity.
Qed.

End Questions.

(** The model answers with a single question: it is returned, and stored,
    as it is. *)
Lemma generate_questions_not_five :
  ∃ questions,
    (QuestionGenerator.generate_questions quiz_completion sample_json_loads
       [page_json "Once"] "Dragons").1 = Ok questions ∧
    question_count questions = Some 1 ∧
    question_count questions ≠ Some 5.
Proof.
  exists one_question_json. split; [vm_compute; reflexivity|].
  split; [reflexivity|discriminate].
Qed.

Lemma generate_questions_returns_parsed_witness :
  ∃ cleaned,
    Fences.clean (QuestionGenerator.sanitize one_question_text) = Ok cleaned ∧
    (QuestionGenerator.generate_questions quiz_completion sample_json_loads
       [page_json "Once"] "Dragons").1
    = match sample_json_loads cleaned with
      | Some questions => Ok questions
      | None =>
          Raise (Failed "Failed to generate questions"
                   (Failed "Failed to parse questions" JSONDecodeError))
      end.
Proof.
  apply (generate_questions_returns_parsed sample_ObjectId quiz_completion
           sample_json_loads [page_json "Once"] "Dragons" ["Once"]
           one_question_text);
    reflexivity.
Defined.

(** * Further properties of the services *)

(** ** Library retrieval: ranking, filters and bound *)

Section RetrievalContract.

Import RAGService.

Variable similarity_search : string -> Z -> result (list Document).

(** The loop keeps the matching documents in search order and stops once
    [top_k] are kept; it always keeps the first match. *)
Lemma filter_results_spec user_id child_age top_k include_books include_stories
    (results filtered_results : list Document) :
  filter_results user_id child_age top_k include_books include_stories
                 results filtered_results
  = filtered_results ++
    take (Z.to_nat (Z.max 1 (top_k - Z.of_nat (length filtered_results))))
         (List.filter (library_match user_id child_age include_books include_stories)
                      results).
Proof.
  revert filtered_results.
  induction results as [|doc results IH]; intros acc; simpl.
  { rewrite take_nil, List.app_nil_r. reflexivity. }
  unfold library_match at 1.
  destruct (bool_decide (metadata doc !! "user_id" = Some (MStr user_id)));
    simpl; [|apply IH].
  destruct (bool_decide (metadata doc !! "child_age" = Some (MInt child_age)));
    simpl; [|apply IH].
  destruct (bool_decide (metadata doc !! "type" = Some (MStr "book"))
            && negb include_books); simpl; [apply IH|].
  destruct (bool_decide (metadata doc !! "type" = Some (MStr "story"))
            && negb include_stories); simpl; [apply IH|].
  destruct (top_k <=? Z.of_nat (length (acc ++ [doc])))%Z eqn:Ek.
  - apply Z.leb_le in Ek. rewrite length_app in Ek. simpl in Ek.
    replace (Z.to_nat (Z.max 1 (top_k - Z.of_nat (length acc)))) with 1%nat by lia.
    simpl. rewrite take_0. reflexivity.
  - apply Z.leb_gt in Ek. rewrite IH. rewrite length_app in *. simpl in *.
    replace (Z.to_nat (Z.max 1 (top_k - Z.of_nat (length acc))))
      with (S (Z.to_nat (Z.max 1 (top_k - Z.of_nat (length acc + 1))))) by lia.
    simpl. rewrite <- List.app_assoc. reflexivity.
Qed.

Lemma library_match_true user_id child_age include_books include_stories doc :
  library_match user_id child_age include_books include_stories doc = true →
  metadata doc !! "user_id" = Some (MStr user_id) ∧
  metadata doc !! "child_age" = Some (MInt child_age) ∧
  (metadata doc !! "type" = Some (MStr "book") → include_books = true) ∧
  (metadata doc !! "type" = Some (MStr "story") → include_stories = true).
Proof.
  unfold library_match. rewrite !andb_true_iff, !negb_true_iff, !andb_false_iff.
  rewrite !bool_decide_eq_true, !bool_decide_eq_false, !negb_false_iff.
  intros (((Hu & Ha) & Hb) & Hs). repeat split; try assumption.
  - intros H. destruct Hb as [Hb|Hb]; [contradiction|exact Hb].
  - intros H. destruct Hs as [Hs|Hs]; [contradiction|exact Hs].
Qed.

Lemma filter_Forall {A} (m : A → bool) (l : list A) :
  Forall (fun x => m x = true) (List.filter m l).
Proof.
  induction l as [|x l IH]; simpl; [constructor|].
  destruct (m x) eqn:E; [constructor; assumption|exact IH].
Qed.

Lemma filter_sublist {A} (m : A → bool) (l : list A) :
  List.filter m l `sublist_of` l.
Proof.
  induction l as [|x l IH]; simpl; [constructor|].
  destruct (m x); [apply sublist_skip|apply sublist_cons]; exact IH.
Qed.

(** X1. [retrieve_from_user_library] returns the documents of the search
    result that pass the owner, age and type checks, in the order of the
    search (nearest first), cut after [top_k] of them; when [top_k] is below
    one the first match is still returned. A failed search gives the empty
    list. *)
Theorem retrieve_from_user_library_ranked (query user_id : string)
    (child_age top_k : Z) (include_books include_stories : bool) :
  (retrieve_from_user_library similarity_search query user_id child_age top_k
     include_books include_stories).1
  = match similarity_search query (top_k * 3) with
    | inr results =>
        take (Z.to_nat (Z.max 1 top_k))
             (List.filter
                (library_match user_id child_age include_books include_stories)
                results)
    | inl _ => []
    end.
Proof.
  unfold retrieve_from_user_library.
  destruct (similarity_search query (top_k * 3)) as [e|results]; [reflexivity|].
  cbn [fst]. rewrite filter_results_spec. cbn [length app].
  rewrite Z.sub_0_r. reflexivity.
Qed.

(** X2. Every document [retrieve_from_user_library] returns has the
    requested age; it is a book only when books are included and a story
    only when stories are included; the documents come from the search
    result in its order; and there are at most [top_k] of them (at most one
    when [top_k] is below one). *)
Theorem retrieve_from_user_library_contract (query user_id : string)
    (child_age top_k : Z) (include_books include_stories : bool) :
  let docs :=
    (retrieve_from_user_library similarity_search query user_id child_age top_k
       include_books include_stories).1 in
  Forall (fun doc =>
            metadata doc !! "child_age" = Some (MInt child_age) ∧
            (metadata doc !! "type" = Some (MStr "book") → include_books = true) ∧
            (metadata doc !! "type" = Some (MStr "story") → include_stories = true))
         docs ∧
  (∀ results, similarity_search query (top_k * 3) = Ok results →
              docs `sublist_of` results) ∧
  (Z.of_nat (length docs) <= Z.max 1 top_k)%Z.
Proof.
  intros docs. subst docs. unfold retrieve_from_user_library.
  destruct (similarity_search query (top_k * 3)) as [e|results]; cbn [fst].
  { split; [constructor|]. split; [discriminate|simpl; lia]. }
  rewrite filter_results_spec. cbn [length app]. rewrite Z.sub_0_r.
  set (n := Z.to_nat (Z.max 1 top_k)).
  set (m := library_match user_id child_age include_books include_stories).
  split; [|split].
  - apply Forall_take. eapply Forall_impl; [apply filter_Forall|].
    intros doc Hm. apply library_match_true in Hm. tauto.
  - intros results' [= <-].
    etrans; [apply sublist_take|apply filter_sublist].
  - rewrite length_take. subst n. lia.
Qed.

End RetrievalContract.

(** ** Indexing, and what the searches can find of it *)

Section IndexRoundTrip.

Import RAGService RAGIndexing.

Variable split_text : string -> list string.
Variable similarity_search : string -> Z -> result (list Document).

Lemma filter_all {A} (m : A → bool) (l : list A) :
  Forall (fun x => m x = true) l → List.filter m l = l.
Proof.
  induction 1 as [|x l Hx _ IH]; simpl; [reflexivity|]. rewrite Hx, IH. reflexivity.
Qed.

Lemma filter_none {A} (m : A → bool) (l : list A) :
  Forall (fun x => m x = false) l → List.filter m l = [].
Proof.
  induction 1 as [|x l Hx _ IH]; simpl; [reflexivity|]. rewrite Hx. exact IH.
Qed.

(** The library retriever on a search result in which every document
    matches, and on one in which none does. *)
Lemma retrieve_all_match query user_id child_age top_k include_books
    include_stories (results : list Document) :
  similarity_search query (top_k * 3) = Ok results →
  Forall (fun doc => library_match user_id child_age include_books
                       include_stories doc = true) results →
  (retrieve_from_user_library similarity_search query user_id child_age top_k
     include_books include_stories).1
  = take (Z.to_nat (Z.max 1 top_k)) results.
Proof.
  intros Hs Hall. unfold retrieve_from_user_library. rewrite Hs. cbn [fst].
  rewrite filter_results_spec, (filter_all _ _ Hall). cbn [length app].
  rewrite Z.sub_0_r. reflexivity.
Qed.

Lemma retrieve_none_match query user_id child_age top_k include_books
    include_stories (results : list Document) :
  similarity_search query (top_k * 3) = Ok results →
  Forall (fun doc => library_match user_id child_age include_books
                       include_stories doc = false) results →
  (retrieve_from_user_library similarity_search query user_id child_age top_k
     include_books include_stories).1 = [].
Proof.
  intros Hs Hnone. unfold retrieve_from_user_library. rewrite Hs. cbn [fst].
  rewrite filter_results_spec, (filter_none _ _ Hnone). apply take_nil.
Qed.

(** The tags of a chunk of a book indexed without extra metadata. *)
Lemma book_documents_tags book_id book_title book_author book_content user_id
    child_age (doc : Document) :
  doc ∈ book_documents split_text book_id book_title book_author book_content
          user_id child_age None →
  metadata doc !! "user_id" = Some (MStr user_id) ∧
  metadata doc !! "child_age" = Some (MInt child_age) ∧
  metadata doc !! "type" = Some (MStr "book").
Proof.
  unfold book_documents. intros Hin.
  apply elem_of_lookup_imap_1 in Hin as (i & chunk & -> & _).
  cbn [metadata update_metadata].
  destruct book_author as [author|]; [destruct (decide (author = ""))|];
    repeat split; reflexivity.
Qed.

(** The tags of a chunk of a story indexed with the metadata of
    [create_story]. *)
Lemma story_documents_tags story_id story_title story_description story_content
    child_age user_id author_name (doc : Document) :
  doc ∈ story_documents split_text story_id story_title story_description
          story_content child_age (story_owner_metadata user_id author_name) →
  metadata doc !! "user_id" = Some (MStr user_id) ∧
  metadata doc !! "child_age" = Some (MInt child_age) ∧
  metadata doc !! "type" = Some (MStr "story").
Proof.
  unfold story_documents. intros Hin.
  apply elem_of_lookup_imap_1 in Hin as (i & chunk & -> & _).
  cbn [metadata update_metadata story_owner_metadata].
  repeat split; reflexivity.
Qed.

(** A story indexed without metadata carries no owner. *)
Lemma story_documents_no_owner story_id story_title story_description
    story_content child_age (doc : Document) :
  doc ∈ story_documents split_text story_id story_title story_description
          story_content child_age None →
  metadata doc !! "user_id" = None.
Proof.
  unfold story_documents. intros Hin.
  apply elem_of_lookup_imap_1 in Hin as (i & chunk & -> & _). reflexivity.
Qed.

(** [library_match] on a document whose owner, age and type are known. *)
Lemma library_match_tagged (doc : Document) (owner type : string) (age : Z)
    user_id child_age include_books include_stories :
  metadata doc !! "user_id" = Some (MStr owner) →
  metadata doc !! "child_age" = Some (MInt age) →
  metadata doc !! "type" = Some (MStr type) →
  library_match user_id child_age include_books include_stories doc
  = bool_decide (owner = user_id) && bool_decide (age = child_age)
    && negb (bool_decide (type = "book") && negb include_books)
    && negb (bool_decide (type = "story") && negb include_stories).
Proof.
  intros Hu Ha Ht. unfold library_match. rewrite Hu, Ha, Ht.
  f_equal; [f_equal; [f_equal|]|]; try (f_equal; f_equal);
    apply bool_decide_ext; split; congruence.
Qed.

(** X3. After a book is indexed by [add_book_to_index] for a user and an
    age, a library search that finds its chunks hands them to that user at
    that age when books are included, cut after [top_k], and hands none of
    them to another user, at another age, or when books are excluded. *)
Theorem book_index_round_trip book_id book_title book_author book_content
    user_id child_age query top_k include_stories (results : list Document) :
  similarity_search query (top_k * 3) = Ok results →
  Forall (fun doc => doc ∈ book_documents split_text book_id book_title
                             book_author book_content user_id child_age None)
         results →
  (retrieve_from_user_library similarity_search query user_id child_age top_k
     true include_stories).1 = take (Z.to_nat (Z.max 1 top_k)) results ∧
  (retrieve_from_user_library similarity_search query user_id child_age top_k
     false include_stories).1 = [] ∧
  (∀ other, other ≠ user_id →
     (retrieve_from_user_library similarity_search query other child_age top_k
        true include_stories).1 = []) ∧
  (∀ age, age ≠ child_age →
     (retrieve_from_user_library similarity_search query user_id age top_k
        true include_stories).1 = []).
Proof.
  intros Hs Hdocs.
  assert (∀ u a ib,
            Forall (fun doc =>
                      library_match u a ib include_stories doc
                      = bool_decide (user_id = u) && bool_decide (child_age = a)
                        && ib) results) as Hm.
  { intros u a ib. eapply Forall_impl; [exact Hdocs|]. intros doc Hin. cbn beta in Hin.
    destruct (book_documents_tags _ _ _ _ _ _ _ Hin) as (Hu & Ha & Ht).
    rewrite (library_match_tagged doc user_id "book" child_age u a ib
               include_stories Hu Ha Ht).
    rewrite (bool_decide_eq_true_2 ("book" = "book")) by reflexivity.
    rewrite (bool_decide_eq_false_2 ("book" = "story")) by discriminate.
    destruct ib; simpl; rewrite ?andb_true_r; reflexivity. }
  split; [|split; [|split]].
  - eapply retrieve_all_match; [exact Hs|].
    eapply Forall_impl; [apply (Hm user_id child_age true)|].
    intros doc Hd; cbn beta in Hd; rewrite Hd. rewrite !bool_decide_eq_true_2 by reflexivity. reflexivity.
  - eapply retrieve_none_match; [exact Hs|].
    eapply Forall_impl; [apply (Hm user_id child_age false)|].
    intros doc Hd; cbn beta in Hd; rewrite Hd. apply andb_false_r.
  - intros other Hne. eapply retrieve_none_match; [exact Hs|].
    eapply Forall_impl; [apply (Hm other child_age true)|].
    intros doc Hd; cbn beta in Hd; rewrite Hd. rewrite (bool_decide_eq_false_2 (user_id = other)) by congruence.
    reflexivity.
  - intros age Hne. eapply retrieve_none_match; [exact Hs|].
    eapply Forall_impl; [apply (Hm user_id age true)|].
    intros doc Hd; cbn beta in Hd; rewrite Hd. rewrite (bool_decide_eq_false_2 (child_age = age)) by congruence.
    rewrite andb_false_r. reflexivity.
Qed.

(** X4. A story indexed with the metadata [create_story] passes (the
    creator as [user_id]) is handed by the library search to its creator, at
    its age, when stories are included, and to no other user. *)
Theorem story_index_round_trip story_id story_title story_description
    story_content child_age user_id author_name query top_k include_books
    (results : list Document) :
  similarity_search query (top_k * 3) = Ok results →
  Forall (fun doc => doc ∈ story_documents split_text story_id story_title
                             story_description story_content child_age
                             (story_owner_metadata user_id author_name))
         results →
  (retrieve_from_user_library similarity_search query user_id child_age top_k
     include_books true).1 = take (Z.to_nat (Z.max 1 top_k)) results ∧
  (retrieve_from_user_library similarity_search query user_id child_age top_k
     include_books false).1 = [] ∧
  (∀ other, other ≠ user_id →
     (retrieve_from_user_library similarity_search query other child_age top_k
        include_books true).1 = []).
Proof.
  intros Hs Hdocs.
  assert (∀ u st,
            Forall (fun doc =>
                      library_match u child_age include_books st doc
                      = bool_decide (user_id = u) && st) results) as Hm.
  { intros u st. eapply Forall_impl; [exact Hdocs|]. intros doc Hin.
    cbn beta in Hin.
    destruct (story_documents_tags _ _ _ _ _ _ _ _ Hin) as (Hu & Ha & Ht).
    rewrite (library_match_tagged doc user_id "story" child_age u child_age
               include_books st Hu Ha Ht).
    rewrite (bool_decide_eq_true_2 (child_age = child_age)) by reflexivity.
    rewrite (bool_decide_eq_false_2 ("story" = "book")) by discriminate.
    rewrite (bool_decide_eq_true_2 ("story" = "story")) by reflexivity.
    destruct st; simpl; rewrite ?andb_true_r; reflexivity. }
  split; [|split].
  - eapply retrieve_all_match; [exact Hs|].
    eapply Forall_impl; [apply (Hm user_id true)|].
    intros doc Hd; cbn beta in Hd; rewrite Hd.
    rewrite bool_decide_eq_true_2 by reflexivity. reflexivity.
  - eapply retrieve_none_match; [exact Hs|].
    eapply Forall_impl; [apply (Hm user_id false)|].
    intros doc Hd; cbn beta in Hd; rewrite Hd. apply andb_false_r.
  - intros other Hne. eapply retrieve_none_match; [exact Hs|].
    eapply Forall_impl; [apply (Hm other true)|].
    intros doc Hd; cbn beta in Hd; rewrite Hd.
    rewrite (bool_decide_eq_false_2 (user_id = other)) by congruence. reflexivity.
Qed.

(** X5. A story indexed without extra metadata carries no owner, so the
    library search hands it to nobody, whatever the flags. *)
Theorem story_index_without_owner story_id story_title story_description
    story_content child_age query top_k (results : list Document) :
  similarity_search query (top_k * 3) = Ok results →
  Forall (fun doc => doc ∈ story_documents split_text story_id story_title
                             story_description story_content child_age None)
         results →
  ∀ anyone include_books include_stories,
    (retrieve_from_user_library similarity_search query anyone child_age top_k
       include_books include_stories).1 = [].
Proof.
  intros Hs Hdocs anyone include_books include_stories.
  eapply retrieve_none_match; [exact Hs|].
  eapply Forall_impl; [exact Hdocs|]. intros doc Hin. cbn beta in Hin.
  unfold library_match. rewrite (story_documents_no_owner _ _ _ _ _ _ Hin).
  reflexivity.
Qed.

Lemma py_prefix_sublist {A} (n : Z) (l : list A) : py_prefix n l `sublist_of` l.
Proof. unfold py_prefix. destruct (0 <=? n)%Z; apply sublist_take. Qed.

Lemma py_prefix_length {A} (n : Z) (l : list A) :
  (0 <= n)%Z → (Z.of_nat (length (py_prefix n l)) <= n)%Z.
Proof.
  intros Hn. unfold py_prefix. rewrite (proj2 (Z.leb_le 0 n) Hn), length_take. lia.
Qed.

(** X6. [retrieve_similar_stories] returns only stories of the requested
    age, taken from the search result in its order, at most [top_k] of them
    for a non-negative [top_k]; its [filters] argument has no effect. *)
Theorem retrieve_similar_stories_contract (query : string) (child_age top_k : Z)
    (filters : option (gmap string meta)) :
  let docs := retrieve_similar_stories similarity_search query child_age top_k
                filters in
  Forall (fun doc =>
            metadata doc !! "child_age" = Some (MInt child_age) ∧
            metadata doc !! "type" = Some (MStr "story")) docs ∧
  (∀ results, similarity_search query top_k = Ok results →
              docs `sublist_of` results) ∧
  ((0 <= top_k)%Z → (Z.of_nat (length docs) <= top_k)%Z) ∧
  docs = retrieve_similar_stories similarity_search query child_age top_k None.
Proof.
  intros docs. subst docs. unfold retrieve_similar_stories.
  destruct (similarity_search query top_k) as [e|results]; cbn zeta.
  { split; [constructor|]. split; [discriminate|]. split; [simpl; lia|reflexivity]. }
  split; [|split; [|split]].
  - unfold py_prefix. destruct (0 <=? top_k)%Z; apply Forall_take;
      (eapply Forall_impl; [apply filter_Forall|]); intros doc Hm;
      cbn beta in Hm;
      apply andb_true_iff in Hm as [Ha Ht];
      apply bool_decide_eq_true in Ha, Ht; split; assumption.
  - intros results' [= <-]. etrans; [apply py_prefix_sublist|apply filter_sublist].
  - apply py_prefix_length.
  - reflexivity.
Qed.

(** X7. [retrieve_educational_context] finds nothing in an index that was
    filled by [add_story_to_index] and [add_book_to_index]: it keeps only
    documents of type [educational_content], which neither writes. *)
Theorem retrieve_educational_context_empty (topic : string) (age_group top_k : Z) :
  (∀ query k results, similarity_search query k = Ok results →
                      Forall (indexed_here split_text) results) →
  retrieve_educational_context similarity_search topic age_group top_k = [].
Proof.
  intros Hindex. unfold retrieve_educational_context.
  destruct (similarity_search _ top_k) as [e|results] eqn:Hs; [reflexivity|].
  cbn zeta. rewrite filter_none.
  - unfold py_prefix. destruct (0 <=? top_k)%Z; apply take_nil.
  - eapply Forall_impl; [apply (Hindex _ _ _ Hs)|]. intros doc Hdoc. cbn beta in Hdoc.
    apply bool_decide_eq_false_2. intros Htype.
    destruct Hdoc as [? ? ? ? ? md Hextra Hin
                     |? ? book_author ? ? ? md Hextra Hin].
    + unfold story_documents in Hin.
      apply elem_of_lookup_imap_1 in Hin as (i & chunk & -> & _).
      cbn [metadata] in Htype. destruct md as [extra|]; simpl in Htype.
      * rewrite lookup_union, (Hextra extra eq_refl) in Htype. discriminate.
      * discriminate.
    + unfold book_documents in Hin.
      apply elem_of_lookup_imap_1 in Hin as (i & chunk & -> & _).
      cbn [metadata] in Htype.
      destruct md as [extra|]; simpl in Htype;
        [rewrite lookup_union, (Hextra extra eq_refl) in Htype|];
        (destruct book_author as [author|];
           [destruct (decide (author = ""))|]); discriminate.
Qed.

End IndexRoundTrip.

(** The round trips on indexes of one book and of one story. *)
Lemma book_index_round_trip_witness :
  let chunks := RAGIndexing.book_documents one_chunk "b1" "Dragon book" None
                  "Long ago" "u1" 7 None in
  (RAGService.retrieve_from_user_library book_index "dragons" "u1" 7 5 true true).1
  = take 5 chunks ∧
  (RAGService.retrieve_from_user_library book_index "dragons" "u1" 7 5 false true).1
  = [] ∧
  (∀ other, other ≠ "u1" →
     (RAGService.retrieve_from_user_library book_index "dragons" other 7 5
        true true).1 = []) ∧
  (∀ age, age ≠ 7%Z →
     (RAGService.retrieve_from_user_library book_index "dragons" "u1" age 5
        true true).1 = []).
Proof.
  apply (book_index_round_trip one_chunk book_index "b1" "Dragon book" None
           "Long ago" "u1" 7 "dragons" 5 true);
    [reflexivity|apply Forall_forall; auto].
Defined.

Lemma story_index_round_trip_witness :
  let chunks := RAGIndexing.story_documents one_chunk "s1" "Dragons" "A tale"
                  "Once" 7 (story_owner_metadata "u2" "Ann") in
  (RAGService.retrieve_from_user_library story_index "dragons" "u2" 7 5 true true).1
  = take 5 chunks ∧
  (RAGService.retrieve_from_user_library story_index "dragons" "u2" 7 5 true false).1
  = [] ∧
  (∀ other, other ≠ "u2" →
     (RAGService.retrieve_from_user_library story_index "dragons" other 7 5
        true true).1 = []).
Proof.
  apply (story_index_round_trip one_chunk story_index "s1" "Dragons" "A tale"
           "Once" 7 "u2" "Ann" "dragons" 5 true);
    [reflexivity|apply Forall_forall; auto].
Defined.

Lemma story_index_without_owner_witness :
  (RAGService.retrieve_from_user_library anonymous_story_index "dragons"
     "u2" 7 5 true true).1 = [].
Proof.
  apply (story_index_without_owner one_chunk anonymous_story_index "s1"
           "Dragons" "A tale" "Once" 7 "dragons" 5
           (RAGIndexing.story_documents one_chunk "s1" "Dragons" "A tale" "Once"
              7 None));
    [reflexivity|apply Forall_forall; auto].
Defined.

Lemma retrieve_educational_context_empty_witness :
  RAGIndexing.retrieve_educational_context book_index "dragons" 7 2 = [].
Proof.
  apply (retrieve_educational_context_empty one_chunk book_index "dragons" 7 2).
  intros query k results [= <-]. apply Forall_forall. intros doc Hin.
  eapply indexed_book; [|exact Hin]. discriminate.
Defined.

(** ** The generation graph *)

Section TokenUsageFacts.

Import TokenUsage.

Lemma merge_usage_unit_l (a : gmap string Z) : merge_usage ∅ a = a.
Proof. reflexivity. Qed.

Lemma merge_usage_unit_r (a : gmap string Z) : merge_usage a ∅ = a.
Proof.
  unfold merge_usage. destruct (decide (a = ∅)) as [->|]; reflexivity.
Qed.

Lemma merge_usage_nonempty (a b : gmap string Z) :
  a ≠ ∅ → b ≠ ∅ →
  merge_usage a b
  = <["prompt_tokens" := (get0 a "prompt_tokens" + get0 b "prompt_tokens")%Z]>
      (<["completion_tokens" :=
           (get0 a "completion_tokens" + get0 b "completion_tokens")%Z]>
         {[ "total_tokens" := (get0 a "total_tokens" + get0 b "total_tokens")%Z ]}).
Proof.
  intros Ha Hb. unfold merge_usage.
  destruct (decide (a = ∅)) as [|_]; [contradiction|].
  destruct (decide (b = ∅)) as [|_]; [contradiction|]. reflexivity.
Qed.

Lemma merge_usage_sum (a b : gmap string Z) :
  a ≠ ∅ → b ≠ ∅ →
  merge_usage a b ≠ ∅ ∧
  get0 (merge_usage a b) "prompt_tokens"
  = (get0 a "prompt_tokens" + get0 b "prompt_tokens")%Z ∧
  get0 (merge_usage a b) "completion_tokens"
  = (get0 a "completion_tokens" + get0 b "completion_tokens")%Z ∧
  get0 (merge_usage a b) "total_tokens"
  = (get0 a "total_tokens" + get0 b "total_tokens")%Z.
Proof.
  intros Ha Hb. rewrite (merge_usage_nonempty a b Ha Hb).
  split; [apply insert_non_empty|]. repeat split; reflexivity.
Qed.

(** X8. [merge_usage] is a commutative, associative operation on usage
    dictionaries with the empty dictionary as its unit on both sides: the
    total the graph accumulates does not depend on the order in which the
    nodes report. *)
Theorem merge_usage_monoid :
  (∀ a, merge_usage ∅ a = a ∧ merge_usage a ∅ = a) ∧
  (∀ a b, merge_usage a b = merge_usage b a) ∧
  (∀ a b c, merge_usage (merge_usage a b) c = merge_usage a (merge_usage b c)).
Proof.
  split; [|split].
  - intros a. split; [apply merge_usage_unit_l|apply merge_usage_unit_r].
  - intros a b.
    destruct (decide (a = ∅)) as [->|Ha];
      [rewrite merge_usage_unit_l, merge_usage_unit_r; reflexivity|].
    destruct (decide (b = ∅)) as [->|Hb];
      [rewrite merge_usage_unit_l, merge_usage_unit_r; reflexivity|].
    rewrite (merge_usage_nonempty a b Ha Hb), (merge_usage_nonempty b a Hb Ha).
    f_equal; [lia|]. f_equal; [lia|]. f_equal. lia.
  - intros a b c.
    destruct (decide (a = ∅)) as [->|Ha];
      [rewrite !merge_usage_unit_l; reflexivity|].
    destruct (decide (b = ∅)) as [->|Hb];
      [rewrite merge_usage_unit_l, merge_usage_unit_r; reflexivity|].
    destruct (decide (c = ∅)) as [->|Hc];
      [rewrite !merge_usage_unit_r; reflexivity|].
    destruct (merge_usage_sum a b Ha Hb) as (Hab & Hp & Hc' & Ht).
    destruct (merge_usage_sum b c Hb Hc) as (Hbc & Hp' & Hc'' & Ht').
    rewrite (merge_usage_nonempty (merge_usage a b) c Hab Hc).
    rewrite (merge_usage_nonempty a (merge_usage b c) Ha Hbc).
    rewrite Hp, Hc', Ht, Hp', Hc'', Ht'.
    f_equal; [lia|]. f_equal; [lia|]. f_equal. lia.
Qed.

End TokenUsageFacts.

Section LibraryContext.

Import RAGService StoryGraph.

Variable similarity_search : string -> Z -> result (list Document).
Variable llm : Prompt -> string + string.
Variable json_loads : string -> option json.

Lemma str_length_app (s t : string) :
  String.length (s +:+ t) = String.length s + String.length t.
Proof. induction s as [|c s IH]; simpl; [reflexivity|]. rewrite IH. reflexivity. Qed.

Lemma str_length_take (n : nat) (s : string) : String.length (PyStr.take n s) ≤ n.
Proof.
  revert s. induction n as [|n IH]; intros [|c s]; simpl; try lia.
  specialize (IH s). lia.
Qed.

(** The library retriever never returns more than [max(1, top_k)]
    documents. *)
Lemma retrieve_from_user_library_length query user_id child_age top_k
    include_books include_stories :
  (Z.of_nat (length (retrieve_from_user_library similarity_search query user_id
                       child_age top_k include_books include_stories).1)
   <= Z.max 1 top_k)%Z.
Proof.
  unfold retrieve_from_user_library.
  destruct (similarity_search query (top_k * 3)) as [e|results]; cbn [fst].
  - simpl. lia.
  - rewrite filter_results_spec. cbn [length app]. rewrite Z.sub_0_r.
    rewrite length_take. lia.
Qed.

Lemma context_entry_length (i : nat) (doc : Document) :
  i < 9 → String.length (context_entry i doc) ≤ 432.
Proof.
  intros Hi. unfold context_entry. rewrite !str_length_app.
  pose proof (str_length_take 400 (page_content doc)).
  assert (String.length (pretty (S i)) = 1) as ->.
  { do 9 (destruct i as [|i]; [reflexivity|]). lia. }
  set (n := String.length (PyStr.take 400 (page_content doc))) in *.
  cbn [String.length newline]. lia.
Qed.

Lemma join_length (sep : string) (parts : list string) (n : nat) :
  parts ≠ [] →
  Forall (fun p => String.length p ≤ n) parts →
  String.length (PyStr.join sep parts) + String.length sep
  ≤ length parts * (n + String.length sep).
Proof.
  induction parts as [|p rest IH]; [congruence|]. intros _ Hall.
  apply Forall_cons in Hall as [Hp Hrest].
  destruct rest as [|q rest]; [simpl; lia|].
  change (PyStr.join sep (p :: q :: rest))
    with (p +:+ sep +:+ PyStr.join sep (q :: rest)).
  rewrite !str_length_app. specialize (IH ltac:(discriminate) Hrest).
  change (length (p :: q :: rest)) with (S (length (q :: rest))). lia.
Qed.

Lemma format_context_length (library_docs : list Document) :
  library_docs ≠ [] → length library_docs ≤ 9 →
  String.length (format_context library_docs) + 2 ≤ length library_docs * 434.
Proof.
  intros Hne Hlen. unfold format_context.
  pose proof (join_length (newline +:+ newline) (imap context_entry library_docs)
                432) as Hjoin.
  rewrite length_imap in Hjoin. apply Hjoin.
  - destruct library_docs; [congruence|discriminate].
  - apply Forall_lookup. intros i entry Hentry.
    rewrite list_lookup_imap in Hentry.
    destruct (library_docs !! i) as [doc|] eqn:Hdoc; [|discriminate].
    injection Hentry as <-. apply context_entry_length.
    apply lookup_lt_Some in Hdoc. lia.
Qed.

Lemma context_entry_nonempty (i : nat) (doc : Document) : context_entry i doc ≠ "".
Proof. discriminate. Qed.

Lemma format_context_nonempty (doc : Document) (docs : list Document) :
  format_context (doc :: docs) ≠ "".
Proof. unfold format_context. destruct docs; discriminate. Qed.

(** X9. The library context that [retrieve_context] puts into the story
    prompt never exceeds 1300 characters, whatever the size and the number
    of the documents in the index: at most three excerpts of at most 400
    characters, each with its caption and ellipsis. *)
Theorem retrieve_context_bounded (state : StoryState) :
  String.length (retrieve_context similarity_search state).1 ≤ 1300.
Proof.
  unfold retrieve_context.
  destruct (negb (use_books_context state || use_history_context state));
    [simpl; lia|].
  cbn zeta.
  pose proof (retrieve_from_user_library_length
                (story_title state +:+ " " +:+ story_description state)
                (user_id state) (child_age state) 3
                (use_books_context state) (use_history_context state)) as Hlen.
  destruct (retrieve_from_user_library _ _ _ _ _ _ _) as [library_docs calls].
  cbn [fst] in Hlen |- *.
  destruct library_docs as [|doc library_docs]; [simpl; lia|]. cbn [fst snd].
  pose proof (format_context_length (doc :: library_docs) ltac:(discriminate)
                ltac:(lia)) as Hctx.
  lia.
Qed.

(** X10. The prompt of the story model carries library context exactly
    when a retrieval was requested and returned at least one document. *)
Theorem retrieve_context_empty_iff (state : StoryState) :
  (retrieve_context similarity_search state).1 = "" ↔
  (use_books_context state = false ∧ use_history_context state = false) ∨
  (retrieve_from_user_library similarity_search
     (story_title state +:+ " " +:+ story_description state)
     (user_id state) (child_age state) 3
     (use_books_context state) (use_history_context state)).1 = [].
Proof.
  unfold retrieve_context.
  destruct (use_books_context state), (use_history_context state); cbn [negb orb].
  4: { split; [left; split; reflexivity|reflexivity]. }
  all: destruct (retrieve_from_user_library _ _ _ _ _ _ _)
         as [[|doc library_docs] calls]; cbn [fst].
  all: split; [intros H|intros [[? ?]|?]].
  all: first [reflexivity
             |discriminate
             |right; reflexivity
             |exfalso; exact (format_context_nonempty _ _ H)].
Qed.

Lemma retrieve_context_no_documents (state : StoryState) :
  (retrieve_from_user_library similarity_search
     (story_title state +:+ " " +:+ story_description state)
     (user_id state) (child_age state) 3
     (use_books_context state) (use_history_context state)).1 = [] →
  (retrieve_context similarity_search state).1 = "".
Proof.
  intros Hnone. unfold retrieve_context.
  destruct (negb _); [reflexivity|].
  destruct (retrieve_from_user_library _ _ _ _ _ _ _) as [library_docs calls].
  cbn [fst] in Hnone. subst library_docs. reflexivity.
Qed.

(** The value of a run is the answer of the model to the prompt built from
    the request and the retrieved context, parsed. *)
Lemma run_story_generation_value (story_title story_description : string)
    (child_age max_pages : Z) (user_id : string)
    (use_books_context use_history_context : bool) :
  (run_story_generation similarity_search llm json_loads story_title
     story_description child_age max_pages user_id
     use_books_context use_history_context).1
  = match llm (mkPrompt child_age max_pages story_title story_description
                 (retrieve_context similarity_search
                    (mkStoryState story_title story_description child_age
                       max_pages user_id use_books_context
                       use_history_context "")).1) with
    | inl message => Raise (UpstreamError message)
    | inr content => parse_story json_loads content
    end.
Proof.
  unfold run_story_generation.
  destruct (retrieve_context _ _) as [library_context calls1]. cbn [fst].
  unfold generate_story_content, prompt_of.
  cbn [StoryGraph.child_age StoryGraph.max_pages StoryGraph.story_title
       StoryGraph.story_description StoryGraph.library_context].
  destruct (llm _); reflexivity.
Qed.

(** X11. When the library retrieval yields no document (the vector index
    failed, or nothing in it belongs to the user at that age and type), the
    story generation returns what it returns with both context flags off:
    a failing or empty index never fails or changes the generation. *)
Theorem run_story_generation_without_documents (story_title story_description : string)
    (child_age max_pages : Z) (user_id : string)
    (use_books_context use_history_context : bool) :
  (retrieve_from_user_library similarity_search
     (story_title +:+ " " +:+ story_description) user_id child_age 3
     use_books_context use_history_context).1 = [] →
  (run_story_generation similarity_search llm json_loads story_title
     story_description child_age max_pages user_id
     use_books_context use_history_context).1
  = (run_story_generation similarity_search llm json_loads story_title
       story_description child_age max_pages user_id false false).1.
Proof.
  intros Hnone. rewrite !run_story_generation_value.
  rewrite (retrieve_context_no_documents
             (mkStoryState story_title story_description child_age max_pages
                user_id use_books_context use_history_context "") Hnone).
  reflexivity.
Qed.

End LibraryContext.

Lemma run_story_generation_without_documents_witness :
  (StoryGraph.run_story_generation failing_index four_pages_llm sample_json_loads
     "Dragons" "A tale about friendly dragons" 7 3 "u1" true true).1
  = (StoryGraph.run_story_generation failing_index four_pages_llm sample_json_loads
       "Dragons" "A tale about friendly dragons" 7 3 "u1" false false).1.
Proof.
  apply (run_story_generation_without_documents failing_index four_pages_llm
           sample_json_loads "Dragons" "A tale about friendly dragons" 7 3 "u1"
           true true).
  reflexivity.
Defined.

(** ** Story management: what a call leaves in the store *)

Section StoreEffects.

Import StoryService.

Variable ObjectId : string -> option oid.
Variable similarity_search : string -> Z -> result (list RAGService.Document).
Variable llm : StoryGraph.Prompt -> string + string.
Variable completion : string -> string -> string + string.
Variable json_loads : string -> option json.
Variable generate_image : json -> Z -> string -> option string.
Variable mirror_image : string -> option string.
Variable oid_str : oid -> string.

(** The two ways [create_story] ends. *)
Lemma create_story_cases (story_data : CreateStoryRequest) (user_id : oid)
    (author_name : string) (db : Db) :
  let r := create_story similarity_search llm json_loads generate_image
             mirror_image oid_str story_data user_id author_name db in
  (∃ cause, value_of r = Raise (Failed "Failed to create story" cause) ∧
            db_of r = db) ∨
  (∃ story_contents,
     let story := mkStory (next_id db) (req_story_title story_data)
                    (req_story_description story_data) story_contents
                    author_name user_id (req_max_pages story_data) in
     value_of r = Ok story ∧
     db_of r = mkDb (<[next_id db := story]> (stories db)) (assignments db)
                    (N.succ (next_id db))).
Proof.
  intros r. subst r. rewrite create_story_unfold. unfold value_of, db_of. cbn zeta.
  destruct (generated_story_of _ _ _ _ _ _).1 as [e|generated_story];
    [left; eexists; split; reflexivity|].
  destruct (generated_pages generated_story) as [e|pages];
    [left; eexists; split; reflexivity|].
  destruct (image_tasks _ pages) as [e|tasks];
    [left; eexists; split; reflexivity|].
  destruct (build_pages _ _ 0 pages) as [e|story_contents];
    [left; eexists; split; reflexivity|].
  right. exists story_contents. split; reflexivity.
Qed.

(** X12. [create_story] is all or nothing on the store. When it raises,
    the exception is the wrapped failure and the store is as before: no
    story is left half created. When it returns, exactly one story has been
    written, under its own id, owned by the caller and signed with the given
    author name; the other stories and all assignments are untouched. *)
Theorem create_story_atomic (story_data : CreateStoryRequest) (user_id : oid)
    (author_name : string) (db : Db) :
  let r := create_story similarity_search llm json_loads generate_image
             mirror_image oid_str story_data user_id author_name db in
  match value_of r with
  | inl e => db_of r = db ∧ ∃ cause, e = Failed "Failed to create story" cause
  | inr story =>
      stories (db_of r) = <[story_id story := story]> (stories db) ∧
      story_id story = next_id db ∧
      assignments (db_of r) = assignments db ∧
      created_by story = user_id ∧
      story_author story = author_name ∧
      story_title story = req_story_title story_data
  end.
Proof.
  intros r.
  destruct (create_story_cases story_data user_id author_name db)
    as [(cause & Hv & Hdb)|(story_contents & Hv & Hdb)]; fold r in Hv, Hdb;
    rewrite Hv, Hdb.
  - split; [reflexivity|eauto].
  - repeat split; reflexivity.
Qed.

(** X13. A story that [create_story] returned can be read back by
    [get_story] by its creator, unchanged, and by nobody else: any other
    user gets [ForbiddenError]. Neither read changes the store. *)
Theorem create_story_get_story (story_data : CreateStoryRequest) (user_id : oid)
    (author_name : string) (db : Db) (story : Story) (sid_str : string) :
  let r := create_story similarity_search llm json_loads generate_image
             mirror_image oid_str story_data user_id author_name db in
  value_of r = Ok story →
  ObjectId sid_str = Some (story_id story) →
  get_story ObjectId sid_str user_id (db_of r) = (Ok story, db_of r, []) ∧
  ∀ other, other ≠ user_id →
    get_story ObjectId sid_str other (db_of r)
    = (Raise (ForbiddenError "Unauthorized access to this story"), db_of r, []).
Proof.
  intros r Hv Hid.
  destruct (create_story_cases story_data user_id author_name db)
    as [(cause & Hv' & _)|(story_contents & Hv' & Hdb)]; fold r in Hv';
    rewrite Hv in Hv'; [discriminate|].
  fold r in Hdb. cbn zeta in Hv', Hdb. injection Hv' as Hstory.
  assert (stories (db_of r) !! story_id story = Some story) as Hstored.
  { rewrite Hdb, Hstory. cbn [stories story_id]. rewrite <- Hstory.
    apply lookup_insert_eq. }
  assert (created_by story = user_id) as Hown by (rewrite Hstory; reflexivity).
  split.
  - unfold get_story. service_steps. rewrite Hid. simpl. rewrite Hstored. simpl.
    rewrite decide_False by (intros Hne; apply Hne, Hown). reflexivity.
  - intros other Hne.
    apply (get_story_forbidden ObjectId (db_of r) sid_str (story_id story) other
             story Hid Hstored).
    rewrite Hown. congruence.
Qed.

(** [create_assignment], step by step. *)
Lemma create_assignment_unfold (story_id : string) (user_id : oid) (db : Db) :
  create_assignment ObjectId completion json_loads story_id user_id db
  = let failed e := Raise (Failed "Failed to create assignment" e) in
    match ObjectId story_id with
    | None => (failed InvalidId, db, [])
    | Some s =>
        match List.find (assignment_of s user_id) (assignments db) with
        | Some existing => (Ok existing, db, [])
        | None =>
            match stories db !! s with
            | None => (Raise (NotFoundError "Story not found"), db, [])
            | Some story =>
                let generated :=
                  QuestionGenerator.generate_questions_body completion json_loads
                    (map page_dict (story_content story)) (story_title story) in
                match generated.1 with
                | inl e =>
                    (failed (Failed "Failed to generate questions" e), db,
                     generated.2)
                | inr questions_data =>
                    match try! questions :=
                            Json.get questions_data "questions" (JArray []) in
                          validate_questions questions with
                    | inl e => (failed e, db, generated.2)
                    | inr questions =>
                        (Ok (mkAssignment (next_id db) s user_id questions),
                         mkDb (stories db)
                              (assignments db
                                 ++ [mkAssignment (next_id db) s user_id questions])
                              (N.succ (next_id db)),
                         generated.2)
                    end
                end
            end
        end
    end.
Proof.
  unfold create_assignment. service_steps. cbn zeta.
  destruct (ObjectId story_id) as [s|]; [|reflexivity]. simpl.
  destruct (List.find _ _) as [existing|]; [reflexivity|]. simpl.
  destruct (stories db !! s) as [story|]; [|reflexivity]. simpl.
  unfold QuestionGenerator.generate_questions.
  destruct (QuestionGenerator.generate_questions_body _ _ _ _)
    as [[e|questions_data] calls]; simpl; [reflexivity|].
  destruct (Json.get questions_data "questions" (JArray [])) as [e|questions]
    eqn:Hget; simpl.
  { rewrite ?List.app_nil_r.
    assert (e = AttributeError) as ->
      by (destruct questions_data; simpl in Hget; congruence).
    reflexivity. }
  destruct (validate_questions questions) as [e|qs] eqn:Hq; simpl.
  - rewrite ?List.app_nil_r.
    rewrite (validate_questions_raises _ _ Hq). reflexivity.
  - rewrite ?List.app_nil_r. reflexivity.
Qed.

Lemma find_Some_elem {A} (f : A → bool) (l : list A) (x : A) :
  List.find f l = Some x → x ∈ l ∧ f x = true.
Proof.
  induction l as [|y l IH]; simpl; [discriminate|].
  destruct (f y) eqn:Hy.
  - intros [= <-]. split; [left|exact Hy].
  - intros H. destruct (IH H) as [Hin Hx]. split; [right; exact Hin|exact Hx].
Qed.


Lemma assignment_of_true (s u : oid) (a : Assignment) :
  assignment_of s u a = true ↔ sid a = s ∧ uid a = u.
Proof.
  unfold assignment_of. rewrite andb_true_iff, !bool_decide_eq_true. reflexivity.
Qed.

(** X14. [create_assignment] is all or nothing on the store, and never
    touches the stories. When it raises, the store is as before and the
    exception is either [NotFoundError] for a missing story or the wrapped
    failure. When it returns, the assignment is in the collection, is for
    the requested story and the calling user, and the collection is either
    unchanged or longer by exactly that assignment. *)
Theorem create_assignment_atomic (story_id : string) (user_id : oid) (db : Db) :
  let r := create_assignment ObjectId completion json_loads story_id user_id db in
  stories (db_of r) = stories db ∧
  match value_of r with
  | inl e =>
      db_of r = db ∧
      (e = NotFoundError "Story not found" ∨
       ∃ cause, e = Failed "Failed to create assignment" cause)
  | inr a =>
      ObjectId story_id = Some (sid a) ∧ uid a = user_id ∧
      a ∈ assignments (db_of r) ∧
      (db_of r = db ∨ assignments (db_of r) = assignments db ++ [a])
  end.
Proof.
  intros r. subst r. rewrite create_assignment_unfold. cbn zeta.
  unfold value_of, db_of.
  destruct (ObjectId story_id) as [s|]; cbn [fst snd];
    [|split; [reflexivity|]; split; [reflexivity|right; eauto]].
  destruct (List.find _ _) as [existing|] eqn:Hfind; cbn [fst snd].
  { apply find_Some_elem in Hfind as [Hin Hm].
    apply assignment_of_true in Hm as [<- <-].
    split; [reflexivity|]. repeat split; [exact Hin|left; reflexivity]. }
  destruct (stories db !! s) as [story|]; cbn [fst snd];
    [|split; [reflexivity|]; split; [reflexivity|left; reflexivity]].
  destruct (QuestionGenerator.generate_questions_body _ _ _ _).1
    as [e|questions_data]; cbn [fst snd];
    [split; [reflexivity|]; split; [reflexivity|right; eauto]|].
  destruct (try! questions := Json.get questions_data "questions" (JArray []) in
            validate_questions questions) as [e|questions]; cbn [fst snd];
    [split; [reflexivity|]; split; [reflexivity|right; eauto]|].
  split; [reflexivity|]. cbn [sid uid assignments].
  repeat split; [apply elem_of_app; right; left|right; reflexivity].
Qed.


(** X16. When [create_assignment] has to generate a quiz (the story
    exists and the user has no assignment for it yet), it makes exactly one
    completion request, for the title of the story and its reading text:
    the page texts in page order joined by single spaces, the same text
    that is stored with a recording and scored against. *)
Theorem create_assignment_reads_whole_story (story_id : string) (s user_id : oid)
    (db : Db) (story : Story) :
  ObjectId story_id = Some s →
  List.find (assignment_of s user_id) (assignments db) = None →
  stories db !! s = Some story →
  calls_of (create_assignment ObjectId completion json_loads story_id user_id db)
  = [QuestionCompletion (story_title story) (whole_story_of story)].
Proof.
  intros Hid Hfind Hstory. rewrite create_assignment_unfold. cbn zeta.
  rewrite Hid, Hfind, Hstory. unfold calls_of.
  assert ((QuestionGenerator.generate_questions_body completion json_loads
             (map page_dict (story_content story)) (story_title story)).2
          = [QuestionCompletion (story_title story) (whole_story_of story)]) as Hcalls.
  { unfold QuestionGenerator.generate_questions_body.
    rewrite page_texts_of_dicts. unfold whole_story_of.
    destruct (completion _ _); reflexivity. }
  destruct (QuestionGenerator.generate_questions_body _ _ _ _).1
    as [e|questions_data]; cbn [fst snd]; [exact Hcalls|].
  destruct (try! questions := Json.get questions_data "questions" (JArray []) in
            validate_questions questions) as [e|questions]; exact Hcalls.
Qed.

End StoreEffects.

Lemma create_story_get_story_witness :
  let r := StoryService.create_story sample_index four_pages_llm sample_json_loads
             sample_generate_image sample_mirror_image sample_oid_str
             (sample_request false) 10 "Ann" sample_db in
  ∃ story,
    StoryService.value_of r = Ok story ∧
    StoryService.get_story store_ObjectId created_story_id 10 (StoryService.db_of r)
    = (Ok story, StoryService.db_of r, []) ∧
    ∀ other, other ≠ 10%N →
      StoryService.get_story store_ObjectId created_story_id other
        (StoryService.db_of r)
      = (Raise (ForbiddenError "Unauthorized access to this story"),
         StoryService.db_of r, []).
Proof.
  intros r.
  destruct (StoryService.value_of r) as [e|story] eqn:Hv;
    [vm_compute in Hv; discriminate|].
  exists story. split; [reflexivity|].
  apply (create_story_get_story store_ObjectId sample_index four_pages_llm
           sample_json_loads sample_generate_image sample_mirror_image
           sample_oid_str (sample_request false) 10 "Ann" sample_db story
           created_story_id Hv).
  vm_compute in Hv. injection Hv as <-. reflexivity.
Defined.


Lemma create_assignment_reads_whole_story_witness :
  StoryService.calls_of
    (StoryService.create_assignment sample_ObjectId quiz_completion
       sample_json_loads sample_story_id 10 sample_db)
  = [QuestionCompletion "Dragons" "Once"].
Proof.
  apply (create_assignment_reads_whole_story sample_ObjectId quiz_completion
           sample_json_loads sample_story_id 1 10 sample_db sample_story);
    reflexivity.
Defined.

(** ** Story creation: the image of every page *)

Section PageImages.

Import StoryService.

Variable similarity_search : string -> Z -> result (list RAGService.Document).
Variable llm : StoryGraph.Prompt -> string + string.
Variable json_loads : string -> option json.
Variable generate_image : json -> Z -> string -> option string.
Variable mirror_image : string -> option string.
Variable oid_str : oid -> string.

(** The image results after the gather, position by position: the tasks
    carry increasing positions, so no result overwrites another. *)
Lemma keep_images_lookup (story_data : CreateStoryRequest) (pages : list json) :
  ∀ (k : nat) (tasks : list (nat * json)) (acc : gmap nat string) (i : nat),
    image_tasks_from k pages = Ok tasks →
    (∀ j, k ≤ j → acc !! j = None) →
    foldl (keep_image generate_image (req_child_age story_data)
             (req_story_title story_data)) acc tasks !! i
    = if decide (k ≤ i) then
        match pages !! (i - k) with
        | Some page =>
            if (i mod 3 =? 0) || (i mod 3 =? 2)
            then match Json.get page "pageText" (JString "") with
                 | inr page_text => kept_image generate_image story_data page_text
                 | inl _ => None
                 end
            else None
        | None => None
        end
      else acc !! i.
Proof.
  induction pages as [|page pages IH]; intros k tasks acc i Htasks Hacc.
  - injection Htasks as <-. cbn [foldl].
    destruct (decide (k ≤ i)) as [Hk|Hk]; [|reflexivity].
    rewrite lookup_nil. apply Hacc, Hk.
  - destruct page as [| | | | |fields]; try discriminate.
    rewrite image_tasks_from_dict in Htasks.
    destruct (image_tasks_from (S k) pages) as [e|rest] eqn:Hrest; [discriminate|].
    unfold bind in Htasks. cbv beta iota in Htasks.
    apply (inj inr) in Htasks. subst tasks.
    set (page_text := match fields !! "pageText" with
                      | Some v => v
                      | None => JString ""
                      end).
    set (acc' := if (k mod 3 =? 0) || (k mod 3 =? 2)
                 then keep_image generate_image (req_child_age story_data)
                        (req_story_title story_data) acc (k, page_text)
                 else acc).
    assert (∀ j, j ≠ k → acc' !! j = acc !! j) as Hother.
    { intros j Hj. subst acc'. destruct ((k mod 3 =? 0) || (k mod 3 =? 2));
        [|reflexivity].
      unfold keep_image. cbn [fst snd].
      destruct (generate_image _ _ _) as [url|]; [|reflexivity].
      destruct (decide (url = "")); [reflexivity|].
      apply lookup_insert_ne. congruence. }
    assert (acc' !! k
            = if (k mod 3 =? 0) || (k mod 3 =? 2)
              then kept_image generate_image story_data page_text else None)
      as Hhere.
    { subst acc'. destruct ((k mod 3 =? 0) || (k mod 3 =? 2));
        [|apply Hacc; lia].
      unfold keep_image, kept_image. cbn [fst snd].
      destruct (generate_image _ _ _) as [url|]; [|apply Hacc; lia].
      destruct (decide (url = "")); [apply Hacc; lia|].
      apply lookup_insert_eq. }
    assert (foldl (keep_image generate_image (req_child_age story_data)
                     (req_story_title story_data)) acc
              (if (k mod 3 =? 0) || (k mod 3 =? 2)
               then (k, page_text) :: rest else rest)
            = foldl (keep_image generate_image (req_child_age story_data)
                       (req_story_title story_data)) acc' rest) as ->.
    { subst acc'. destruct ((k mod 3 =? 0) || (k mod 3 =? 2)); reflexivity. }
    rewrite (IH (S k) rest acc' i Hrest)
      by (intros j Hj; rewrite Hother by lia; apply Hacc; lia).
    destruct (decide (S k ≤ i)) as [Hlt|Hlt].
    + rewrite decide_True by lia.
      replace (i - k) with (S (i - S k)) by lia. reflexivity.
    + destruct (decide (k ≤ i)) as [Hle|Hle].
      * assert (i = k) as -> by lia. rewrite Nat.sub_diag. exact Hhere.
      * apply Hother. lia.
Qed.

(** The second loop, page by page. *)
Lemma build_pages_lookup (image_results : gmap nat string) (pages : list json) :
  ∀ (k : nat) (story_contents : list PageContent) (j : nat) (stored : PageContent),
    build_pages mirror_image image_results k pages = Ok story_contents →
    story_contents !! j = Some stored →
    ∃ page,
      pages !! j = Some page ∧
      Json.get page "pageText" (JString "") = Ok (JString (page_text stored)) ∧
      page_image stored
      = match image_results !! (k + j) with
        | Some url => Some (match mirror_image url with
                            | Some durable => durable
                            | None => url
                            end)
        | None => None
        end.
Proof.
  induction pages as [|page pages IH]; intros k story_contents j stored.
  - intros [= <-] Hj. rewrite lookup_nil in Hj. discriminate.
  - simpl. destruct (Json.get page "pageText" (JString "")) as [e|text] eqn:Eg;
      simpl; [discriminate|].
    destruct text as [| | |s| |]; simpl; try discriminate.
    destruct (build_pages mirror_image image_results (S k) pages) as [e|rest] eqn:Eb;
      simpl; [discriminate|].
    intros [= <-] Hj. destruct j as [|j].
    + injection Hj as <-. exists page. rewrite Nat.add_0_r.
      split; [reflexivity|]. split; [exact Eg|reflexivity].
    + cbn [lookup list_lookup] in Hj.
      destruct (IH (S k) rest j stored Eb Hj) as (page' & Hp & Hg & Hi).
      exists page'. split; [exact Hp|]. split; [exact Hg|].
      replace (k + S j) with (S k + j) by lia. exact Hi.
Qed.

(** The second loop fails or not, and stores its texts, whatever the
    images are. *)
Lemma build_pages_texts (mirror_image' : string → option string)
    (pages : list json) :
  ∀ (image_results image_results' : gmap nat string) (k : nat),
    match build_pages mirror_image image_results k pages,
          build_pages mirror_image' image_results' k pages with
    | inr story_contents, inr story_contents' =>
        page_text <$> story_contents = page_text <$> story_contents'
    | inl e, inl e' => e = e'
    | _, _ => False
    end.
Proof.
  induction pages as [|page pages IH]; intros image_results image_results' k;
    [reflexivity|].
  cbn [build_pages].
  destruct (Json.get page "pageText" (JString "")) as [e|text];
    cbn [bind]; [reflexivity|].
  destruct text as [| | |text| |]; cbn [validate_page bind]; try reflexivity.
  specialize (IH image_results image_results' (S k)).
  destruct (build_pages mirror_image image_results (S k) pages) as [e|rest],
           (build_pages mirror_image' image_results' (S k) pages) as [e'|rest'];
    cbn [bind]; try exact IH.
  cbn [fmap list_fmap page_text]. cbn [fmap] in IH. rewrite IH. reflexivity.
Qed.

(** X17. A failed illustration never fails the story: whether
    [create_story] returns, the texts of the pages it returns and the
    exception it raises otherwise are the same whatever the illustration
    capability and the copy to object storage answer, also when they fail
    on every page. The image of every page of a story that [create_story]
    returns is determined by the position and the text of the page: no
    image unless images were requested and the position is 0 or 2 modulo 3;
    there, the durable copy of the generated image, the generated URL
    itself when the copy failed, and no image when the generation failed or
    gave an empty URL. *)
Theorem create_story_page_images (story_data : CreateStoryRequest) (user_id : oid)
    (author_name : string) (db : Db) :
  (∀ (generate_image' : json → Z → string → option string)
     (mirror_image' : string → option string),
     match value_of (create_story similarity_search llm json_loads generate_image
                       mirror_image oid_str story_data user_id author_name db),
           value_of (create_story similarity_search llm json_loads generate_image'
                       mirror_image' oid_str story_data user_id author_name db)
     with
     | inr story, inr story' =>
         page_text <$> story_content story = page_text <$> story_content story'
     | inl e, inl e' => e = e'
     | _, _ => False
     end) ∧
  (∀ story : Story,
     value_of (create_story similarity_search llm json_loads generate_image
                 mirror_image oid_str story_data user_id author_name db)
     = Ok story →
     ∀ (i : nat) (stored : PageContent),
       story_content story !! i = Some stored →
       page_image stored
       = stored_image generate_image mirror_image story_data i
           (JString (page_text stored))).
Proof.
  split.
  - intros generate_image' mirror_image'.
    rewrite !create_story_unfold. unfold value_of. cbn zeta.
    destruct (generated_story_of _ _ _ _ _ _).1 as [e|generated_story];
      [reflexivity|].
    destruct (generated_pages generated_story) as [e|pages]; [reflexivity|].
    destruct (image_tasks (req_include_image story_data) pages) as [e|tasks];
      [reflexivity|].
    pose proof (build_pages_texts mirror_image' pages
                  (foldl (keep_image generate_image (req_child_age story_data)
                            (req_story_title story_data)) ∅ tasks)
                  (foldl (keep_image generate_image' (req_child_age story_data)
                            (req_story_title story_data)) ∅ tasks) 0) as Htexts.
    destruct (build_pages mirror_image _ 0 pages) as [e|story_contents],
             (build_pages mirror_image' _ 0 pages) as [e'|story_contents'];
      cbn [fst]; try exact Htexts.
    congruence.
  - intros story.
    rewrite create_story_unfold. unfold value_of. cbn zeta.
    destruct (generated_story_of _ _ _ _ _ _).1 as [e|generated_story];
      [discriminate|].
    destruct (generated_pages generated_story) as [e|pages]; [discriminate|].
    destruct (image_tasks (req_include_image story_data) pages) as [e|tasks] eqn:Ht;
      [discriminate|].
    destruct (build_pages _ _ 0 pages) as [e|story_contents] eqn:Hb; [discriminate|].
    cbn [fst]. intros [= <-] i stored Hi. cbn [story_content] in Hi.
    destruct (build_pages_lookup _ _ _ _ _ _ Hb Hi) as (page & Hp & Hg & Himg).
    rewrite Himg. cbn [Nat.add]. unfold stored_image.
    unfold image_tasks in Ht. destruct (req_include_image story_data); cbn [andb].
    + rewrite (keep_images_lookup story_data pages 0 tasks ∅ i Ht)
        by (intros; apply lookup_empty).
      rewrite decide_True by lia. rewrite Nat.sub_0_r, Hp, Hg.
      destruct ((i mod 3 =? 0) || (i mod 3 =? 2)); reflexivity.
    + injection Ht as <-. cbn [foldl]. rewrite lookup_empty. reflexivity.
Qed.

End PageImages.

(** Four pages with images requested: the illustration of the first page
    fails and no copy to object storage succeeds. The story is returned
    with the four texts it has when every illustration and copy succeeds;
    its first page has no image and its third page keeps the generated
    URL. *)
Lemma create_story_page_images_witness :
  let r := StoryService.create_story sample_index four_pages_llm sample_json_loads
             moody_generate_image failing_mirror_image sample_oid_str
             (sample_request true) 10 "Ann" sample_db in
  let r' := StoryService.create_story sample_index four_pages_llm sample_json_loads
              sample_generate_image sample_mirror_image sample_oid_str
              (sample_request true) 10 "Ann" sample_db in
  match StoryService.value_of r, StoryService.value_of r' with
  | inr story, inr story' =>
      StoryService.page_text <$> StoryService.story_content story
      = StoryService.page_text <$> StoryService.story_content story'
  | inl e, inl e' => e = e'
  | _, _ => False
  end ∧
  ∃ story first third,
    StoryService.value_of r = Ok story ∧
    StoryService.page_text <$> StoryService.story_content story
    = ["One"; "Two"; "Three"; "Four"] ∧
    StoryService.story_content story !! 0 = Some first ∧
    StoryService.story_content story !! 2 = Some third ∧
    StoryService.page_image first
    = stored_image moody_generate_image failing_mirror_image (sample_request true)
        0 (JString (StoryService.page_text first)) ∧
    StoryService.page_image first = None ∧
    StoryService.page_image third
    = stored_image moody_generate_image failing_mirror_image (sample_request true)
        2 (JString (StoryService.page_text third)) ∧
    StoryService.page_image third = Some "https://images.example/generated.png".
Proof.
  intros r r'.
  pose proof (create_story_page_images sample_index four_pages_llm
                sample_json_loads moody_generate_image failing_mirror_image
                sample_oid_str (sample_request true) 10 "Ann" sample_db)
    as [Hsame Himages].
  split; [exact (Hsame sample_generate_image sample_mirror_image)|].
  destruct (StoryService.value_of r) as [e|story] eqn:Hv;
    [vm_compute in Hv; discriminate|].
  pose proof (Himages story Hv) as Himage.
  destruct (StoryService.story_content story !! 0) as [first|] eqn:Hfirst;
    [|vm_compute in Hv; injection Hv as <-; discriminate].
  destruct (StoryService.story_content story !! 2) as [third|] eqn:Hthird;
    [|vm_compute in Hv; injection Hv as <-; discriminate].
  exists story, first, third.
  split; [reflexivity|].
  split; [vm_compute in Hv; injection Hv as <-; reflexivity|].
  split; [exact Hfirst|]. split; [exact Hthird|].
  split; [exact (Himage 0 first Hfirst)|].
  split; [vm_compute in Hv; injection Hv as <-; injection Hfirst as <-;
          reflexivity|].
  split; [exact (Himage 2 third Hthird)|].
  vm_compute in Hv. injection Hv as <-. injection Hthird as <-. reflexivity.
Defined.

(** ** Recordings *)

Section Recordings.

Import AudioUpload.

Variable ObjectId : string -> option StoryService.oid.
Variable bucket_name : string.
Variable aws_region : string.
Variable put_object_error : string -> option PutObjectError.
Variable transcriber : string -> result string.
Variable completion : string -> string -> result string.
Variable wer : string -> string -> result float.

(** What a successful upload has done. *)
Lemma upload_audio_to_s3_returns (audio_file : list Byte.byte)
    (file_name story_id : string) (st : Store) (audio : Audio) :
  (upload_audio_to_s3 ObjectId bucket_name aws_region put_object_error
     audio_file file_name story_id st).1 = Ok audio →
  ∃ s story,
    ObjectId story_id = Some s ∧
    stories st !! s = Some story ∧
    audio = mkAudio (next_id st)
              (s3_url bucket_name aws_region ("audio" +:+ "/" +:+ file_name))
              file_name (Some ("audio" +:+ "/" +:+ file_name)) (Some bucket_name)
              None None (whole_story_of story) (Some s) ∧
    (upload_audio_to_s3 ObjectId bucket_name aws_region put_object_error
       audio_file file_name story_id st).2
    = mkStore (stories st) (<[next_id st := audio]> (audios st))
        (<["audio" +:+ "/" +:+ file_name := audio_file]> (bucket st))
        (N.succ (next_id st)).
Proof.
  unfold upload_audio_to_s3, upload_audio_to_s3_body, upload_audio.
  destruct (ObjectId story_id) as [s|]; [|discriminate].
  destruct (stories st !! s) as [story|] eqn:Hstory; [|discriminate].
  destruct (put_object_error _) as [[message|message]|]; [discriminate..|].
  cbn [fst snd stories audios bucket next_id]. intros [= <-].
  exists s, story. repeat split; assumption.
Qed.

(** X18. Two recordings uploaded under the same file name share one
    object of the bucket: both documents carry the same path, the object
    holds the second upload, and the document of the first upload still
    points at it. The content of the first recording is gone, for any pair
    of stories. *)
Theorem upload_audio_to_s3_same_name (first second : list Byte.byte)
    (file_name story_id1 story_id2 : string) (st : Store) (a1 a2 : Audio) :
  let r1 := upload_audio_to_s3 ObjectId bucket_name aws_region put_object_error
              first file_name story_id1 st in
  let r2 := upload_audio_to_s3 ObjectId bucket_name aws_region put_object_error
              second file_name story_id2 r1.2 in
  r1.1 = Ok a1 →
  r2.1 = Ok a2 →
  file_path a1 = file_path a2 ∧
  s3_key a1 = s3_key a2 ∧
  s3_key a2 = Some ("audio" +:+ "/" +:+ file_name) ∧
  bucket r2.2 !! ("audio" +:+ "/" +:+ file_name) = Some second ∧
  audios r2.2 !! audio_id a1 = Some a1 ∧
  audios r2.2 !! audio_id a2 = Some a2 ∧
  audio_id a1 ≠ audio_id a2.
Proof.
  intros r1 r2 H1 H2.
  destruct (upload_audio_to_s3_returns _ _ _ _ _ H1)
    as (s1 & story1 & _ & _ & Ha1 & Hst1).
  destruct (upload_audio_to_s3_returns _ _ _ _ _ H2)
    as (s2 & story2 & _ & _ & Ha2 & Hst2).
  fold r1 in Hst1. fold r2 in Hst2. rewrite Hst2, Hst1.
  cbn [bucket audios next_id].
  assert (audio_id a1 = next_id st) as Hid1 by (rewrite Ha1; reflexivity).
  assert (audio_id a2 = N.succ (next_id st)) as Hid2
    by (rewrite Ha2, Hst1; reflexivity).
  repeat split.
  - rewrite Ha1, Ha2. reflexivity.
  - rewrite Ha1, Ha2. reflexivity.
  - rewrite Ha2. reflexivity.
  - apply lookup_insert_eq.
  - rewrite Hst1 in Ha2. cbn [next_id] in Ha2.
    rewrite lookup_insert_ne by (rewrite Hid1; lia).
    rewrite Hid1. apply lookup_insert_eq.
  - rewrite Hst1 in Ha2. cbn [next_id] in Ha2.
    rewrite Hid2. apply lookup_insert_eq.
  - rewrite Hid1, Hid2. lia.
Qed.


(** X20. A recording uploaded for a story whose reading text is empty (a
    story without pages, or with one empty page) is accepted and stored, and
    can never be scored: [process_audio] refuses it whatever the recording
    holds and whatever the transcriber and the correction would answer. *)
Theorem upload_then_process_empty_text (audio_file : list Byte.byte)
    (file_name story_id : string) (s : StoryService.oid)
    (story : StoryService.Story) (st : Store) (audio : Audio) :
  (upload_audio_to_s3 ObjectId bucket_name aws_region put_object_error
     audio_file file_name story_id st).1 = Ok audio →
  ObjectId story_id = Some s →
  stories st !! s = Some story →
  whole_story_of story = "" →
  AudioService.process_audio transcriber completion wer
    (Some (as_processed audio))
  = Raise (Failed "Failed to process audio"
             (Exception "Story content not found for audio")).
Proof.
  intros Hup Hid Hstory Hempty.
  destruct (upload_audio_to_s3_returns _ _ _ _ _ Hup)
    as (s' & story' & Hid' & Hstory' & -> & _).
  rewrite Hid in Hid'. injection Hid' as <-.
  rewrite Hstory in Hstory'. injection Hstory' as <-.
  unfold AudioService.process_audio, AudioService.process_audio_body, as_processed.
  cbn [AudioService.whole_story whole_story]. rewrite Hempty. reflexivity.
Qed.

(** X21. When the correction of the transcript fails, [process_audio]
    scores the raw transcript: the outcome is the one of a correction that
    returns the transcript unchanged. A failing correction never fails the
    processing. *)
Theorem process_audio_enhancement_fallback (audio : AudioService.Audio)
    (transcript : string) (e : exn) :
  transcriber (AudioService.file_path audio) = Ok transcript →
  completion transcript (AudioService.whole_story audio) = Raise e →
  AudioService.process_audio transcriber completion wer (Some audio)
  = AudioService.process_audio transcriber (fun transcript _ => Ok transcript)
      wer (Some audio).
Proof.
  intros Ht Hc.
  unfold AudioService.process_audio, AudioService.process_audio_body,
    AudioService.transcribe_audio, AudioService.enhance_transcript.
  destruct (decide (AudioService.whole_story audio = "")); [reflexivity|].
  rewrite Ht. cbn [bind AudioService.whole_story AudioService.file_path].
  rewrite Hc. reflexivity.
Qed.

End Recordings.

Lemma upload_audio_to_s3_same_name_witness :
  let r1 := AudioUpload.upload_audio_to_s3 recording_ObjectId "bucket" "eu-west-1"
              s3_stores first_take "take.wav" sample_story_id recording_store in
  let r2 := AudioUpload.upload_audio_to_s3 recording_ObjectId "bucket" "eu-west-1"
              s3_stores second_take "take.wav" "0000000000000000000000a2" r1.2 in
  ∃ a1 a2,
    r1.1 = Ok a1 ∧ r2.1 = Ok a2 ∧
    AudioUpload.file_path a1 = AudioUpload.file_path a2 ∧
    AudioUpload.s3_key a1 = AudioUpload.s3_key a2 ∧
    AudioUpload.s3_key a2 = Some ("audio" +:+ "/" +:+ "take.wav") ∧
    AudioUpload.bucket r2.2 !! ("audio" +:+ "/" +:+ "take.wav") = Some second_take ∧
    AudioUpload.audios r2.2 !! AudioUpload.audio_id a1 = Some a1 ∧
    AudioUpload.audios r2.2 !! AudioUpload.audio_id a2 = Some a2 ∧
    AudioUpload.audio_id a1 ≠ AudioUpload.audio_id a2.
Proof.
  intros r1 r2.
  destruct r1.1 as [e|a1] eqn:H1; [vm_compute in H1; discriminate|].
  destruct r2.1 as [e|a2] eqn:H2; [vm_compute in H2; discriminate|].
  exists a1, a2. split; [reflexivity|]. split; [reflexivity|].
  exact (upload_audio_to_s3_same_name recording_ObjectId "bucket" "eu-west-1"
           s3_stores first_take second_take "take.wav" sample_story_id
           "0000000000000000000000a2" recording_store a1 a2 H1 H2).
Defined.

(** A bucket that refuses, and a bucket that cannot be reached: the two
    failures differ, and the store stays as it was. *)
Example upload_audio_to_s3_refused :
  AudioUpload.upload_audio_to_s3 recording_ObjectId "bucket" "eu-west-1"
    s3_refuses first_take "take.wav" sample_story_id recording_store
  = (Raise (Failed "Failed to upload audio"
              (Failed "Failed to upload file to S3" (UpstreamError "AccessDenied"))),
     recording_store).
Proof. reflexivity. Qed.

Example upload_audio_to_s3_unreachable :
  AudioUpload.upload_audio_to_s3 recording_ObjectId "bucket" "eu-west-1"
    s3_unreachable first_take "take.wav" sample_story_id recording_store
  = (Raise (Failed "Failed to upload audio"
              (UpstreamError "Could not connect to the endpoint URL")),
     recording_store).
Proof. reflexivity. Qed.

Lemma upload_then_process_empty_text_witness :
  let r := AudioUpload.upload_audio_to_s3 recording_ObjectId "bucket" "eu-west-1"
             s3_stores first_take "take.wav" "0000000000000000000000a2"
             recording_store in
  ∃ audio,
    r.1 = Ok audio ∧
    AudioService.process_audio fox_transcriber failing_completion quotient_wer
      (Some (AudioUpload.as_processed audio))
    = Raise (Failed "Failed to process audio"
               (Exception "Story content not found for audio")).
Proof.
  intros r.
  destruct r.1 as [e|audio] eqn:Hup; [vm_compute in Hup; discriminate|].
  exists audio. split; [reflexivity|].
  apply (upload_then_process_empty_text recording_ObjectId "bucket" "eu-west-1"
           s3_stores fox_transcriber failing_completion quotient_wer
           first_take "take.wav"
           "0000000000000000000000a2" 2 pageless_story recording_store audio Hup);
    reflexivity.
Defined.

Lemma process_audio_enhancement_fallback_witness :
  AudioService.process_audio fox_transcriber failing_completion quotient_wer
    (Some fox_audio)
  = AudioService.process_audio fox_transcriber (fun transcript _ => Ok transcript)
      quotient_wer (Some fox_audio).
Proof.
  apply (process_audio_enhancement_fallback fox_transcriber failing_completion
           quotient_wer fox_audio "The quick red fox."
           (UpstreamError "completion unavailable"));
    reflexivity.
Defined.

(** ** The library of uploaded books *)

Section StringMarker.

Import PyStr.

(** Whether [s] starts with [sep] is decided by its first characters. *)
Lemma startswith_app_long (sep x k : string) :
  String.length sep ≤ String.length x →
  startswith sep (x +:+ k) = startswith sep x.
Proof.
  revert x. induction sep as [|a sep IH]; intros x Hlen; [reflexivity|].
  destruct x as [|b x]; [simpl in Hlen; lia|].
  rewrite str_app_cons. cbn [startswith].
  destruct (Ascii.eqb a b); [|reflexivity]. apply IH. simpl in Hlen. lia.
Qed.

(** A marker that occurs in [p +:+ sep] only at its end is where
    [p +:+ sep +:+ k] is cut. *)
Lemma cut_app_marker (sep p k : string) :
  cut sep (p +:+ sep) = Some (p, "") →
  cut sep (p +:+ sep +:+ k) = Some (p, k).
Proof.
  induction p as [|c p IH]; intros Hcut.
  - rewrite !str_app_nil_l. apply cut_prefix.
  - rewrite str_app_cons in Hcut |- *. rewrite cut_unfold in Hcut |- *.
    assert (startswith sep (String c (p +:+ sep +:+ k))
            = startswith sep (String c (p +:+ sep))) as ->.
    { rewrite <- (startswith_app_long sep (String c (p +:+ sep)) k)
        by (simpl; rewrite str_length_app; lia).
      rewrite str_app_cons, str_app_assoc. reflexivity. }
    destruct (startswith sep (String c (p +:+ sep))); [discriminate|].
    destruct (cut sep (p +:+ sep)) as [[before after]|] eqn:Hinner;
      [|discriminate].
    injection Hcut as -> ->. rewrite (IH eq_refl). reflexivity.
Qed.

(** [url.split(marker)] of a URL with the marker once, between a host and
    a key. *)
Lemma split_marker (sep host key : string) :
  sep ≠ "" →
  cut sep (host +:+ sep) = Some (host, "") →
  contains sep key = false →
  split sep (host +:+ sep +:+ key) = [host; key].
Proof.
  intros Hsep Hhost Hkey.
  rewrite (split_unfold _ _ Hsep), (cut_app_marker _ _ _ Hhost).
  rewrite (split_unfold _ _ Hsep). apply cut_None in Hkey. rewrite Hkey.
  reflexivity.
Qed.

End StringMarker.

Section Books.

Import RAGService BookService.

Variable ObjectId : string -> option StoryService.oid.
Variable oid_str : StoryService.oid -> string.
Variable splitext_ext : string -> string.
Variable lower : string -> string.
Variable invalid_type_message : string.
Variable bucket_name : string.
Variable aws_region : string.
Variable put_object_error : string -> option string.
Variable delete_object_error : string -> option exn.
Variable extract_text_from_pdf : list Byte.byte -> result string.
Variable extract_text_from_epub : list Byte.byte -> result string.
Variable extract_text_from_txt : list Byte.byte -> result string.
Variable split_text : string -> list string.
Variable add_documents_error : list Document -> option exn.

(** What a successful upload has checked and written. *)
Lemma upload_book_returns (file : UploadFile) (user_id : string) (child_age : Z)
    (metadata : option UploadBookMetadata) (unique_id : string) (w : World)
    (book : Book) :
  (upload_book ObjectId oid_str splitext_ext lower invalid_type_message
     bucket_name aws_region put_object_error extract_text_from_pdf
     extract_text_from_epub extract_text_from_txt split_text add_documents_error
     file user_id child_age metadata unique_id w).1 = Ok book →
  ∃ text body,
    let ext := lower (splitext_ext (filename file)) in
    let key := book_key user_id unique_id ext in
    let docs := RAGIndexing.book_documents split_text (oid_str (book_id book))
                  (book_title book) (book_author book) text user_id child_age
                  None in
    ext ∈ ALLOWED_EXTENSIONS ∧
    (Z.of_nat (length (content file)) <= MAX_FILE_SIZE)%Z ∧
    put_object_error key = None ∧
    extract_text extract_text_from_pdf extract_text_from_epub
      extract_text_from_txt file ext = Ok text ∧ text ≠ "" ∧
    ObjectId user_id = Some (uploaded_by book) ∧
    body.1 = content file ∧
    book_id book = next_id w ∧
    file_url book = file_url_of bucket_name aws_region key ∧
    file_type book = PyStr.replace "." "" ext ∧
    file_size book = Z.of_nat (length (content file)) ∧
    BookService.child_age book = child_age ∧
    is_indexed book = bool_decide (add_documents_error docs = None) ∧
    (upload_book ObjectId oid_str splitext_ext lower invalid_type_message
     bucket_name aws_region put_object_error extract_text_from_pdf
     extract_text_from_epub extract_text_from_txt split_text add_documents_error
     file user_id child_age metadata unique_id w).2
    = mkWorld (<[next_id w := book]> (books w)) (<[key := body]> (objects w))
        (if is_indexed book then index w ++ docs else index w)
        (N.succ (next_id w)).
Proof.
  unfold upload_book, _validate_file, _upload_to_s3.
  destruct (decide (lower (splitext_ext (filename file)) ∈ ALLOWED_EXTENSIONS))
    as [Hext|]; [|discriminate].
  destruct (decide (MAX_FILE_SIZE < Z.of_nat (length (content file)))%Z)
    as [|Hsize];
    [discriminate|].
  fold (book_key user_id unique_id (lower (splitext_ext (filename file)))).
  destruct (put_object_error _) as [|] eqn:Hput; [discriminate|].
  destruct (extract_text _ _ _ file _) as [e|text] eqn:Htext; [discriminate|].
  destruct (decide (text = "")) as [|Hne]; [discriminate|].
  destruct (ObjectId user_id) as [uploader|] eqn:Hid; [|discriminate].
  unfold add_book_to_index. cbn [book_id next_id books objects index].
  destruct (add_documents_error _) as [e|] eqn:Hadd; cbn [fst snd];
    intros [= <-]; eexists text, _;
    cbn [book_id book_title book_author uploaded_by file_url file_type file_size
         BookService.child_age is_indexed books objects index next_id];
    rewrite Hadd.
  - rewrite bool_decide_eq_false_2 by discriminate.
    repeat split; try reflexivity; try assumption; lia.
  - rewrite bool_decide_eq_true_2 by reflexivity. rewrite insert_insert_eq.
    repeat split; try reflexivity; try assumption; lia.
Qed.

(** X22. A book that [upload_book] returns has passed every check: its
    stored type is [pdf], [txt] or [epub], its size is the size of the file
    and at most ten mebibytes, its owner is the uploading user; the file is
    in the bucket under the key [books/<user>/<uuid><ext>] its URL names, the
    document is stored under its id, and it is flagged as indexed exactly
    when the vector store accepted its chunks, which are then the only
    addition to the index. *)
Theorem upload_book_contract (file : UploadFile) (user_id : string) (child_age : Z)
    (metadata : option UploadBookMetadata) (unique_id : string) (w : World)
    (book : Book) :
  let r := upload_book ObjectId oid_str splitext_ext lower invalid_type_message
     bucket_name aws_region put_object_error extract_text_from_pdf
     extract_text_from_epub extract_text_from_txt split_text add_documents_error
     file user_id child_age metadata unique_id w in
  let ext := lower (splitext_ext (filename file)) in
  let key := book_key user_id unique_id ext in
  r.1 = Ok book →
  file_type book ∈ ["pdf"; "txt"; "epub"] ∧
  file_size book = Z.of_nat (length (content file)) ∧
  (file_size book <= MAX_FILE_SIZE)%Z ∧
  ObjectId user_id = Some (uploaded_by book) ∧
  file_url book = file_url_of bucket_name aws_region key ∧
  (∃ content_type, objects r.2 !! key = Some (content file, content_type)) ∧
  books r.2 !! book_id book = Some book ∧
  ∃ text,
    extract_text extract_text_from_pdf extract_text_from_epub
      extract_text_from_txt file ext = Ok text ∧ text ≠ "" ∧
    let docs := RAGIndexing.book_documents split_text (oid_str (book_id book))
                  (book_title book) (book_author book) text user_id child_age
                  None in
    is_indexed book = bool_decide (add_documents_error docs = None) ∧
    index r.2 = if is_indexed book then index w ++ docs else index w.
Proof.
  intros r ext key Hok.
  destruct (upload_book_returns _ _ _ _ _ _ _ Hok)
    as (text & body & Hext & Hsize & Hput & Htext & Hne & Hid & Hbody & Hbid
        & Hurl & Htype & Hfsize & Hage & Hindexed & Hw).
  fold r in Hw. fold ext in Hext, Htext, Htype. fold key in Hput, Hurl.
  split.
  { rewrite Htype. unfold ALLOWED_EXTENSIONS in Hext.
    rewrite !elem_of_cons in Hext. rewrite !elem_of_cons.
    destruct Hext as [->|[->|[->|Hnil]]]; [auto|auto|auto|inversion Hnil]. }
  split; [exact Hfsize|]. split; [lia|]. split; [exact Hid|].
  split; [exact Hurl|]. rewrite Hw. cbn [objects books index].
  split.
  { exists body.2. rewrite lookup_insert_eq. destruct body as [b t].
    cbn [fst snd] in *. subst b. reflexivity. }
  split; [rewrite Hbid; apply lookup_insert_eq|].
  exists text. split; [exact Htext|]. split; [exact Hne|].
  split; [exact Hindexed|reflexivity].
Qed.

(** X23. When the file has passed the type and size checks and the bucket
    has accepted it, a later failure of [upload_book] (the text cannot be
    extracted, the extracted text is empty, the user id is malformed) leaves
    the file in the bucket: no book document refers to it and nothing is
    indexed. *)
Theorem upload_book_orphan_object (file : UploadFile) (user_id : string)
    (child_age : Z) (metadata : option UploadBookMetadata) (unique_id : string)
    (w : World) (e : exn) :
  let r := upload_book ObjectId oid_str splitext_ext lower invalid_type_message
     bucket_name aws_region put_object_error extract_text_from_pdf
     extract_text_from_epub extract_text_from_txt split_text add_documents_error
     file user_id child_age metadata unique_id w in
  let ext := lower (splitext_ext (filename file)) in
  let key := book_key user_id unique_id ext in
  ext ∈ ALLOWED_EXTENSIONS →
  (Z.of_nat (length (content file)) <= MAX_FILE_SIZE)%Z →
  put_object_error key = None →
  r.1 = Raise e →
  (∃ content_type, objects r.2 !! key = Some (content file, content_type)) ∧
  books r.2 = books w ∧
  index r.2 = index w ∧
  (extract_text extract_text_from_pdf extract_text_from_epub
      extract_text_from_txt file ext = Raise e ∨
   (extract_text extract_text_from_pdf extract_text_from_epub
      extract_text_from_txt file ext = Ok "" ∧
    e = ValueError "No text content could be extracted from the file") ∨
   (ObjectId user_id = None ∧ e = InvalidId)).
Proof.
  intros r ext key Hext Hsize Hput. subst r.
  unfold upload_book, _validate_file, _upload_to_s3.
  fold ext. rewrite (decide_True _ _ Hext).
  rewrite decide_False by lia. fold (book_key user_id unique_id ext). fold key.
  rewrite Hput.
  destruct (extract_text _ _ _ file ext) as [e'|text] eqn:Htext.
  { cbn [fst snd objects books index]. intros [= <-].
    split; [eexists; apply lookup_insert_eq|]. auto 10. }
  destruct (decide (text = "")) as [->|Hne].
  { cbn [fst snd objects books index]. intros [= <-].
    split; [eexists; apply lookup_insert_eq|]. auto 10. }
  destruct (ObjectId user_id) as [uploader|].
  { unfold add_book_to_index. destruct (add_documents_error _); discriminate. }
  cbn [fst snd objects books index]. intros [= <-].
  split; [eexists; apply lookup_insert_eq|]. auto 10.
Qed.

(** X24. A file of another type than [.pdf], [.txt] or [.epub], or of more
    than ten mebibytes, is refused with a [ValueError] before anything is
    written: the bucket, the documents and the index are as before. *)
Theorem upload_book_rejected (file : UploadFile) (user_id : string)
    (child_age : Z) (metadata : option UploadBookMetadata) (unique_id : string)
    (w : World) :
  lower (splitext_ext (filename file)) ∉ ALLOWED_EXTENSIONS
  ∨ (MAX_FILE_SIZE < Z.of_nat (length (content file)))%Z →
  ∃ message,
    upload_book ObjectId oid_str splitext_ext lower invalid_type_message
     bucket_name aws_region put_object_error extract_text_from_pdf
     extract_text_from_epub extract_text_from_txt split_text add_documents_error
     file user_id child_age metadata unique_id w
    = (Raise (ValueError message), w).
Proof.
  intros Hbad. unfold upload_book, _validate_file, _upload_to_s3.
  destruct (decide (lower (splitext_ext (filename file)) ∈ ALLOWED_EXTENSIONS))
    as [Hext|Hext]; [|eauto].
  destruct Hbad as [Hbad|Hbad]; [contradiction|].
  rewrite (decide_True _ _ Hbad). eauto.
Qed.

Lemma file_url_of_host (object_key : string) :
  file_url_of bucket_name aws_region object_key
  = url_host bucket_name aws_region +:+ amazonaws +:+ object_key.
Proof. unfold file_url_of, url_host. rewrite !str_app_assoc. reflexivity. Qed.

Lemma delete_book_index (book_id user_id : string) (w : World) :
  index (delete_book ObjectId oid_str delete_object_error book_id user_id w).2
  = index w.
Proof.
  unfold delete_book. destruct (ObjectId book_id); [|reflexivity].
  destruct (books w !! _) as [book|]; [|reflexivity].
  destruct (decide _); reflexivity.
Qed.

(** X25. Deleting an uploaded book undoes what the upload stored: the
    owner's [delete_book] finds in the file URL the very key the upload
    wrote, removes that object from the bucket and the document from the
    store. The key is read back from the URL by cutting at
    [.amazonaws.com/]: this needs the marker to occur in the URL only
    there. *)
Theorem delete_book_removes_upload (file : UploadFile) (user_id : string)
    (child_age : Z) (metadata : option UploadBookMetadata)
    (unique_id book_id_str : string) (w : World) (book : Book) :
  let r1 := upload_book ObjectId oid_str splitext_ext lower invalid_type_message
     bucket_name aws_region put_object_error extract_text_from_pdf
     extract_text_from_epub extract_text_from_txt split_text add_documents_error
     file user_id child_age metadata unique_id w in
  let key := book_key user_id unique_id (lower (splitext_ext (filename file))) in
  let r2 := delete_book ObjectId oid_str delete_object_error book_id_str user_id
              r1.2 in
  r1.1 = Ok book →
  ObjectId book_id_str = Some (book_id book) →
  oid_str (uploaded_by book) = user_id →
  PyStr.cut amazonaws (url_host bucket_name aws_region +:+ amazonaws)
  = Some (url_host bucket_name aws_region, "") →
  PyStr.contains amazonaws key = false →
  delete_object_error key = None →
  r2.1 = Ok tt ∧
  books r2.2 !! book_id book = None ∧
  objects r2.2 !! key = None ∧
  books r2.2 = delete (book_id book) (books r1.2).
Proof.
  intros r1 key r2 Hok Hid Hown Hhost Hkey Hdel.
  destruct (upload_book_returns _ _ _ _ _ _ _ Hok)
    as (text & body & _ & _ & _ & _ & _ & _ & _ & Hbid & Hurl & _ & _ & _ & _ & Hw).
  fold r1 in Hw. fold key in Hurl, Hw.
  assert (books r1.2 !! book_id book = Some book) as Hstored
    by (rewrite Hw, Hbid; apply lookup_insert_eq).
  subst r2. unfold delete_book. rewrite Hid, Hstored.
  rewrite decide_False by (intros Hne; apply Hne, Hown).
  rewrite Hurl, file_url_of_host.
  rewrite (split_marker amazonaws _ key ltac:(discriminate) Hhost Hkey).
  rewrite Hdel. cbn [fst snd books objects].
  split; [reflexivity|]. split; [apply lookup_delete_eq|].
  split; [apply lookup_delete_eq|reflexivity].
Qed.

(** X26. Deleting a book does not reach the vector index: after the
    owner has deleted an indexed book, the document is gone from the store
    while every chunk of the book is still in the index and still passes the
    owner, age and type checks of the library retrieval for the uploader. *)
Theorem deleted_book_still_retrieved (file : UploadFile) (user_id : string)
    (child_age : Z) (metadata : option UploadBookMetadata)
    (unique_id book_id_str deleting_user : string) (w : World) (book : Book) :
  let r1 := upload_book ObjectId oid_str splitext_ext lower invalid_type_message
     bucket_name aws_region put_object_error extract_text_from_pdf
     extract_text_from_epub extract_text_from_txt split_text add_documents_error
     file user_id child_age metadata unique_id w in
  let r2 := delete_book ObjectId oid_str delete_object_error book_id_str
              deleting_user r1.2 in
  r1.1 = Ok book →
  is_indexed book = true →
  ObjectId book_id_str = Some (book_id book) →
  r2.1 = Ok tt →
  books r2.2 !! book_id book = None ∧
  ∃ text,
    extract_text extract_text_from_pdf extract_text_from_epub
      extract_text_from_txt file (lower (splitext_ext (filename file))) = Ok text ∧
    ∀ doc,
      doc ∈ RAGIndexing.book_documents split_text (oid_str (book_id book))
              (book_title book) (book_author book) text user_id child_age None →
      doc ∈ index r2.2 ∧
      ∀ include_stories,
        library_match user_id child_age true include_stories doc = true.
Proof.
  intros r1 r2 Hok Hindexed Hid Hdeleted.
  destruct (upload_book_returns _ _ _ _ _ _ _ Hok)
    as (text & body & _ & _ & _ & Htext & _ & _ & _ & Hbid & _ & _ & _ & _ & _ & Hw).
  fold r1 in Hw. rewrite Hindexed in Hw.
  split.
  { subst r2. revert Hdeleted. unfold delete_book. rewrite Hid.
    destruct (books r1.2 !! book_id book) as [stored|]; [|discriminate].
    destruct (decide _); [discriminate|]. intros _. apply lookup_delete_eq. }
  exists text. split; [exact Htext|]. intros doc Hdoc. split.
  - subst r2. rewrite delete_book_index, Hw. cbn [index].
    apply elem_of_app. right. exact Hdoc.
  - intros include_stories.
    destruct (book_documents_tags split_text _ _ _ _ _ _ _ Hdoc) as (Hu & Ha & Ht).
    rewrite (library_match_tagged doc user_id "book" child_age user_id child_age
               true include_stories Hu Ha Ht).
    rewrite !bool_decide_eq_true_2 by reflexivity.
    rewrite (bool_decide_eq_false_2 ("book" = "story")) by discriminate.
    reflexivity.
Qed.

(** X27. The delete route answers neither 400 nor 404. A malformed book
    id is answered with 500 (the 400 raised for it is caught by the route's
    own handler); a book that does not exist is answered with 403 like a
    book of somebody else; in all three cases nothing is deleted. Only the
    owner's request succeeds, and it removes the document. *)
Theorem delete_book_route_status (book_id_str : string)
    (current_user_id : StoryService.oid) (w : World) :
  let r := BooksRouter.delete_book ObjectId oid_str delete_object_error
             book_id_str current_user_id w in
  match r.1 with
  | inl h =>
      r.2 = w ∧
      match ObjectId book_id_str with
      | None => h = BooksRouter.mkHTTPException 500 "Failed to delete book"
      | Some i =>
          match books w !! i with
          | None => h = BooksRouter.mkHTTPException 403 "Book not found"
          | Some book =>
              oid_str (uploaded_by book) ≠ oid_str current_user_id ∧
              h = BooksRouter.mkHTTPException 403 "Unauthorized to delete this book"
          end
      end
  | inr _ =>
      ∃ i book, ObjectId book_id_str = Some i ∧ books w !! i = Some book ∧
                oid_str (uploaded_by book) = oid_str current_user_id ∧
                books r.2 = delete i (books w) ∧ index r.2 = index w
  end.
Proof.
  intros r. subst r.
  unfold BooksRouter.delete_book, BooksRouter.delete_book_body, delete_book.
  destruct (ObjectId book_id_str) as [i|]; [|cbn; auto].
  destruct (books w !! i) as [book|] eqn:Hbook; [|cbn; auto].
  destruct (decide (oid_str (uploaded_by book) ≠ oid_str current_user_id))
    as [Hne|Heq]; [cbn; auto|].
  cbn [fst snd books index]. exists i, book.
  repeat split; try reflexivity; try assumption.
  destruct (decide (oid_str (uploaded_by book) = oid_str current_user_id));
    [assumption|contradiction].
Qed.

End Books.

Lemma upload_book_contract_witness :
  let r := sample_upload dragons_file in
  let key := book_key reader_id "6f1c" ".txt" in
  ∃ book,
    r.1 = Ok book ∧
    BookService.file_type book ∈ ["pdf"; "txt"; "epub"] ∧
    BookService.file_size book = 2%Z ∧
    (BookService.file_size book <= BookService.MAX_FILE_SIZE)%Z ∧
    book_ObjectId reader_id = Some (BookService.uploaded_by book) ∧
    BookService.file_url book = BookService.file_url_of "bucket" "eu-west-1" key ∧
    (∃ content_type,
       BookService.objects r.2 !! key
       = Some (BookService.content dragons_file, content_type)) ∧
    BookService.books r.2 !! BookService.book_id book = Some book ∧
    ∃ text,
      BookService.extract_text no_extractor no_extractor sample_extract_txt
        dragons_file ".txt" = Ok text ∧ text ≠ "" ∧
      let docs := RAGIndexing.book_documents one_chunk
                    (book_oid_str (BookService.book_id book))
                    (BookService.book_title book) (BookService.book_author book)
                    text reader_id 7 None in
      BookService.is_indexed book = bool_decide (index_accepts docs = None) ∧
      BookService.index r.2
      = if BookService.is_indexed book
        then BookService.index book_world ++ docs
        else BookService.index book_world.
Proof.
  intros r key.
  destruct r.1 as [e|book] eqn:Hok; [vm_compute in Hok; discriminate|].
  exists book. split; [reflexivity|].
  exact (upload_book_contract book_ObjectId book_oid_str sample_splitext same_case
           "Invalid file type. Allowed types: .pdf, .txt, .epub" "bucket"
           "eu-west-1" s3_accepts no_extractor no_extractor sample_extract_txt
           one_chunk index_accepts dragons_file reader_id 7 None "6f1c" book_world
           book Hok).
Defined.

Lemma upload_book_orphan_object_witness :
  let r := sample_upload blank_file in
  let key := book_key reader_id "6f1c" ".txt" in
  ∃ e,
    r.1 = Raise e ∧
    (∃ content_type,
       BookService.objects r.2 !! key
       = Some (BookService.content blank_file, content_type)) ∧
    BookService.books r.2 = BookService.books book_world ∧
    BookService.index r.2 = BookService.index book_world ∧
    (BookService.extract_text no_extractor no_extractor sample_extract_txt
       blank_file ".txt" = Raise e ∨
     (BookService.extract_text no_extractor no_extractor sample_extract_txt
        blank_file ".txt" = Ok "" ∧
      e = ValueError "No text content could be extracted from the file") ∨
     (book_ObjectId reader_id = None ∧ e = InvalidId)).
Proof.
  intros r key.
  destruct r.1 as [e|book] eqn:Hfail; [|vm_compute in Hfail; discriminate].
  exists e. split; [reflexivity|].
  apply (upload_book_orphan_object book_ObjectId book_oid_str sample_splitext
           same_case "Invalid file type. Allowed types: .pdf, .txt, .epub"
           "bucket" "eu-west-1" s3_accepts no_extractor no_extractor
           sample_extract_txt one_chunk index_accepts blank_file reader_id 7 None
           "6f1c" book_world e);
    [change (".txt" ∈ [".pdf"; ".txt"; ".epub"]); rewrite !elem_of_cons; auto
    |vm_compute; discriminate|reflexivity|exact Hfail].
Defined.

Lemma upload_book_rejected_witness :
  ∃ message, sample_upload docx_file = (Raise (ValueError message), book_world).
Proof.
  apply (upload_book_rejected book_ObjectId book_oid_str sample_splitext same_case
           "Invalid file type. Allowed types: .pdf, .txt, .epub" "bucket"
           "eu-west-1" s3_accepts no_extractor no_extractor sample_extract_txt
           one_chunk index_accepts docx_file reader_id 7 None "6f1c" book_world).
  left. change (".docx" ∉ [".pdf"; ".txt"; ".epub"]).
  rewrite !not_elem_of_cons. repeat split; try discriminate. apply not_elem_of_nil.
Defined.

Lemma delete_book_removes_upload_witness :
  let r1 := sample_upload dragons_file in
  let key := book_key reader_id "6f1c" ".txt" in
  let r2 := BookService.delete_book book_ObjectId book_oid_str delete_accepts
              uploaded_book_id reader_id r1.2 in
  ∃ book,
    r1.1 = Ok book ∧
    r2.1 = Ok tt ∧
    BookService.books r2.2 !! BookService.book_id book = None ∧
    BookService.objects r2.2 !! key = None ∧
    BookService.books r2.2
    = delete (BookService.book_id book) (BookService.books r1.2).
Proof.
  intros r1 key r2.
  destruct r1.1 as [e|book] eqn:Hok; [vm_compute in Hok; discriminate|].
  exists book. split; [reflexivity|].
  apply (delete_book_removes_upload book_ObjectId book_oid_str sample_splitext
           same_case "Invalid file type. Allowed types: .pdf, .txt, .epub"
           "bucket" "eu-west-1" s3_accepts delete_accepts no_extractor
           no_extractor sample_extract_txt one_chunk index_accepts dragons_file
           reader_id 7 None "6f1c" uploaded_book_id book_world book Hok);
    try (vm_compute in Hok; injection Hok as <-); reflexivity.
Defined.

Lemma deleted_book_still_retrieved_witness :
  let r1 := sample_upload dragons_file in
  let r2 := BookService.delete_book book_ObjectId book_oid_str delete_accepts
              uploaded_book_id reader_id r1.2 in
  ∃ book,
    r1.1 = Ok book ∧
    BookService.books r2.2 !! BookService.book_id book = None ∧
    ∃ text,
      BookService.extract_text no_extractor no_extractor sample_extract_txt
        dragons_file (same_case (sample_splitext "dragons.txt")) = Ok text ∧
      ∀ doc,
        doc ∈ RAGIndexing.book_documents one_chunk
                (book_oid_str (BookService.book_id book))
                (BookService.book_title book) (BookService.book_author book)
                text reader_id 7 None →
        doc ∈ BookService.index r2.2 ∧
        ∀ include_stories, library_match reader_id 7 true include_stories doc = true.
Proof.
  intros r1 r2.
  destruct r1.1 as [e|book] eqn:Hok; [vm_compute in Hok; discriminate|].
  exists book. split; [reflexivity|].
  apply (deleted_book_still_retrieved book_ObjectId book_oid_str sample_splitext
           same_case "Invalid file type. Allowed types: .pdf, .txt, .epub"
           "bucket" "eu-west-1" s3_accepts delete_accepts no_extractor
           no_extractor sample_extract_txt one_chunk index_accepts dragons_file
           reader_id 7 None "6f1c" uploaded_book_id reader_id book_world book Hok);
    try (vm_compute in Hok; injection Hok as <-); reflexivity.
Defined.

(** ** What the story routes answer *)

Section StoryRoutes.

Import StoryService ErrorHandler.

Variable ObjectId : string -> option oid.
Variable similarity_search : string -> Z -> result (list RAGService.Document).
Variable llm : StoryGraph.Prompt -> string + string.
Variable completion : string -> string -> string + string.
Variable json_loads : string -> option json.
Variable generate_image : json -> Z -> string -> option string.
Variable mirror_image : string -> option string.
Variable oid_str : oid -> string.

(** X28. The error answers of the story routes. Creating a story fails
    only with the fixed 500 body: no detail of a failure of the model, the
    parser or the schema reaches the client. Reading a story answers 404 for
    a missing story, 403 for a story of another user and the fixed 500 for a
    malformed id. Asking for the questions answers 404 for a missing story
    and the fixed 500 otherwise, and never 403. A route that answers with an
    error has left the store as it was. *)
Theorem story_routes_error_responses :
  (∀ story_data user_id parent_name db,
     let r := StoriesRouter.create_story similarity_search llm json_loads
                generate_image mirror_image oid_str story_data user_id
                parent_name db in
     ∀ response, r.1 = inl response →
       response = mkJSONResponse 500 "Internal server error" ∧ r.2 = db) ∧
  (∀ sid user_id db,
     let r := StoriesRouter.get_story ObjectId sid user_id db in
     ∀ response, r.1 = inl response →
       r.2 = db ∧
       match ObjectId sid with
       | None => response = mkJSONResponse 500 "Internal server error"
       | Some s =>
           match stories db !! s with
           | None => response = mkJSONResponse 404 "Story not found"
           | Some story =>
               created_by story ≠ user_id ∧
               response = mkJSONResponse 403 "Unauthorized access to this story"
           end
       end) ∧
  (∀ sid user_id db,
     let r := StoriesRouter.get_questions ObjectId completion json_loads sid
                user_id db in
     ∀ response, r.1 = inl response →
       r.2 = db ∧
       (response = mkJSONResponse 404 "Story not found"
        ∨ response = mkJSONResponse 500 "Internal server error")).
Proof.
  split; [|split].
  - intros story_data user_id parent_name db r response. subst r.
    unfold StoriesRouter.create_story, StoriesRouter.route.
    destruct (create_story_cases similarity_search llm json_loads generate_image
                mirror_image oid_str story_data user_id parent_name db)
      as [(cause & Hv & Hdb)|(story_contents & Hv & Hdb)];
      unfold value_of, db_of in Hv, Hdb;
      destruct (create_story _ _ _ _ _ _ _ _ _ _) as [[v db1] calls];
      cbn [fst snd] in Hv, Hdb |- *; subst v db1; [|discriminate].
    intros [= <-]. split; reflexivity.
  - intros sid user_id db r response. subst r.
    unfold StoriesRouter.get_story, StoriesRouter.route, get_story.
    service_steps.
    destruct (ObjectId sid) as [s|]; cbn; [|intros [= <-]; auto].
    destruct (stories db !! s) as [story|]; cbn; [|intros [= <-]; auto].
    destruct (decide (created_by story ≠ user_id)); cbn; [|discriminate].
    intros [= <-]. auto.
  - intros sid user_id db r response. subst r.
    unfold StoriesRouter.get_questions, StoriesRouter.route.
    rewrite create_assignment_unfold. cbn zeta.
    destruct (ObjectId sid) as [s|]; [|intros [= <-]; auto].
    destruct (List.find _ _); [discriminate|].
    destruct (stories db !! s) as [story|]; [|intros [= <-]; auto].
    destruct (QuestionGenerator.generate_questions_body _ _ _ _).1;
      [intros [= <-]; auto|].
    destruct (try! questions := Json.get _ "questions" (JArray []) in
              validate_questions questions); [intros [= <-]; auto|discriminate].
Qed.

End StoryRoutes.

(** ** Punctuation analysis *)

Section PunctuationFacts.

Import Punctuation.

Variable sent_tokenize : string -> result (list string).
Variable word_tokenize : string -> result (list string).

Lemma compare_from_sound (ts ss : list string) :
  ∀ (i : nat) (differences : list Difference) (d : Difference),
    compare_from word_tokenize i ts ss = Ok differences →
    d ∈ differences →
    ∃ t s tw sw,
      i ≤ sentence_index d ∧
      ts !! (sentence_index d - i) = Some t ∧
      ss !! (sentence_index d - i) = Some s ∧
      word_tokenize t = Ok tw ∧ word_tokenize s = Ok sw ∧
      transcript_punctuation d = List.filter is_punctuation tw ∧
      story_punctuation d = List.filter is_punctuation sw ∧
      transcript_punctuation d ≠ story_punctuation d.
Proof.
  revert ss. induction ts as [|t ts IH]; intros [|s ss] i differences d;
    try (intros [= <-] Hd; inversion Hd).
  cbn [compare_from].
  destruct (word_tokenize t) as [e|tw] eqn:Ht; [discriminate|].
  destruct (word_tokenize s) as [e|sw] eqn:Hs; [discriminate|]. cbn [bind].
  destruct (compare_from word_tokenize (S i) ts ss) as [e|rest] eqn:Hrest;
    [discriminate|]. cbn [bind].
  intros [= <-] Hd.
  assert (d ∈ rest →
          ∃ t0 s0 tw0 sw0,
            i ≤ sentence_index d ∧
            (t :: ts) !! (sentence_index d - i) = Some t0 ∧
            (s :: ss) !! (sentence_index d - i) = Some s0 ∧
            word_tokenize t0 = Ok tw0 ∧ word_tokenize s0 = Ok sw0 ∧
            transcript_punctuation d = List.filter is_punctuation tw0 ∧
            story_punctuation d = List.filter is_punctuation sw0 ∧
            transcript_punctuation d ≠ story_punctuation d) as Hlater.
  { intros Hin.
    destruct (IH ss (S i) rest d Hrest Hin)
      as (t0 & s0 & tw0 & sw0 & Hi & Hts & Hss & H).
    exists t0, s0, tw0, sw0. split; [lia|].
    replace (sentence_index d - i) with (S (sentence_index d - S i)) by lia.
    split; [exact Hts|]. split; [exact Hss|exact H]. }
  destruct (decide (List.filter is_punctuation tw ≠ List.filter is_punctuation sw))
    as [Hne|Heq]; [|exact (Hlater Hd)].
  apply elem_of_cons in Hd as [->|Hd]; [|exact (Hlater Hd)].
  exists t, s, tw, sw. cbn [sentence_index transcript_punctuation story_punctuation].
  rewrite Nat.sub_diag. repeat split; try assumption. lia.
Qed.

Lemma compare_from_same (ts : list string) :
  ∀ i, compare_from word_tokenize i ts ts = Ok []
       ∨ ∃ e, compare_from word_tokenize i ts ts = Raise e.
Proof.
  induction ts as [|t ts IH]; intros i; [left; reflexivity|].
  cbn [compare_from].
  destruct (word_tokenize t) as [e|tw]; [right; eexists; reflexivity|].
  cbn [bind]. destruct (IH (S i)) as [->|[e ->]]; [|right; eexists; reflexivity].
  cbn [bind]. rewrite decide_False by (intros Hne; apply Hne; reflexivity).
  left. reflexivity.
Qed.

(** X29. [analyze_punctuation] reports only real differences: every entry
    names a sentence that both the transcript and the story have, carries
    the punctuation tokens of the two sentences at that position, and these
    differ. Sentences beyond the shorter of the two texts are never
    reported, and a transcript equal to the story gives no entry. *)
Theorem analyze_punctuation_sound (transcript story : string) :
  (∀ d, d ∈ analyze_punctuation sent_tokenize word_tokenize transcript story →
     ∃ ts ss t s tw sw,
       sent_tokenize transcript = Ok ts ∧ sent_tokenize story = Ok ss ∧
       ts !! sentence_index d = Some t ∧ ss !! sentence_index d = Some s ∧
       word_tokenize t = Ok tw ∧ word_tokenize s = Ok sw ∧
       transcript_punctuation d = List.filter is_punctuation tw ∧
       story_punctuation d = List.filter is_punctuation sw ∧
       transcript_punctuation d ≠ story_punctuation d) ∧
  analyze_punctuation sent_tokenize word_tokenize story story = [].
Proof.
  split.
  - intros d. unfold analyze_punctuation.
    destruct (sent_tokenize transcript) as [e|ts]; [intros Hd; inversion Hd|].
    destruct (sent_tokenize story) as [e|ss]; [intros Hd; inversion Hd|].
    cbn [bind].
    destruct (compare_from word_tokenize 0 ts ss) as [e|differences] eqn:Hc;
      [intros Hd; inversion Hd|].
    intros Hd.
    destruct (compare_from_sound ts ss 0 differences d Hc Hd)
      as (t & s & tw & sw & _ & Hts & Hss & H).
    rewrite Nat.sub_0_r in Hts, Hss.
    exists ts, ss, t, s, tw, sw. auto.
  - unfold analyze_punctuation.
    destruct (sent_tokenize story) as [e|ss]; [reflexivity|]. cbn [bind].
    destruct (compare_from_same ss 0) as [->|[e ->]]; reflexivity.
Qed.

End PunctuationFacts.

Example punctuation_length : String.length Punctuation.punctuation = 32.
Proof. reflexivity. Qed.

(** ** Authentication *)

Section Authentication.

Import Auth.

Variable ObjectId : string -> option StoryService.oid.
Variable verify_token : string -> option string.

(** X30. [get_current_user] answers 401 only for a missing, empty or
    undecodable token. A token that decodes but names a user that no longer
    exists, or a malformed id, is answered with 500: the 401 "User not
    found" raised for it is caught by the function's own handler and never
    reaches the client. A user is returned only for a token that decodes to
    the id under which that user is stored. *)
Theorem get_current_user_status (cookies : gmap string string)
    (users : gmap StoryService.oid User) :
  match get_current_user ObjectId verify_token cookies users with
  | inr user =>
      ∃ token user_id i,
        cookies !! "jwt" = Some token ∧ verify_token token = Some user_id ∧
        ObjectId user_id = Some i ∧ users !! i = Some user
  | inl h =>
      BooksRouter.detail h ≠ "User not found" ∧
      match cookies !! "jwt" with
      | None => h = BooksRouter.mkHTTPException 401 "Not authenticated"
      | Some token =>
          if decide (token = "")
          then h = BooksRouter.mkHTTPException 401 "Not authenticated"
          else
            match verify_token token with
            | None => h = BooksRouter.mkHTTPException 401 "Invalid or expired token"
            | Some user_id =>
                if decide (user_id = "")
                then h = BooksRouter.mkHTTPException 401 "Invalid or expired token"
                else
                  h = BooksRouter.mkHTTPException 500 "Error authenticating user" ∧
                  (ObjectId user_id = None
                   ∨ ∃ i, ObjectId user_id = Some i ∧ users !! i = None)
            end
      end
  end.
Proof.
  unfold get_current_user, lookup_user.
  destruct (cookies !! "jwt") as [token|] eqn:Hcookie;
    [|split; [discriminate|reflexivity]].
  destruct (decide (token = "")); [split; [discriminate|reflexivity]|].
  destruct (verify_token token) as [user_id|] eqn:Htoken;
    [|split; [discriminate|reflexivity]].
  destruct (decide (user_id = "")); [split; [discriminate|reflexivity]|].
  destruct (ObjectId user_id) as [i|] eqn:Hid;
    [|split; [discriminate|split; [reflexivity|left; reflexivity]]].
  destruct (users !! i) as [user|] eqn:Huser.
  - exists token, user_id, i. repeat split; assumption.
  - split; [discriminate|]. split; [reflexivity|]. right. exists i. auto.
Qed.

End Authentication.
